(** * GitSourceControlUtils: status, lock and history synchronisation

    A shallow embedding of the parsing, caching and batching core of
    [Source/GitSourceControl/Private/GitSourceControlUtils.cpp], and the
    properties of it that the design document states.

    Conventions of the embedding.
    - An [FString] is a [string]; a [TCHAR] is an [ascii] character.
    - [FString::operator==], and with it the keys of [TMap] and [TSet],
      ignore case.  Maps and sets keyed by paths are [gmap]/[list] keyed
      by [string]: a key stands for its class up to case.  Where the
      source compares two values with [==] the embedding uses
      [FString.Equals].
    - The process boundary is [FPlatformProcess::ExecProcess]: the
      environment answers an invocation with an exit code and the two
      output streams; every invocation is recorded in the world's trace.
    - Mutable process-wide state (the lock cache, the provider's state
      cache) lives in an explicit [World] threaded through the
      operations.
    - A [TMap] is iterated in the order of [map_to_list]; no property
      below depends on that order.
    - A failed range check of the engine ([operator[]] past the end of a
      string) ends the operation without result: [None]. *)

From Stdlib Require Import ZArith List String Ascii Bool Lia.
From stdpp Require Import base option list gmap strings.

Local Open Scope string_scope.
Local Open Scope list_scope.

(** ** Unreal Engine string primitives used by the source *)

Module FString.

Definition TCHAR := ascii.

Definition dquote : ascii := Eval cbv in ascii_of_nat 34.
Definition tab : ascii := Eval cbv in ascii_of_nat 9.
Definition newline : ascii := Eval cbv in ascii_of_nat 10.

(** [FChar::ToUpper] on the ASCII range. *)
Definition ToUpper (c : ascii) : ascii :=
  let n := nat_of_ascii c in
  if (97 <=? n)%nat && (n <=? 122)%nat then ascii_of_nat (n - 32) else c.

(** [FChar::IsWhitespace] on the ASCII range. *)
Definition IsWhitespace (c : ascii) : bool :=
  let n := nat_of_ascii c in
  ((9 <=? n)%nat && (n <=? 13)%nat) || (n =? 32)%nat.

Fixpoint ToUpperStr (s : string) : string :=
  match s with
  | EmptyString => EmptyString
  | String c s' => String (ToUpper c) (ToUpperStr s')
  end.

Definition Len (s : string) : Z := Z.of_nat (String.length s).

Definition IsEmpty (s : string) : bool :=
  match s with EmptyString => true | _ => false end.

(** [operator[]]: checked access, [None] where the engine's range
    check fails. *)
Definition at_ (s : string) (i : nat) : option ascii := String.get i s.

Fixpoint drop_chars (n : nat) (s : string) : string :=
  match n, s with
  | O, _ => s
  | S n', String _ s' => drop_chars n' s'
  | S _, EmptyString => EmptyString
  end.

Fixpoint take_chars (n : nat) (s : string) : string :=
  match n, s with
  | O, _ => EmptyString
  | S n', String c s' => String c (take_chars n' s')
  | S _, EmptyString => EmptyString
  end.

(** [RightChop(Count)]: the string without its first [Count] characters;
    [Count] is clamped to [0 .. Len()]. *)
Definition RightChop (Count : Z) (s : string) : string :=
  drop_chars (Z.to_nat Count) s.

(** [Left(Count)]: the first [Count] characters, [Count] clamped. *)
Definition Left (Count : Z) (s : string) : string :=
  take_chars (Z.to_nat Count) s.

(** [Right(Count)]: the last [Count] characters, [Count] clamped. *)
Definition Right (Count : Z) (s : string) : string :=
  drop_chars (String.length s - Z.to_nat Count) s.

(** [Mid(Start, Count)]: empty for a negative [Count]; otherwise the
    characters from [Clamp(Start, 0, Len)] up to
    [Clamp(Start + Count, that start, Len)]. *)
Definition Mid (Start Count : Z) (s : string) : string :=
  if (Count <? 0)%Z then EmptyString
  else
    let len := Len s in
    let st := Z.max 0 (Z.min Start len) in
    let en := Z.max st (Z.min (Start + Count) len) in
    take_chars (Z.to_nat (en - st)) (drop_chars (Z.to_nat st) s).

(** [FindChar]: index of the first occurrence. *)
Fixpoint FindChar (c : ascii) (s : string) : option nat :=
  match s with
  | EmptyString => None
  | String d s' =>
      if Ascii.eqb d c then Some O else S <$> FindChar c s'
  end.

(** [FindLastChar]: index of the last occurrence. *)
Fixpoint FindLastChar (c : ascii) (s : string) : option nat :=
  match s with
  | EmptyString => None
  | String d s' =>
      match FindLastChar c s' with
      | Some i => Some (S i)
      | None => if Ascii.eqb d c then Some O else None
      end
  end.

(** Last character of a string, if any. *)
Fixpoint last_char (s : string) : option ascii :=
  match s with
  | EmptyString => None
  | String c EmptyString => Some c
  | String _ s' => last_char s'
  end.

(** [TrimQuotes]: drops one leading double quote if the string starts
    with one, and one trailing double quote if the string is longer
    than one character and ends with one. *)
Definition TrimQuotes (s : string) : string :=
  match s with
  | EmptyString => EmptyString
  | String c rest =>
      let Start := if Ascii.eqb c dquote then 1%nat else 0%nat in
      let Count0 := (String.length s - Start)%nat in
      let Count :=
        if (1 <? String.length s)%nat
           && bool_decide (last_char s = Some dquote)
        then (Count0 - 1)%nat else Count0 in
      take_chars Count (drop_chars Start s)
  end.

(** [TrimEnd]: drops trailing whitespace. *)
Fixpoint TrimEnd (s : string) : string :=
  match s with
  | EmptyString => EmptyString
  | String c s' =>
      match TrimEnd s' with
      | EmptyString => if IsWhitespace c then EmptyString else String c EmptyString
      | t => String c t
      end
  end.

Fixpoint prefixb (p s : string) : bool :=
  match p, s with
  | EmptyString, _ => true
  | String a p', String b s' => Ascii.eqb a b && prefixb p' s'
  | String _ _, EmptyString => false
  end.

(** [StartsWith(Prefix)] with the default [ESearchCase::IgnoreCase]:
    false for an empty prefix. *)
Definition StartsWith (Prefix s : string) : bool :=
  negb (IsEmpty Prefix) && prefixb (ToUpperStr Prefix) (ToUpperStr s).

(** [StartsWith(Prefix, ESearchCase::CaseSensitive)]. *)
Definition StartsWithCS (Prefix s : string) : bool :=
  negb (IsEmpty Prefix) && prefixb Prefix s.

(** [EndsWith(Suffix)] with the default [ESearchCase::IgnoreCase]. *)
Definition EndsWith (Suffix s : string) : bool :=
  negb (IsEmpty Suffix)
  && (String.length Suffix <=? String.length s)%nat
  && String.eqb (ToUpperStr Suffix)
       (ToUpperStr (drop_chars (String.length s - String.length Suffix) s)).

Fixpoint contains_from (SubStr s : string) : bool :=
  prefixb SubStr s
  || match s with
     | EmptyString => false
     | String _ s' => contains_from SubStr s'
     end.

(** [Contains(SubStr)] with the default [ESearchCase::IgnoreCase]: the
    substring occurs at some position (an empty one at position 0). *)
Definition Contains (SubStr s : string) : bool :=
  contains_from (ToUpperStr SubStr) (ToUpperStr s).

(** [operator==] / [Equals(.., IgnoreCase)]. *)
Definition Equals (a b : string) : bool :=
  String.eqb (ToUpperStr a) (ToUpperStr b).

(** [ParseIntoArray(Out, Delim, true)] for a one-character delimiter:
    the pieces between delimiters, empty pieces culled.  [cur] is the
    piece being read, in reverse. *)
Fixpoint split_cull (delim : ascii) (cur : list ascii) (s : string)
  : list string :=
  let flush (k : list string) :=
    match cur with
    | [] => k
    | _ => string_of_list_ascii (rev cur) :: k
    end in
  match s with
  | EmptyString => flush []
  | String c s' =>
      if Ascii.eqb c delim then flush (split_cull delim [] s')
      else split_cull delim (c :: cur) s'
  end.

Definition ParseIntoArray (delim : ascii) (s : string) : list string :=
  split_cull delim [] s.

Local Open Scope Z_scope.

(** [FParse::HexDigit]: 0 for a character that is no hexadecimal digit. *)
Definition HexDigit (c : ascii) : Z :=
  let n := Z.of_nat (nat_of_ascii c) in
  if (48 <=? n)%Z && (n <=? 57)%Z then n - 48
  else if (97 <=? n)%Z && (n <=? 102)%Z then n - 97 + 10
  else if (65 <=? n)%Z && (n <=? 70)%Z then n - 65 + 10
  else 0.

(** [FParse::HexNumber]: accumulates in a [uint32]. *)
Fixpoint HexNumber_from (acc : Z) (s : string) : Z :=
  match s with
  | EmptyString => acc
  | String c s' => HexNumber_from ((acc * 16 + HexDigit c) mod 2 ^ 32) s'
  end.

Definition HexNumber (s : string) : Z := HexNumber_from 0 s.

(** The [uint32] result stored in an [int32] member. *)
Definition to_int32 (z : Z) : Z :=
  let m := z mod 2 ^ 32 in if (m <? 2 ^ 31)%Z then m else m - 2 ^ 32.

Definition is_digit (c : ascii) : bool :=
  let n := nat_of_ascii c in (48 <=? n)%nat && (n <=? 57)%nat.

Fixpoint digits_from (acc : Z) (s : string) : Z :=
  match s with
  | String c s' =>
      if is_digit c
      then digits_from (acc * 10 + (Z.of_nat (nat_of_ascii c) - 48)) s'
      else acc
  | EmptyString => acc
  end.

Fixpoint skip_space (s : string) : string :=
  match s with
  | String c s' => if IsWhitespace c then skip_space s' else s
  | EmptyString => EmptyString
  end.

(** The number a string starts with, as the C library reads it: leading
    whitespace, an optional sign, then the longest run of decimal
    digits. *)
Definition number_prefix (s : string) : Z :=
  match skip_space s with
  | String "-"%char s' => - digits_from 0 s'
  | String "+"%char s' => digits_from 0 s'
  | t => digits_from 0 t
  end.

(** The C library's [strtol] in base 10: that number, saturated at the
    range of a 64-bit [long]. *)
Definition Strtol (s : string) : Z :=
  Z.max (- 2 ^ 63) (Z.min (2 ^ 63 - 1) (number_prefix s)).

(** [FCString::Atoi]: an [int32], the [long] of [strtol] truncated to 32
    bits, as the standard platform layer of the engine computes it. *)
Definition Atoi (s : string) : Z := to_int32 (Strtol s).

End FString.

(** ** Data model *)

(** Modelled from the spec: the four state enumerations of
    [GitSourceControlState.h] (section 3 of the design document). *)
Module EFileState.
Inductive t :=
| Unset | Unknown | Unmodified | Added | Deleted | Modified
| Renamed | Copied | Missing | Unmerged.
#[global] Instance eq_dec : EqDecision t.
Proof. solve_decision. Defined.
End EFileState.

Module ETreeState.
Inductive t :=
| Unset | Unmodified | Untracked | Ignored | Staged | Working | NotInRepo.
#[global] Instance eq_dec : EqDecision t.
Proof. solve_decision. Defined.
End ETreeState.

Module ELockState.
Inductive t := Unset | Unlockable | NotLocked | Locked | LockedOther.
#[global] Instance eq_dec : EqDecision t.
Proof. solve_decision. Defined.
End ELockState.

Module ERemoteState.
Inductive t := Unset | UpToDate | NotLatest | NotAtHead.
#[global] Instance eq_dec : EqDecision t.
Proof. solve_decision. Defined.
End ERemoteState.

(** [FGitState]: the per-file composite state. *)
Record FGitState := mkGitState {
  FileState : EFileState.t;
  TreeState : ETreeState.t;
  LockState : ELockState.t;
  LockUser : string;
  RemoteState : ERemoteState.t;
  HeadBranch : string
}.

(** Pending conflict metadata ([PendingResolveInfo]). *)
Record FResolveInfo := mkResolveInfo {
  BaseFile : string;
  BaseRevision : string;
  RemoteFile : string;
  RemoteRevision : string
}.

Definition NoResolveInfo : FResolveInfo := mkResolveInfo "" "" "" "".

(** [FGitSourceControlState]: one entry of the per-file cache.
    [TimeStamp] is an [FDateTime] in ticks. *)
Record FGitSourceControlState := mkSourceControlState {
  LocalFilename : string;
  State : FGitState;
  PendingResolveInfo : FResolveInfo;
  TimeStamp : Z
}.

Definition set_State (f : FGitState -> FGitState) (s : FGitSourceControlState)
  : FGitSourceControlState :=
  mkSourceControlState (LocalFilename s) (f (State s)) (PendingResolveInfo s)
    (TimeStamp s).

Definition set_FileState (v : EFileState.t) (g : FGitState) : FGitState :=
  mkGitState v (TreeState g) (LockState g) (LockUser g) (RemoteState g)
    (HeadBranch g).

Definition set_TreeState (v : ETreeState.t) (g : FGitState) : FGitState :=
  mkGitState (FileState g) v (LockState g) (LockUser g) (RemoteState g)
    (HeadBranch g).

Definition set_LockState (v : ELockState.t) (g : FGitState) : FGitState :=
  mkGitState (FileState g) (TreeState g) v (LockUser g) (RemoteState g)
    (HeadBranch g).

Definition set_LockUser (v : string) (g : FGitState) : FGitState :=
  mkGitState (FileState g) (TreeState g) (LockState g) v (RemoteState g)
    (HeadBranch g).

Definition set_RemoteState (v : ERemoteState.t) (g : FGitState) : FGitState :=
  mkGitState (FileState g) (TreeState g) (LockState g) (LockUser g) v
    (HeadBranch g).

Definition set_HeadBranch (v : string) (g : FGitState) : FGitState :=
  mkGitState (FileState g) (TreeState g) (LockState g) (LockUser g)
    (RemoteState g) v.

Definition set_PendingResolveInfo (v : FResolveInfo)
  (s : FGitSourceControlState) : FGitSourceControlState :=
  mkSourceControlState (LocalFilename s) (State s) v (TimeStamp s).

Definition set_TimeStamp (v : Z) (s : FGitSourceControlState)
  : FGitSourceControlState :=
  mkSourceControlState (LocalFilename s) (State s) (PendingResolveInfo s) v.

(** Modelled from the spec: [FGitSourceControlState::IsConflicted] of
    [GitSourceControlState.cpp]; section 4.4 triggers the secondary lookup
    for a file "classified Unmerged". *)
Definition IsConflicted (s : FGitSourceControlState) : bool :=
  bool_decide (FileState (State s) = EFileState.Unmerged).

(** ** The environment and the world *)

(** One launch of the external binary, as [RunCommandInternalRaw] receives
    it. *)
Record CmdLine := mkCmdLine {
  Command : string;
  PathToBinary : string;
  RepositoryRoot : string;
  Parameters : list string;
  Files : list string
}.

#[global] Instance CmdLine_eq_dec : EqDecision CmdLine.
Proof. solve_decision. Defined.

Record ProcessOutput := mkProcessOutput {
  ReturnCode : Z;
  StdOut : string;
  StdErr : string
}.

(** What the operations read but do not own.
    - [ExecProcess trace cl]: the answer of the process launched with
      [cl] after the launches in [trace].
    - [Now]: [FDateTime::Now()], in ticks.
    - [ModuleAvailable]: whether [FGitSourceControlModule::GetThreadSafe()]
      is non-null.
    - [ProviderLockUser], [UsesCheckout]: [GetLockUser()] and
      [UsesCheckout()] of the provider.
    - [StateIsUnknown], [StateCanAdd]: [IsUnknown()] and [CanAdd()] of
      [FGitSourceControlState], which [GitSourceControlState.h] declares.
    - [DefaultGitState]: the value of a default-constructed [FGitState].
    - [IndeterminateTreeState]: what reading a [TreeState] member that was
      never assigned yields.
    - [LFSLockBinary]: the git-lfs binary under the plugin directory. *)
Record Env := mkEnv {
  ExecProcess : list CmdLine -> CmdLine -> ProcessOutput;
  Now : Z;
  FileExists : string -> bool;
  ConvertRelativePathToFull : string -> string -> string;
  ModuleAvailable : bool;
  ProviderLockUser : string;
  UsesCheckout : bool;
  LockableTypes : list string;
  LFSLockBinary : string;
  StateIsUnknown : FGitSourceControlState -> bool;
  StateCanAdd : FGitSourceControlState -> bool;
  DefaultGitState : FGitState;
  IndeterminateTreeState : ETreeState.t
}.

(** The mutable state.
    - [Trace]: the processes launched so far, oldest first.
    - [LastUpdated], [LockedFiles]: the statics of [FGitLockedFilesCache].
    - [ReadOnlyLog]: the [SetReadOnly(path, flag)] calls made so far.
    - [StateCache], [IgnoreForceCache]: the provider's per-file cache and
      its list of files to skip at the next forced refresh. *)
Record World := mkWorld {
  Trace : list CmdLine;
  LastUpdated : Z;
  LockedFiles : gmap string string;
  ReadOnlyLog : list (string * bool);
  StateCache : gmap string FGitSourceControlState;
  IgnoreForceCache : list string
}.

Definition set_Trace (v : list CmdLine) (w : World) : World :=
  mkWorld v (LastUpdated w) (LockedFiles w) (ReadOnlyLog w) (StateCache w)
    (IgnoreForceCache w).

Definition set_LastUpdated (v : Z) (w : World) : World :=
  mkWorld (Trace w) v (LockedFiles w) (ReadOnlyLog w) (StateCache w)
    (IgnoreForceCache w).

Definition set_LockedFiles (v : gmap string string) (w : World) : World :=
  mkWorld (Trace w) (LastUpdated w) v (ReadOnlyLog w) (StateCache w)
    (IgnoreForceCache w).

Definition set_ReadOnlyLog (v : list (string * bool)) (w : World) : World :=
  mkWorld (Trace w) (LastUpdated w) (LockedFiles w) v (StateCache w)
    (IgnoreForceCache w).

Definition set_StateCache (v : gmap string FGitSourceControlState)
  (w : World) : World :=
  mkWorld (Trace w) (LastUpdated w) (LockedFiles w) (ReadOnlyLog w) v
    (IgnoreForceCache w).

Definition set_IgnoreForceCache (v : list string) (w : World) : World :=
  mkWorld (Trace w) (LastUpdated w) (LockedFiles w) (ReadOnlyLog w)
    (StateCache w) v.

(** State passing over the world. *)
Definition M (A : Type) : Type := World -> A * World.

#[global] Instance M_ret : MRet M := fun A (a : A) w => (a, w).
#[global] Instance M_bind : MBind M :=
  fun A B (f : A -> M B) (m : M A) w => let '(a, w') := m w in f a w'.

Definition get_world : M World := fun w => (w, w).
Definition modify_world (f : World -> World) : M unit := fun w => (tt, f w).

(** ** Command gateway *)

Module GitSourceControlConstants.
(** The maximum number of files submitted in a single command. *)
Definition MaxFilesPerBatch : nat := 50.
End GitSourceControlConstants.

(** [RunCommandInternalRaw] from the process launch on: the launch is
    recorded, and with the expected exit code (0) a non-empty error stream
    is moved to the end of the result stream. *)
Definition RunCommandInternalRaw (E : Env) (cl : CmdLine)
  : M (bool * string * string) :=
  fun w =>
    let out := ExecProcess E (Trace w) cl in
    let w' := set_Trace (Trace w ++ [cl]) w in
    let ok := (ReturnCode out =? 0)%Z in
    if ok && (0 <? FString.Len (StdErr out))%Z
    then ((ok, StdOut out +:+ StdErr out, ""), w')
    else ((ok, StdOut out, StdErr out), w').

(** [RunCommandInternal]: both output arrays are rebuilt from the streams
    ([ParseIntoArray] resets its output array). *)
Definition RunCommandInternal (E : Env) (InCommand InPathToGitBinary
  InRepositoryRoot : string) (InParameters InFiles : list string)
  : M (bool * list string * list string) :=
  '(bResult, Results, Errors) ←
    RunCommandInternalRaw E
      (mkCmdLine InCommand InPathToGitBinary InRepositoryRoot InParameters
         InFiles);
  mret (bResult,
        FString.ParseIntoArray FString.newline Results,
        FString.ParseIntoArray FString.newline Errors).

(** The inner [for] loop of the batching code: the files from index
    [FileCount] on, at most [MaxFilesPerBatch] of them. *)
Definition FilesInBatch (InFiles : list string) (FileCount : nat)
  : list string :=
  take GitSourceControlConstants.MaxFilesPerBatch (drop FileCount InFiles).

(** The batches the [while (FileCount < InFiles.Num())] loops go through
    from index [FileCount] on, one per pass. *)
Fixpoint loop_batches (fuel : nat) (InFiles : list string) (FileCount : nat)
  : list (list string) :=
  match fuel with
  | O => []
  | S fuel' =>
      if (FileCount <? length InFiles)%nat then
        let Batch := FilesInBatch InFiles FileCount in
        Batch :: loop_batches fuel' InFiles (FileCount + length Batch)%nat
      else []
  end.

(** The [while (FileCount < InFiles.Num())] loop of [RunCommand]. *)
Fixpoint RunCommand_loop (E : Env) (fuel : nat) (InCommand InPathToGitBinary
  InRepositoryRoot : string) (InParameters InFiles : list string)
  (FileCount : nat) (bResult : bool) (OutResults OutErrorMessages : list string)
  : M (bool * list string * list string) :=
  match fuel with
  | O => mret (bResult, OutResults, OutErrorMessages)
  | S fuel' =>
      if (FileCount <? length InFiles)%nat then
        let Batch := FilesInBatch InFiles FileCount in
        '(r, BatchResults, BatchErrors) ←
          RunCommandInternal E InCommand InPathToGitBinary InRepositoryRoot
            InParameters Batch;
        RunCommand_loop E fuel' InCommand InPathToGitBinary InRepositoryRoot
          InParameters InFiles (FileCount + length Batch)%nat
          (bResult && r) (OutResults ++ BatchResults)
          (OutErrorMessages ++ BatchErrors)
      else mret (bResult, OutResults, OutErrorMessages)
  end.

(** [RunCommand]: one launch, or one launch per batch of files.  Every
    pass of the loop consumes at least one file, so [length InFiles]
    passes are enough. *)
Definition RunCommand (E : Env) (InCommand InPathToGitBinary
  InRepositoryRoot : string) (InParameters InFiles : list string)
  (OutResults OutErrorMessages : list string)
  : M (bool * list string * list string) :=
  if (GitSourceControlConstants.MaxFilesPerBatch <? length InFiles)%nat then
    RunCommand_loop E (length InFiles) InCommand InPathToGitBinary
      InRepositoryRoot InParameters InFiles 0 true OutResults OutErrorMessages
  else
    RunCommandInternal E InCommand InPathToGitBinary InRepositoryRoot
      InParameters InFiles.

(** [RunLFSCommand] as built with [GIT_USE_CUSTOM_LFS]: the command goes
    to the bundled git-lfs binary. *)
Definition RunLFSCommand (E : Env) (InCommand InRepositoryRoot
  GitBinaryFallback : string) (InParameters InFiles : list string)
  (OutResults OutErrorMessages : list string)
  : M (bool * list string * list string) :=
  RunCommand E InCommand (LFSLockBinary E) InRepositoryRoot InParameters
    InFiles OutResults OutErrorMessages.

(** The [while] loop of [RunCommit]: every further batch is added and
    then committed with the amending parameters. *)
Fixpoint RunCommit_loop (E : Env) (fuel : nat) (InPathToGitBinary
  InRepositoryRoot : string) (AddParameters Parameters InFiles : list string)
  (FileCount : nat) (bResult : bool) (OutResults OutErrorMessages : list string)
  : M (bool * list string * list string) :=
  match fuel with
  | O => mret (bResult, OutResults, OutErrorMessages)
  | S fuel' =>
      if (FileCount <? length InFiles)%nat then
        let Batch := FilesInBatch InFiles FileCount in
        '(r1, OutResults1, OutErrorMessages1) ←
          RunCommandInternal E "add" InPathToGitBinary InRepositoryRoot
            AddParameters Batch;
        '(r2, BatchResults, BatchErrors) ←
          RunCommandInternal E "commit" InPathToGitBinary InRepositoryRoot
            Parameters Batch;
        RunCommit_loop E fuel' InPathToGitBinary InRepositoryRoot
          AddParameters Parameters InFiles (FileCount + length Batch)%nat
          (bResult && r1 && r2) (OutResults1 ++ BatchResults)
          (OutErrorMessages1 ++ BatchErrors)
      else mret (bResult, OutResults, OutErrorMessages)
  end.

(** [RunCommit]: a "commit" command by batches. *)
Definition RunCommit (E : Env) (InPathToGitBinary InRepositoryRoot : string)
  (InParameters InFiles : list string)
  (OutResults OutErrorMessages : list string)
  : M (bool * list string * list string) :=
  let AddParameters := ["-A"] in
  if (GitSourceControlConstants.MaxFilesPerBatch <? length InFiles)%nat then
    let Batch := take GitSourceControlConstants.MaxFilesPerBatch InFiles in
    let FileCount := GitSourceControlConstants.MaxFilesPerBatch in
    '(r1, OutResults1, OutErrorMessages1) ←
      RunCommandInternal E "add" InPathToGitBinary InRepositoryRoot
        AddParameters Batch;
    '(r2, OutResults2, OutErrorMessages2) ←
      RunCommandInternal E "commit" InPathToGitBinary InRepositoryRoot
        InParameters Batch;
    let Parameters := InParameters ++ ["--amend"] in
    RunCommit_loop E (length InFiles) InPathToGitBinary InRepositoryRoot
      AddParameters Parameters InFiles FileCount (true && r1 && r2)
      OutResults2 OutErrorMessages2
  else
    '(r1, OutResults1, OutErrorMessages1) ←
      RunCommandInternal E "add" InPathToGitBinary InRepositoryRoot
        AddParameters InFiles;
    '(r2, OutResults2, OutErrorMessages2) ←
      RunCommandInternal E "commit" InPathToGitBinary InRepositoryRoot
        InParameters InFiles;
    mret (r2, OutResults2, OutErrorMessages2).

(** ** Parsers of single lines *)

Module LocksParser.
Record t := mk { LocalFilename : string; LockUser : string }.
End LocksParser.

(** [FGitLfsLocksParser]: one line of "git lfs locks",
    [path<TAB>user<TAB>ID:n] with the user possibly missing. *)
Definition FGitLfsLocksParser (E : Env) (InRepositoryRoot InStatus : string)
  (bAbsolutePaths : bool) : LocksParser.t :=
  let Informations := FString.ParseIntoArray FString.tab InStatus in
  match Informations with
  | I0 :: I1 :: _ =>
      let I0 := FString.TrimEnd I0 in
      let I1 := FString.TrimEnd I1 in
      let LocalFilename :=
        if bAbsolutePaths then ConvertRelativePathToFull E InRepositoryRoot I0
        else I0 in
      if (length Informations =? 2)%nat || FString.IsEmpty I1
         || FString.StartsWith "ID:" I1
      then LocksParser.mk LocalFilename (ProviderLockUser E)
      else LocksParser.mk LocalFilename I1
  | _ => LocksParser.mk "" ""
  end.

(** [FilenameFromGitStatus]: the relative filename of a status line. *)
Definition FilenameFromGitStatus (InResult : string) : string :=
  let Result :=
    match FString.FindLastChar ">"%char InResult with
    | Some RenameIndex => FString.RightChop (Z.of_nat RenameIndex + 2) InResult
    | None => FString.RightChop 3 InResult
    end in
  FString.TrimQuotes Result.

Module StatusParser.
(** The two members of [FGitStatusParser] after construction;
    [TreeState = None] when the constructor never assigned it. *)
Record t := mk { FileState : EFileState.t; TreeState : option ETreeState.t }.
End StatusParser.

(** The constructor of [FGitStatusParser]; [None] when the line has no
    first or no second character to read. *)
Definition FGitStatusParser (InResult : string) : option StatusParser.t :=
  match FString.at_ InResult 0, FString.at_ InResult 1 with
  | Some IndexState, Some WCopyState =>
      let is_ (c d : ascii) := Ascii.eqb c d in
      if (is_ IndexState "U"%char || is_ WCopyState "U"%char)
         || (is_ IndexState "A"%char && is_ WCopyState "A"%char)
         || (is_ IndexState "D"%char && is_ WCopyState "D"%char)
      then Some (StatusParser.mk EFileState.Unmerged (Some ETreeState.Working))
      else
        let TreeState :=
          if is_ IndexState " "%char then Some ETreeState.Working
          else if is_ WCopyState " "%char then Some ETreeState.Staged
          else None in
        Some
          (if is_ IndexState "?"%char || is_ WCopyState "?"%char
           then StatusParser.mk EFileState.Unknown (Some ETreeState.Untracked)
           else if is_ IndexState "!"%char || is_ WCopyState "!"%char
           then StatusParser.mk EFileState.Unknown (Some ETreeState.Ignored)
           else if is_ IndexState "A"%char
           then StatusParser.mk EFileState.Added TreeState
           else if is_ IndexState "D"%char
           then StatusParser.mk EFileState.Deleted TreeState
           else if is_ WCopyState "D"%char
           then StatusParser.mk EFileState.Missing TreeState
           else if is_ IndexState "M"%char || is_ WCopyState "M"%char
           then StatusParser.mk EFileState.Modified TreeState
           else if is_ IndexState "R"%char
           then StatusParser.mk EFileState.Renamed TreeState
           else if is_ IndexState "C"%char
           then StatusParser.mk EFileState.Copied TreeState
           else StatusParser.mk EFileState.Unknown TreeState)
  | _, _ => None
  end.

(** Reading the [TreeState] member of a constructed parser. *)
Definition read_TreeState (E : Env) (p : StatusParser.t) : ETreeState.t :=
  default (IndeterminateTreeState E) (StatusParser.TreeState p).

(** [FGitConflictStatusParser] on the three lines of
    "git ls-files --unmerged" (engine 5.3 and later). *)
Definition FGitConflictStatusParser (Results0 Results2 : string)
  : FResolveInfo :=
  let CommonAncestorFileId := FString.Mid 7 40 Results0 in
  let CommonAncestorFilename := FString.Right 50 Results0 in
  let RemoteFileId := FString.Mid 7 40 Results2 in
  let RemoteFilename := FString.Right 50 Results2 in
  mkResolveInfo CommonAncestorFilename CommonAncestorFileId RemoteFilename
    RemoteFileId.

(** [RunGetConflictStatus]: the details of a conflict. *)
Definition RunGetConflictStatus (E : Env) (InPathToGitBinary InRepositoryRoot
  InFile : string) (InOutFileState : FGitSourceControlState)
  : M FGitSourceControlState :=
  '(bResult, Results, ErrorMessages) ←
    RunCommandInternal E "ls-files" InPathToGitBinary InRepositoryRoot
      ["--unmerged"] [InFile];
  match Results with
  | [R0; R1; R2] =>
      if (bResult : bool)
      then mret (set_PendingResolveInfo (FGitConflictStatusParser R0 R2)
                   InOutFileState)
      else mret InOutFileState
  | _ => mret InOutFileState
  end.

(** ** Lock cache *)

(** [FTimespan::FromSeconds(30)] in ticks of 100 nanoseconds. *)
Definition TicksPerSecond : Z := 10000000.
Definition CacheLimit : Z := 30 * TicksPerSecond.

(** [FGitLockedFilesCache::OnFileLockChanged]: the read-only attribute
    follows the locks of the current user. *)
Definition OnFileLockChanged (E : Env) (filePath lockUser : string)
  (locked : bool) : list (string * bool) :=
  if FString.Equals (ProviderLockUser E) lockUser
  then [(filePath, negb locked)] else [].

Definition lock_changes (E : Env) (present absent : gmap string string)
  (locked : bool) : list (string * bool) :=
  flat_map
    (fun lock : string * string =>
       match absent !! lock.1 with
       | None => OnFileLockChanged E lock.1 lock.2 locked
       | Some _ => []
       end)
    (map_to_list present).

(** [FGitLockedFilesCache::SetLockedFiles]. *)
Definition SetLockedFiles (E : Env) (newLocks : gmap string string) : M unit :=
  fun w =>
    let released := lock_changes E (LockedFiles w) newLocks false in
    let acquired := lock_changes E newLocks (LockedFiles w) true in
    (tt, set_LockedFiles newLocks
           (set_ReadOnlyLog (ReadOnlyLog w ++ released ++ acquired) w)).

(** [FGitLockedFilesCache::AddLockedFile]. *)
Definition AddLockedFile (E : Env) (filePath lockUser : string) : M unit :=
  fun w =>
    (tt, set_ReadOnlyLog
           (ReadOnlyLog w ++ OnFileLockChanged E filePath lockUser true)
           (set_LockedFiles (<[filePath := lockUser]> (LockedFiles w)) w)).

(** [FGitLockedFilesCache::RemoveLockedFile]. *)
Definition RemoveLockedFile (E : Env) (filePath : string) : M unit :=
  fun w =>
    let user := default "" (LockedFiles w !! filePath) in
    (tt, set_ReadOnlyLog
           (ReadOnlyLog w ++ OnFileLockChanged E filePath user false)
           (set_LockedFiles (delete filePath (LockedFiles w)) w)).

(** The loops of [GetAllLocks] over the lines of a lock list: each parsed
    lock that passes [keep] is added to [OutLocks]. *)
Definition add_locks (E : Env) (InRepositoryRoot : string)
  (keep : LocksParser.t -> bool) (Results : list string)
  (OutLocks : gmap string string) : gmap string string :=
  foldl
    (fun (locks : gmap string string) (Result : string) =>
       let LockFile := FGitLfsLocksParser E InRepositoryRoot Result true in
       if keep LockFile
       then <[LocksParser.LocalFilename LockFile :=
                LocksParser.LockUser LockFile]> locks
       else locks)
    OutLocks Results.

(** [GetAllLocks]: the lock list, from the remote when the cache is older
    than [CacheLimit] or invalidated, with its fallbacks. *)
Definition GetAllLocks (E : Env) (InRepositoryRoot GitBinaryFallback : string)
  (OutErrorMessages : list string) (OutLocks : gmap string string)
  (bInvalidateCache : bool)
  : M (bool * list string * gmap string string) :=
  w ← get_world;
  let CurrentTime := Now E in
  let bCacheExpired :=
    if bInvalidateCache then true
    else
      let CacheTimeElapsed := (CurrentTime - LastUpdated w)%Z in
      (CacheLimit <? CacheTimeElapsed)%Z in
  let last_resort (OutErrorMessages : list string)
    : M (bool * list string * gmap string string) :=
    w' ← get_world; mret (true, OutErrorMessages, LockedFiles w') in
  if bCacheExpired then
    '(bResult, Results, OutErrorMessages) ←
      RunLFSCommand E "locks" InRepositoryRoot GitBinaryFallback [] [] []
        OutErrorMessages;
    if (bResult : bool) then
      let OutLocks :=
        add_locks E InRepositoryRoot (fun _ => true) Results OutLocks in
      modify_world (set_LastUpdated CurrentTime);;
      SetLockedFiles E OutLocks;;
      mret (bResult, OutErrorMessages, OutLocks)
    else if negb (ModuleAvailable E) then last_resort OutErrorMessages
    else
      let LockUser := ProviderLockUser E in
      '(bResult1, Results, OutErrorMessages) ←
        RunLFSCommand E "locks" InRepositoryRoot GitBinaryFallback
          ["--cached"] [] [] OutErrorMessages;
      let OutLocks :=
        add_locks E InRepositoryRoot
          (fun LockFile =>
             negb (FString.Equals (LocksParser.LockUser LockFile) LockUser))
          Results OutLocks in
      '(bResult2, Results, OutErrorMessages) ←
        RunLFSCommand E "locks" InRepositoryRoot GitBinaryFallback
          ["--local"] [] [] OutErrorMessages;
      let OutLocks :=
        add_locks E InRepositoryRoot
          (fun LockFile =>
             FString.Equals (LocksParser.LockUser LockFile) LockUser)
          Results OutLocks in
      if bResult1 && bResult2
      then mret (true, OutErrorMessages, OutLocks)
      else last_resort OutErrorMessages
  else last_resort OutErrorMessages.

(** The launch of "git lfs locks" with the given parameters. *)
Definition locks_query (E : Env) (InRepositoryRoot : string)
  (InParameters : list string) : CmdLine :=
  mkCmdLine "locks" (LFSLockBinary E) InRepositoryRoot InParameters [].

(** The test of [GetAllLocks] on the age of the cache. *)
Definition cache_expired (E : Env) (w : World) (bInvalidateCache : bool)
  : bool :=
  if bInvalidateCache then true
  else (CacheLimit <? Now E - LastUpdated w)%Z.

(** [IsFileLFSLockable]: the file ends with one of the lockable types. *)
Definition IsFileLFSLockable (E : Env) (InFile : string) : bool :=
  existsb (fun Type_ => FString.EndsWith Type_ InFile) (LockableTypes E).

(** ** State aggregation *)

(** Modelled from the spec: the constructor [FGitSourceControlState(File)]
    of [GitSourceControlState.h]; a fresh per-file entry holds its path,
    a default composite state, no conflict metadata and no refresh time. *)
Definition NewSourceControlState (E : Env) (InLocalFilename : string)
  : FGitSourceControlState :=
  mkSourceControlState InLocalFilename (DefaultGitState E) NoResolveInfo 0.

(** One pass of the loop of [ParseDirectoryStatusResult]; [None] when the
    status parser cannot read the line. *)
Definition ParseDirectoryStatus_step (E : Env) (InUsingLfsLocking : bool)
  (OutStates : gmap string FGitSourceControlState) (Result : string * string)
  : option (gmap string FGitSourceControlState) :=
  let FileState := NewSourceControlState E Result.1 in
  let FileState :=
    if negb InUsingLfsLocking
    then set_State (set_LockState ELockState.Unlockable) FileState
    else FileState in
  match FGitStatusParser Result.2 with
  | None => None
  | Some StatusParser =>
      if bool_decide (StatusParser.FileState StatusParser = EFileState.Deleted)
         || bool_decide (StatusParser.FileState StatusParser = EFileState.Missing)
         || bool_decide (read_TreeState E StatusParser = ETreeState.Untracked)
      then
        let FileState :=
          set_State (set_FileState (StatusParser.FileState StatusParser))
            FileState in
        let FileState :=
          set_State (set_TreeState (read_TreeState E StatusParser)) FileState in
        Some (<[Result.1 := FileState]> OutStates)
      else Some OutStates
  end.

(** [ParseDirectoryStatusResult]: the status lines of a directory, kept
    only for deleted, missing and untracked files. *)
Definition ParseDirectoryStatusResult (E : Env) (InUsingLfsLocking : bool)
  (InResults : gmap string string)
  (OutStates : gmap string FGitSourceControlState)
  : option (gmap string FGitSourceControlState) :=
  foldl
    (fun acc Result =>
       match acc with
       | Some States => ParseDirectoryStatus_step E InUsingLfsLocking States Result
       | None => None
       end)
    (Some OutStates) (map_to_list InResults).

(** The locals of [ParseFileStatusResult] that live across its loop. *)
Record FileStatusLoop := mkFileStatusLoop {
  loop_Results : gmap string string;
  loop_LockedFiles : gmap string string;
  loop_bCheckedLockedFiles : bool;
  loop_OutStates : gmap string FGitSourceControlState
}.

(** The status part of one pass: the state of [File] from its status line,
    or from the disk when it has none.  [None] when the status parser
    cannot read the line. *)
Definition FileStatus_of (E : Env) (InPathToGitBinary InRepositoryRoot
  File : string) (Results : gmap string string)
  (FileState : FGitSourceControlState)
  : M (option FGitSourceControlState) :=
  match Results !! File with
  | Some Result =>
      match FGitStatusParser Result with
      | None => mret None
      | Some StatusParser =>
          let FileState :=
            set_State (set_FileState (StatusParser.FileState StatusParser))
              FileState in
          let FileState :=
            set_State (set_TreeState (read_TreeState E StatusParser))
              FileState in
          if IsConflicted FileState then
            FileState ← RunGetConflictStatus E InPathToGitBinary
                          InRepositoryRoot File FileState;
            mret (Some FileState)
          else mret (Some FileState)
      end
  | None =>
      let FileState :=
        set_State (set_FileState EFileState.Unknown) FileState in
      if FileExists E File
      then mret (Some (set_State (set_TreeState ETreeState.Unmodified) FileState))
      else mret (Some (set_State (set_TreeState ETreeState.NotInRepo) FileState))
  end.

(** The lock part of one pass: the lock state of [File], with one refresh
    of the lock list per call of [ParseFileStatusResult]. *)
Definition LockStatus_of (E : Env) (InPathToGitBinary InRepositoryRoot
  File : string) (InUsingLfsLocking : bool) (LockedFiles : gmap string string)
  (bCheckedLockedFiles : bool) (FileState : FGitSourceControlState)
  : M (FGitSourceControlState * gmap string string * bool) :=
  if negb InUsingLfsLocking then
    mret (set_State (set_LockState ELockState.Unlockable) FileState,
          LockedFiles, bCheckedLockedFiles)
  else if IsFileLFSLockable E File then
    '(LockedFiles, bCheckedLockedFiles) ←
      (if negb bCheckedLockedFiles then
         '(_, ErrorMessages, LockedFiles) ←
           GetAllLocks E InRepositoryRoot InPathToGitBinary [] LockedFiles false;
         mret (LockedFiles, true)
       else mret (LockedFiles, bCheckedLockedFiles));
    match LockedFiles !! File with
    | Some User =>
        let FileState := set_State (set_LockUser User) FileState in
        if FString.Equals (ProviderLockUser E) User
        then mret (set_State (set_LockState ELockState.Locked) FileState,
                   LockedFiles, bCheckedLockedFiles)
        else mret (set_State (set_LockState ELockState.LockedOther) FileState,
                   LockedFiles, bCheckedLockedFiles)
    | None =>
        mret (set_State (set_LockState ELockState.NotLocked) FileState,
              LockedFiles, bCheckedLockedFiles)
    end
  else
    mret (set_State (set_LockState ELockState.Unlockable) FileState,
          LockedFiles, bCheckedLockedFiles).

(** One pass of the loop of [ParseFileStatusResult] over the files
    listed in the command. *)
Definition ParseFileStatus_step (E : Env) (InPathToGitBinary InRepositoryRoot
  : string) (InUsingLfsLocking : bool) (File : string) (L : FileStatusLoop)
  : M (option FileStatusLoop) :=
  let FileState := NewSourceControlState E File in
  let FileState := set_State (set_FileState EFileState.Unset) FileState in
  let FileState := set_State (set_TreeState ETreeState.Unset) FileState in
  let FileState := set_State (set_LockState ELockState.Unset) FileState in
  (* bFound = Results.RemoveAndCopyValue(File, Result) *)
  let Results := delete File (loop_Results L) in
  oFileState ← FileStatus_of E InPathToGitBinary InRepositoryRoot File
                 (loop_Results L) FileState;
  match oFileState with
  | None => mret None
  | Some FileState =>
      '(FileState, LockedFiles, bCheckedLockedFiles) ←
        LockStatus_of E InPathToGitBinary InRepositoryRoot File
          InUsingLfsLocking (loop_LockedFiles L) (loop_bCheckedLockedFiles L)
          FileState;
      mret (Some (mkFileStatusLoop Results LockedFiles bCheckedLockedFiles
                    (<[File := FileState]> (loop_OutStates L))))
  end.

Fixpoint ParseFileStatus_loop (E : Env) (InPathToGitBinary InRepositoryRoot
  : string) (InUsingLfsLocking : bool) (InFiles : list string)
  (L : FileStatusLoop) : M (option FileStatusLoop) :=
  match InFiles with
  | [] => mret (Some L)
  | File :: InFiles' =>
      oL ← ParseFileStatus_step E InPathToGitBinary InRepositoryRoot
             InUsingLfsLocking File L;
      match oL with
      | None => mret None
      | Some L' =>
          ParseFileStatus_loop E InPathToGitBinary InRepositoryRoot
            InUsingLfsLocking InFiles' L'
      end
  end.

(** [ParseFileStatusResult]: the states of the files listed in a status
    command, then of the deleted, missing and untracked files that only
    the status lines know.  [InFiles] is the [TSet] in iteration order.
    The answer is [None] when a status line cannot be read. *)
Definition ParseFileStatusResult (E : Env) (InPathToGitBinary InRepositoryRoot
  : string) (InUsingLfsLocking : bool) (InFiles : list string)
  (InResults : gmap string string)
  (OutStates : gmap string FGitSourceControlState)
  : M (option (gmap string FGitSourceControlState)) :=
  if negb (ModuleAvailable E) then mret (Some OutStates)
  else
    oL ← ParseFileStatus_loop E InPathToGitBinary InRepositoryRoot
           InUsingLfsLocking InFiles
           (mkFileStatusLoop InResults ∅ false OutStates);
    match oL with
    | None => mret None
    | Some L =>
        mret (ParseDirectoryStatusResult E InUsingLfsLocking (loop_Results L)
                (loop_OutStates L))
    end.

(** The status lines of a map can all be read by the status parser. *)
Definition readable (Results : gmap string string) : Prop :=
  forall Key Line : string,
    Results !! Key = Some Line -> (2 <= String.length Line)%nat.

(** The state section 4.4 gives to a listed file without status line. *)
Definition absent_state (E : Env) (File : string)
  (s : FGitSourceControlState) : Prop :=
  FileState (State s) = EFileState.Unknown
  /\ TreeState (State s)
     = (if FileExists E File then ETreeState.Unmodified
        else ETreeState.NotInRepo).

(** ** History *)

(** [FGitSourceControlRevision], the members [ParseLogResults] writes.
    The history is an array of shared references; [BranchSource], a
    shared pointer to another revision of the same history, is the index
    of that revision in the array.  [Date] is the Unix timestamp handed
    to [FDateTime::FromUnixTimestamp]. *)
Record FGitSourceControlRevision := mkRevision {
  Filename : string;
  CommitId : string;
  ShortCommitId : string;
  CommitIdNumber : Z;
  RevisionNumber : Z;
  Description : string;
  UserName : string;
  Action : string;
  BranchSource : option nat;
  Date : Z
}.

(** Modelled from the spec: a default-constructed revision of
    [GitSourceControlRevision.h]; its [RevisionNumber] is 0, which is how
    [ParseLogResults] recognises a revision that has seen no commit line. *)
Definition NewRevision : FGitSourceControlRevision :=
  mkRevision "" "" "" 0 0 "" "" "" None 0.

Definition set_commit (id short : string) (number : Z)
  (r : FGitSourceControlRevision) : FGitSourceControlRevision :=
  mkRevision (Filename r) id short number (-1) (Description r) (UserName r)
    (Action r) (BranchSource r) (Date r).

Definition set_UserName (v : string) (r : FGitSourceControlRevision)
  : FGitSourceControlRevision :=
  mkRevision (Filename r) (CommitId r) (ShortCommitId r) (CommitIdNumber r)
    (RevisionNumber r) (Description r) v (Action r) (BranchSource r) (Date r).

Definition set_Date (v : Z) (r : FGitSourceControlRevision)
  : FGitSourceControlRevision :=
  mkRevision (Filename r) (CommitId r) (ShortCommitId r) (CommitIdNumber r)
    (RevisionNumber r) (Description r) (UserName r) (Action r)
    (BranchSource r) v.

Definition set_Description (v : string) (r : FGitSourceControlRevision)
  : FGitSourceControlRevision :=
  mkRevision (Filename r) (CommitId r) (ShortCommitId r) (CommitIdNumber r)
    (RevisionNumber r) v (UserName r) (Action r) (BranchSource r) (Date r).

Definition set_Action (v : string) (r : FGitSourceControlRevision)
  : FGitSourceControlRevision :=
  mkRevision (Filename r) (CommitId r) (ShortCommitId r) (CommitIdNumber r)
    (RevisionNumber r) (Description r) (UserName r) v (BranchSource r)
    (Date r).

Definition set_Filename (v : string) (r : FGitSourceControlRevision)
  : FGitSourceControlRevision :=
  mkRevision v (CommitId r) (ShortCommitId r) (CommitIdNumber r)
    (RevisionNumber r) (Description r) (UserName r) (Action r)
    (BranchSource r) (Date r).

Definition set_RevisionNumber (v : Z) (r : FGitSourceControlRevision)
  : FGitSourceControlRevision :=
  mkRevision (Filename r) (CommitId r) (ShortCommitId r) (CommitIdNumber r)
    v (Description r) (UserName r) (Action r) (BranchSource r) (Date r).

Definition set_BranchSource (v : option nat) (r : FGitSourceControlRevision)
  : FGitSourceControlRevision :=
  mkRevision (Filename r) (CommitId r) (ShortCommitId r) (CommitIdNumber r)
    (RevisionNumber r) (Description r) (UserName r) (Action r) v (Date r).

(** [LogStatusToString]: the action keyword of a status letter. *)
Definition LogStatusToString (InStatus : ascii) : string :=
  if Ascii.eqb InStatus " " then "unmodified"
  else if Ascii.eqb InStatus "M" then "modified"
  else if Ascii.eqb InStatus "A" then "add"
  else if Ascii.eqb InStatus "D" then "delete"
  else if Ascii.eqb InStatus "R" then "branch"
  else if Ascii.eqb InStatus "C" then "branch"
  else if Ascii.eqb InStatus "T" then "type changed"
  else if Ascii.eqb InStatus "U" then "unmerged"
  else if Ascii.eqb InStatus "X" then "unknown"
  else if Ascii.eqb InStatus "B" then "broked pairing"
  else "".

(** One line of the log: the revision being read and the history so far.
    [None] when a file line has no first character to read. *)
Definition ParseLog_line (Result : string)
  (st : FGitSourceControlRevision * list FGitSourceControlRevision)
  : option (FGitSourceControlRevision * list FGitSourceControlRevision) :=
  let '(SourceControlRevision, OutHistory) := st in
  if FString.StartsWith "commit " Result then
    let '(SourceControlRevision, OutHistory) :=
      if bool_decide (RevisionNumber SourceControlRevision ≠ 0%Z)
      then (NewRevision, OutHistory ++ [SourceControlRevision])
      else (SourceControlRevision, OutHistory) in
    let Id := FString.RightChop 7 Result in
    let Short := FString.Left 8 Id in
    Some (set_commit Id Short (FString.to_int32 (FString.HexNumber Short))
            SourceControlRevision, OutHistory)
  else if FString.StartsWith "Author: " Result then
    let UserNameEmail := FString.RightChop 8 Result in
    match FString.FindLastChar "<" UserNameEmail with
    | Some EmailIndex =>
        Some (set_UserName
                (FString.Left (Z.of_nat EmailIndex - 1) UserNameEmail)
                SourceControlRevision, OutHistory)
    | None => Some (SourceControlRevision, OutHistory)
    end
  else if FString.StartsWith "Date:   " Result then
    let Date := FString.RightChop 8 Result in
    Some (set_Date (FString.Atoi Date) SourceControlRevision, OutHistory)
  else if FString.StartsWith "    " Result then
    Some (set_Description
            (Description SourceControlRevision +:+ FString.RightChop 4 Result
             +:+ String FString.newline EmptyString)
            SourceControlRevision, OutHistory)
  else
    match FString.at_ Result 0 with
    | None => None
    | Some Status =>
        let SourceControlRevision :=
          set_Action (LogStatusToString Status) SourceControlRevision in
        match FString.FindLastChar FString.tab Result with
        | Some IdxTab =>
            Some (set_Filename (FString.RightChop (Z.of_nat IdxTab + 1) Result)
                    SourceControlRevision, OutHistory)
        | None => Some (SourceControlRevision, OutHistory)
        end
    end.

Fixpoint ParseLog_lines (InResults : list string)
  (st : FGitSourceControlRevision * list FGitSourceControlRevision)
  : option (FGitSourceControlRevision * list FGitSourceControlRevision) :=
  match InResults with
  | [] => Some st
  | Result :: InResults' =>
      match ParseLog_line Result st with
      | Some st' => ParseLog_lines InResults' st'
      | None => None
      end
  end.

(** The last loop of [ParseLogResults]: the revision at index
    [RevisionIndex] gets the number [Num - RevisionIndex], and a "branch"
    that is not the last revision points to the revision after it. *)
Definition number_revision (Num : nat) (RevisionIndex : nat)
  (Item : FGitSourceControlRevision) : FGitSourceControlRevision :=
  let Item :=
    set_RevisionNumber (Z.of_nat Num - Z.of_nat RevisionIndex) Item in
  if FString.Equals (Action Item) "branch"
     && (Z.of_nat RevisionIndex <? Z.of_nat Num - 1)%Z
  then set_BranchSource (Some (RevisionIndex + 1)%nat) Item
  else Item.

(** [ParseLogResults]: the lines of a "git log" into [OutHistory]. *)
Definition ParseLogResults (InResults : list string)
  (OutHistory : list FGitSourceControlRevision)
  : option (list FGitSourceControlRevision) :=
  match ParseLog_lines InResults (NewRevision, OutHistory) with
  | None => None
  | Some (SourceControlRevision, OutHistory) =>
      let OutHistory :=
        if bool_decide (RevisionNumber SourceControlRevision ≠ 0%Z)
        then OutHistory ++ [SourceControlRevision]
        else OutHistory in
      Some (imap (number_revision (length OutHistory)) OutHistory)
  end.

(** 1 for a revision that has seen a commit line and is not yet in the
    history, 0 otherwise. *)
Definition pending (r : FGitSourceControlRevision) : nat :=
  if bool_decide (RevisionNumber r ≠ 0%Z) then 1%nat else 0%nat.

(** The number of records of a log: its lines that start a commit. *)
Definition commit_lines (InResults : list string) : nat :=
  length (List.filter (FString.StartsWith "commit ") InResults).

(** A log of two commits of one file, newest first: the first renames
    x.txt to y.txt, the second is the original add of x.txt. *)
Definition rename_log : list string :=
  let tab := String FString.tab "" in
  [ "commit 97a4e7626681895e073aaefd68b8ac087db81b0b";
    "Author: Sebastien Rombauts <sebastien.rombauts@gmail.com>";
    "Date:   1431718347 +0200";
    "    Rename x to y";
    "R100" +:+ tab +:+ "x.txt" +:+ tab +:+ "y.txt";
    "commit 355f0df26ebd3888adbb558fd42bb8bd3e565000";
    "Author: Sebastien Rombauts <sebastien.rombauts@gmail.com>";
    "Date:   1431418347 +0200";
    "    Add x";
    "A" +:+ tab +:+ "x.txt" ].

(** ** Merging fragments into the state cache *)

(** Modelled from the spec: [FGitSourceControlProvider::GetStateInternal];
    the cached entry of a path, created on the first query for it. *)
Definition GetStateInternal (E : Env) (InFilename : string)
  : M FGitSourceControlState :=
  fun w =>
    match StateCache w !! InFilename with
    | Some s => (s, w)
    | None =>
        let s := NewSourceControlState E InFilename in
        (s, set_StateCache (<[InFilename := s]> (StateCache w)) w)
    end.

(** Modelled from the spec: [AddFileToIgnoreForceCache] of the provider;
    the path is marked so that the next full refresh skips it. *)
Definition AddFileToIgnoreForceCache (InFilename : string) : M unit :=
  modify_world
    (fun w => set_IgnoreForceCache (IgnoreForceCache w ++ [InFilename]) w).

(** The cached entry is a shared reference: a write to it is a write to
    the cache. *)
Definition write_state (Key : string) (s : FGitSourceControlState) : M unit :=
  modify_world (fun w => set_StateCache (<[Key := s]> (StateCache w)) w).

(** What one pass of the loop of [UpdateCachedStates] does to the entry
    once the file state is settled. *)
Definition merge_rest (NewState : FGitState) (TimeNow : Z)
  (s : FGitSourceControlState) : FGitSourceControlState :=
  let s :=
    if bool_decide (TreeState NewState ≠ ETreeState.Unset)
    then set_State (set_TreeState (TreeState NewState)) s else s in
  let s :=
    if bool_decide (LockState NewState ≠ ELockState.Unset)
    then set_State (set_LockUser (LockUser NewState))
           (set_State (set_LockState (LockState NewState)) s)
    else s in
  let s :=
    if bool_decide (RemoteState NewState ≠ ERemoteState.Unset)
    then
      let s := set_State (set_RemoteState (RemoteState NewState)) s in
      if bool_decide (RemoteState NewState = ERemoteState.UpToDate)
      then set_State (set_HeadBranch "") s
      else set_State (set_HeadBranch (HeadBranch NewState)) s
    else s in
  set_TimeStamp TimeNow s.

(** The entry after one pass, or [None] when the pass is abandoned by the
    guard on a transition to Added. *)
Definition merge_state (E : Env) (NewState : FGitState) (TimeNow : Z)
  (s : FGitSourceControlState) : option FGitSourceControlState :=
  if bool_decide (FileState NewState ≠ EFileState.Unset) then
    if bool_decide (FileState NewState = EFileState.Added)
       && negb (StateIsUnknown E s) && negb (StateCanAdd E s)
    then None
    else Some (merge_rest NewState TimeNow
                 (set_State (set_FileState (FileState NewState)) s))
  else Some (merge_rest NewState TimeNow s).

Definition UpdateCachedStates_step (E : Env) (TimeNow : Z)
  (Pair : string * FGitState) : M unit :=
  s ← GetStateInternal E Pair.1;
  match merge_state E Pair.2 TimeNow s with
  | None => mret tt
  | Some s' =>
      write_state Pair.1 s';;
      AddFileToIgnoreForceCache (LocalFilename s')
  end.

Fixpoint for_each {A : Type} (f : A -> M unit) (l : list A) : M unit :=
  match l with
  | [] => mret tt
  | a :: l' => f a;; for_each f l'
  end.

(** [UpdateCachedStates]: the fragments of [InResults] merged into the
    provider's cache. *)
Definition UpdateCachedStates (E : Env) (InResults : gmap string FGitState)
  : M bool :=
  if bool_decide (size InResults = 0%nat) then mret false
  else if negb (ModuleAvailable E) then mret false
  else
    let TimeNow := if UsesCheckout E then Now E else 0%Z in
    for_each (UpdateCachedStates_step E TimeNow) (map_to_list InResults);;
    mret true.

(** ** Redundant errors *)

Record FSourceControlResultInfo := mkResultInfo {
  InfoMessages : list string;
  ErrorMessages : list string
}.

(** [FGitSourceControlCommand], the members [RemoveRedundantErrors]
    touches. *)
Record FGitSourceControlCommand := mkCommand {
  ResultInfo : FSourceControlResultInfo;
  bCommandSuccessful : bool
}.

(** The predicate [FRemoveRedundantErrors]. *)
Definition FRemoveRedundantErrors (Filter String_ : string) : bool :=
  if FString.Contains Filter String_ then true else false.

(** [RemoveRedundantErrors]: the errors that contain [InFilter] become
    informations, and a command left without error is a success. *)
Definition RemoveRedundantErrors (InCommand : FGitSourceControlCommand)
  (InFilter : string) : FGitSourceControlCommand :=
  let '(Infos, bFoundRedundantError) :=
    foldl
      (fun (acc : list string * bool) (Line : string) =>
         if FString.Contains InFilter Line
         then (acc.1 ++ [Line], true) else acc)
      (InfoMessages (ResultInfo InCommand), false)
      (ErrorMessages (ResultInfo InCommand)) in
  let Errors :=
    List.filter (fun Line => negb (FRemoveRedundantErrors InFilter Line))
      (ErrorMessages (ResultInfo InCommand)) in
  let bSuccessful :=
    if bFoundRedundantError && (length Errors =? 0)%nat
       && negb (bCommandSuccessful InCommand)
    then true else bCommandSuccessful InCommand in
  mkCommand (mkResultInfo Infos Errors) bSuccessful.

(** ** Sample inputs

    Concrete environments, worlds and inputs on which the properties
    below are exercised. *)

(** A path as the porcelain format quotes it when it holds a space:
    "b c.txt" between double quotes; and the status line of that path. *)
Definition quoted_path : string :=
  String FString.dquote ("b c.txt" +:+ String FString.dquote "").

Definition quoted_status_line : string := "?? " +:+ quoted_path.

(** 120 files named by their index. *)
Definition files_120 : list string :=
  map (fun n : nat => String (ascii_of_nat n) "") (seq 0 120).

Definition quiet_env : Env :=
  mkEnv (fun _ _ => mkProcessOutput 0 "" "") 0 (fun _ => true)
    (fun root path => root +:+ path) true "me" true [".uasset"] "git-lfs"
    (fun s => bool_decide (FileState (State s) = EFileState.Unknown))
    (fun s => bool_decide (TreeState (State s) = ETreeState.Untracked))
    (mkGitState EFileState.Unknown ETreeState.NotInRepo ELockState.Unset ""
       ERemoteState.UpToDate "")
    ETreeState.Unset.

Definition empty_world : World := mkWorld [] 0 ∅ [] ∅ [].

(** An environment at time [now] whose every launch exits with [code]
    and prints one lock, of user bob on Content/a.uasset. *)
Definition lock_list_env (now code : Z) : Env :=
  let tab := String FString.tab "" in
  mkEnv
    (fun _ _ =>
       mkProcessOutput code
         ("Content/a.uasset" +:+ tab +:+ "bob" +:+ tab +:+ "ID:1"
          +:+ String FString.newline "")
         "")
    now (fun _ => true) (fun root path => root +:+ path) true "me" true
    [".uasset"] "git-lfs"
    (fun s => bool_decide (FileState (State s) = EFileState.Unknown))
    (fun s => bool_decide (TreeState (State s) = ETreeState.Untracked))
    (mkGitState EFileState.Unknown ETreeState.NotInRepo ELockState.Unset ""
       ERemoteState.UpToDate "")
    ETreeState.Unset.

(** A world whose lock cache, stamped at time 0, holds one lock of user
    alice. *)
Definition cached_world : World :=
  mkWorld [] 0 {[ "/repo/Content/b.uasset" := "alice" ]} [] ∅ [].

(** A cache entry of a modified, staged file, and a stale fragment that
    proposes Added for it. *)
Definition modified_entry : FGitSourceControlState :=
  mkSourceControlState "/repo/Content/a.uasset"
    (mkGitState EFileState.Modified ETreeState.Staged ELockState.Locked "me"
       ERemoteState.UpToDate "")
    NoResolveInfo 7.

Definition added_fragment : FGitState :=
  mkGitState EFileState.Added ETreeState.Staged ELockState.Unset ""
    ERemoteState.Unset "".

Definition modified_world : World :=
  mkWorld [] 0 ∅ [] {[ "/repo/Content/a.uasset" := modified_entry ]} [].

(** An environment whose disk holds the file B and nothing else. *)
Definition disk_env : Env :=
  mkEnv (fun _ _ => mkProcessOutput 0 "" "") 0
    (fun File => String.eqb File "B")
    (fun root path => root +:+ path) true "me" true [".uasset"] "git-lfs"
    (fun s => bool_decide (FileState (State s) = EFileState.Unknown))
    (fun s => bool_decide (TreeState (State s) = ETreeState.Untracked))
    (mkGitState EFileState.Unknown ETreeState.NotInRepo ELockState.Unset ""
       ERemoteState.UpToDate "")
    ETreeState.Unset.

(** An environment in which every "add" fails and every other launch
    succeeds without output. *)
Definition add_fails_env : Env :=
  mkEnv
    (fun _ cl =>
       if String.eqb (Command cl) "add"
       then mkProcessOutput 1 "" "fatal: pathspec"
       else mkProcessOutput 0 "" "")
    0 (fun _ => true) (fun root path => root +:+ path) true "me" true
    [".uasset"] "git-lfs"
    (fun s => bool_decide (FileState (State s) = EFileState.Unknown))
    (fun s => bool_decide (TreeState (State s) = ETreeState.Untracked))
    (mkGitState EFileState.Unknown ETreeState.NotInRepo ELockState.Unset ""
       ERemoteState.UpToDate "")
    ETreeState.Unset.

(** ** Further operations *)

(** [FetchRemote]: the lock list is refreshed with its cache invalidated
    when the locking workflow is in use, then the repository is fetched. *)
Definition FetchRemote (E : Env) (InPathToGitBinary InPathToRepositoryRoot
  : string) (InUsingGitLfsLocking : bool)
  (OutResults OutErrorMessages : list string)
  : M (bool * list string * list string) :=
  OutErrorMessages ←
    (if InUsingGitLfsLocking then
       '(_, OutErrorMessages, Locks) ←
         GetAllLocks E InPathToRepositoryRoot InPathToGitBinary
           OutErrorMessages ∅ true;
       mret OutErrorMessages
     else mret OutErrorMessages);
  RunCommand E "fetch" InPathToGitBinary InPathToRepositoryRoot
    ["--no-tags"; "--prune"] [] OutResults OutErrorMessages.

(** The three shapes of a line of "git lfs locks" that the source
    documents, for the path Content/a.uasset. *)
Definition lock_line_user : string :=
  "Content/a.uasset    " +:+ String FString.tab ("bob       "
  +:+ String FString.tab "ID:891").

Definition lock_line_id : string :=
  "Content/a.uasset    " +:+ String FString.tab "ID:891".

(** What the operations below read besides [Env].
    - [DirectoryExists]: [IFileManager::DirectoryExists]
      ([FileExists] of [Env] is the file manager's [FileExists]).
    - [StatusBranchNames], [ProviderBranchName],
      [ProviderRemoteBranchName]: [GetStatusBranchNames()],
      [GetBranchName()] and [GetRemoteBranchName()] of the provider.
    - [ProjectContentDir]: the full path of [FPaths::ProjectContentDir()]. *)
Record Host := mkHost {
  DirectoryExists : string -> bool;
  StatusBranchNames : list string;
  ProviderBranchName : string;
  ProviderRemoteBranchName : string;
  ProjectContentDir : string
}.

(** [LeftChop(Count)]: the string without its last [Count] characters. *)
Definition LeftChop (Count : Z) (s : string) : string :=
  FString.take_chars (String.length s - Z.to_nat Count) s.

(** [operator/] of two strings ([PathAppend]): a slash is put between
    them when the left one is not empty and does not end with a slash or
    backslash and the right one does not start with a slash. *)
Definition PathAppend (Lhs Rhs : string) : string :=
  let ends_open :=
    match FString.last_char Lhs with
    | Some c => negb (Ascii.eqb c "/") && negb (Ascii.eqb c "\")
    | None => false
    end in
  match Rhs with
  | EmptyString => if ends_open then Lhs +:+ "/" else Lhs
  | String c _ =>
      if ends_open && negb (Ascii.eqb c "/") then Lhs +:+ "/" +:+ Rhs
      else Lhs +:+ Rhs
  end.

(** The lambda [TrimTrailing] of [FindRootDirectory]: the last character
    is chopped while it is [Char]. *)
Fixpoint TrimTrailing_loop (fuel : nat) (Char : ascii) (Str : string)
  : string :=
  match fuel with
  | O => Str
  | S fuel' =>
      if bool_decide (FString.last_char Str = Some Char)
      then TrimTrailing_loop fuel' Char (LeftChop 1 Str)
      else Str
  end.

Definition TrimTrailing (Char : ascii) (Str : string) : string :=
  TrimTrailing_loop (String.length Str) Char Str.

(** The test of the loop of [FindRootDirectory]: a ".git" directory or
    file under the candidate root. *)
Definition has_git (E : Env) (H : Host) (Root : string) : bool :=
  let PathToGitSubdirectory := PathAppend Root ".git" in
  DirectoryExists H PathToGitSubdirectory
  || FileExists E PathToGitSubdirectory.

(** The [while (!bFound && !OutRepositoryRoot.IsEmpty())] loop. *)
Fixpoint FindRootDirectory_loop (E : Env) (H : Host) (fuel : nat)
  (OutRepositoryRoot : string) : bool * string :=
  match fuel with
  | O => (false, OutRepositoryRoot)
  | S fuel' =>
      if FString.IsEmpty OutRepositoryRoot then (false, OutRepositoryRoot)
      else if has_git E H OutRepositoryRoot then (true, OutRepositoryRoot)
      else
        match FString.FindLastChar "/" OutRepositoryRoot with
        | Some LastSlashIndex =>
            FindRootDirectory_loop E H fuel'
              (FString.Left (Z.of_nat LastSlashIndex) OutRepositoryRoot)
        | None => FindRootDirectory_loop E H fuel' ""
        end
  end.

(** [FindRootDirectory]: the root of the repository that holds [InPath],
    looked for upward from it; the candidate gets shorter at every pass,
    so one pass more than its length is enough. *)
Definition FindRootDirectory (E : Env) (H : Host) (InPath : string)
  : bool * string :=
  let OutRepositoryRoot := TrimTrailing "/" (TrimTrailing "\" InPath) in
  let '(bFound, OutRepositoryRoot) :=
    FindRootDirectory_loop E H (S (String.length OutRepositoryRoot))
      OutRepositoryRoot in
  if bFound then (true, OutRepositoryRoot) else (false, InPath).

(** The candidates of the upward search from [Start]: [Start] itself and
    what stands before each of its slashes. *)
Definition ancestor (Start Candidate : string) : Prop :=
  Candidate = Start
  \/ exists i : nat,
       FString.at_ Start i = Some "/"%char
       /\ Candidate = FString.take_chars i Start.

(** A disk with one repository, at /repo. *)
Definition repo_host : Host :=
  mkHost (fun Path => String.eqb Path "/repo/.git") [] "" "" "/repo/Content/".

(** [CollectNewStates] from a map of states: every state of [InStates]
    is recorded under its key. *)
Definition CollectNewStates_of_states
  (InStates : gmap string FGitSourceControlState)
  (OutResults : gmap string FGitState) : bool * gmap string FGitState :=
  if bool_decide (size InStates = 0%nat) then (false, OutResults)
  else
    (true,
     foldl
       (fun (Results : gmap string FGitState)
            (InState : string * FGitSourceControlState) =>
          <[InState.1 := State InState.2]> Results)
       OutResults (map_to_list InStates)).

(** The body of the loop of [CollectNewStates] over a list of files,
    after [FindOrAdd]: the members that the call sets overwrite those of
    the recorded state. *)
Definition CollectNewStates_set (NewState s : FGitState) : FGitState :=
  let s :=
    if bool_decide (FileState NewState ≠ EFileState.Unset)
    then set_FileState (FileState NewState) s else s in
  let s :=
    if bool_decide (TreeState NewState ≠ ETreeState.Unset)
    then set_TreeState (TreeState NewState) s else s in
  let s :=
    if bool_decide (LockState NewState ≠ ELockState.Unset)
    then set_LockState (LockState NewState) s else s in
  if bool_decide (RemoteState NewState ≠ ERemoteState.Unset)
  then set_RemoteState (RemoteState NewState) s else s.

(** One pass of that loop: [FindOrAdd] gives the recorded state of the
    file, or records [NewState] for it. *)
Definition CollectNewStates_step (NewState : FGitState)
  (Results : gmap string FGitState) (File : string)
  : gmap string FGitState :=
  <[File := CollectNewStates_set NewState
              (default NewState (Results !! File))]> Results.

(** [CollectNewStates] from a list of files and the states to give
    them. *)
Definition CollectNewStates (E : Env) (InFiles : list string)
  (OutResults : gmap string FGitState) (InFileState : EFileState.t)
  (InTreeState : ETreeState.t) (InLockState : ELockState.t)
  (InRemoteState : ERemoteState.t) : bool * gmap string FGitState :=
  if (length InFiles =? 0)%nat then (false, OutResults)
  else
    let NewState :=
      set_RemoteState InRemoteState
        (set_LockState InLockState
           (set_TreeState InTreeState
              (set_FileState InFileState (DefaultGitState E)))) in
    (true, foldl (CollectNewStates_step NewState) OutResults InFiles).

(** A member of a fragment laid over the cached one: [Unset] keeps what
    is cached. *)
Definition keep_unless_set {A : Type} (unset new old : A)
  `{EqDecision A} : A :=
  if bool_decide (new = unset) then old else new.

(** A fragment that sets the lock members only. *)
Definition lock_fragment : FGitState :=
  mkGitState EFileState.Unset ETreeState.Unset ELockState.LockedOther "bob"
    ERemoteState.Unset "".

(** The environment with another list of lockable types (the static
    [LockableTypes], which [CheckLFSLockable] rewrites). *)
Definition with_LockableTypes (Types : list string) (E : Env) : Env :=
  mkEnv (ExecProcess E) (Now E) (FileExists E) (ConvertRelativePathToFull E)
    (ModuleAvailable E) (ProviderLockUser E) (UsesCheckout E) Types
    (LFSLockBinary E) (StateIsUnknown E) (StateCanAdd E) (DefaultGitState E)
    (IndeterminateTreeState E).

(** The test of [CheckLFSLockable] on a line of "git check-attr": the
    attribute is set. *)
Definition attribute_set (Result : string) : bool :=
  FString.EndsWith "set" Result && negb (FString.EndsWith "unset" Result).

(** The loop of [CheckLFSLockable]: the file of index [i] is read with
    the result line of index [i]; [None] when there is no such line. *)
Fixpoint CheckLFSLockable_loop (InFiles Results LockableTypes : list string)
  : option (list string) :=
  match InFiles with
  | [] => Some LockableTypes
  | File :: InFiles' =>
      match Results with
      | [] => None
      | Result :: Results' =>
          CheckLFSLockable_loop InFiles' Results'
            (if attribute_set Result
             then LockableTypes ++ [FString.RightChop 1 File]
             else LockableTypes)
      end
  end.

(** [CheckLFSLockable]: the lockable types are emptied, then read from
    the attributes of the wildcards [InFiles].  The answer holds the
    outcome, the error messages and the new lockable types. *)
Definition CheckLFSLockable (E : Env) (InPathToGitBinary InRepositoryRoot
  : string) (InFiles OutErrorMessages : list string)
  : M (option (bool * list string * list string)) :=
  '(bResults, Results, OutErrorMessages) ←
    RunCommand E "check-attr" InPathToGitBinary InRepositoryRoot ["lockable"]
      InFiles [] OutErrorMessages;
  if negb bResults then mret (Some (false, OutErrorMessages, []))
  else
    match CheckLFSLockable_loop InFiles Results [] with
    | None => mret None
    | Some LockableTypes => mret (Some (true, OutErrorMessages, LockableTypes))
    end.

(** An environment whose "check-attr" answers that *.uasset is lockable
    and *.ini is not. *)
Definition attr_env : Env :=
  mkEnv
    (fun _ _ =>
       mkProcessOutput 0
         ("*.uasset: lockable: set" +:+ String FString.newline
            ("*.ini: lockable: unset" +:+ String FString.newline ""))
         "")
    0 (fun _ => true) (fun root path => root +:+ path) true "me" true []
    "git-lfs"
    (fun s => bool_decide (FileState (State s) = EFileState.Unknown))
    (fun s => bool_decide (TreeState (State s) = ETreeState.Untracked))
    (mkGitState EFileState.Unknown ETreeState.NotInRepo ELockState.Unset ""
       ERemoteState.UpToDate "")
    ETreeState.Unset.

(** ** Queries of the repository *)

(** [InfoMessages[0]] under the test [InfoMessages.Num() > 0]. *)
Definition first_message (InfoMessages : list string) : string :=
  default "" (InfoMessages !! 0%nat).

(** [GetUserConfig]: the name and the e-mail of the user, empty when they
    cannot be read.  [bResults &= ...] keeps the failure of the first
    query. *)
Definition GetUserConfig (E : Env) (InPathToGitBinary InRepositoryRoot
  : string) : M (string * string) :=
  '(bResults, InfoMessages, ErrorMessages) ←
    RunCommandInternal E "config" InPathToGitBinary InRepositoryRoot
      ["user.name"] [];
  let OutUserName :=
    if (bResults : bool) && (0 <? length InfoMessages)%nat
    then first_message InfoMessages else "" in
  '(bResults2, InfoMessages, ErrorMessages) ←
    RunCommandInternal E "config" InPathToGitBinary InRepositoryRoot
      ["user.email"] [];
  let bResults := bResults && bResults2 in
  let OutUserEmail :=
    if bResults && (0 <? length InfoMessages)%nat
    then first_message InfoMessages else "" in
  mret (OutUserName, OutUserEmail).

(** The format parameters of "git log", with their double quotes. *)
Definition format_short_hash : string :=
  "--format=" +:+ String FString.dquote ("%h" +:+ String FString.dquote "").

Definition format_hash_subject : string :=
  "--format=" +:+ String FString.dquote ("%H %s" +:+ String FString.dquote "").

(** [GetBranchName]: the name of the current branch, from the provider
    when it has one, or a label of the detached head.  The answer holds
    the outcome and [OutBranchName]. *)
Definition GetBranchName (E : Env) (H : Host) (InPathToGitBinary
  InRepositoryRoot OutBranchName : string) : M (bool * string) :=
  if negb (ModuleAvailable E) then mret (false, OutBranchName)
  else if negb (FString.IsEmpty (ProviderBranchName H))
  then mret (true, ProviderBranchName H)
  else
    '(bResults, InfoMessages, ErrorMessages) ←
      RunCommand E "symbolic-ref" InPathToGitBinary InRepositoryRoot
        ["--short"; "--quiet"; "HEAD"] [] [] [];
    if (bResults : bool) && (0 <? length InfoMessages)%nat
    then mret (bResults, first_message InfoMessages)
    else
      '(bResults, InfoMessages, ErrorMessages) ←
        RunCommand E "log" InPathToGitBinary InRepositoryRoot
          ["-1"; format_short_hash] [] InfoMessages ErrorMessages;
      if (bResults : bool) && (0 <? length InfoMessages)%nat
      then mret (bResults, "HEAD detached at " +:+ first_message InfoMessages)
      else mret (false, OutBranchName).

(** [GetRemoteBranchName]: the upstream of the current branch. *)
Definition GetRemoteBranchName (E : Env) (H : Host) (InPathToGitBinary
  InRepositoryRoot OutBranchName : string) : M (bool * string) :=
  if negb (ModuleAvailable E) then mret (false, OutBranchName)
  else if negb (FString.IsEmpty (ProviderRemoteBranchName H))
  then mret (true, ProviderRemoteBranchName H)
  else
    '(bResults, InfoMessages, ErrorMessages) ←
      RunCommand E "rev-parse" InPathToGitBinary InRepositoryRoot
        ["--abbrev-ref"; "--symbolic-full-name"; "@{u}"] [] [] [];
    if (bResults : bool) && (0 <? length InfoMessages)%nat
    then mret (bResults, first_message InfoMessages)
    else mret (bResults, OutBranchName).

(** [GetCommitInfo]: the identifier and the subject of the last commit. *)
Definition GetCommitInfo (E : Env) (InPathToGitBinary InRepositoryRoot
  OutCommitId OutCommitSummary : string) : M (bool * string * string) :=
  '(bResults, InfoMessages, ErrorMessages) ←
    RunCommandInternal E "log" InPathToGitBinary InRepositoryRoot
      ["-1"; format_hash_subject] [];
  if (bResults : bool) && (0 <? length InfoMessages)%nat
  then mret (bResults,
             FString.Left 40 (first_message InfoMessages),
             FString.RightChop 41 (first_message InfoMessages))
  else mret (bResults, OutCommitId, OutCommitSummary).

(** An environment whose "config user.name" fails and whose other
    launches print one line. *)
Definition no_name_env : Env :=
  mkEnv
    (fun _ cl =>
       if bool_decide (Parameters cl = ["user.name"])
       then mkProcessOutput 1 "" "error: key does not contain a section"
       else mkProcessOutput 0 ("someone@example.com" +:+ String FString.newline "") "")
    0 (fun _ => true) (fun root path => root +:+ path) true "me" true
    [".uasset"] "git-lfs"
    (fun s => bool_decide (FileState (State s) = EFileState.Unknown))
    (fun s => bool_decide (TreeState (State s) = ETreeState.Untracked))
    (mkGitState EFileState.Unknown ETreeState.NotInRepo ELockState.Unset ""
       ERemoteState.UpToDate "")
    ETreeState.Unset.

(** An environment on a detached head: "symbolic-ref" fails, the other
    launches print the short hash 1a2b3c4. *)
Definition detached_env : Env :=
  mkEnv
    (fun _ cl =>
       if String.eqb (Command cl) "symbolic-ref"
       then mkProcessOutput 1 "" ""
       else mkProcessOutput 0 ("1a2b3c4" +:+ String FString.newline "") "")
    0 (fun _ => true) (fun root path => root +:+ path) true "me" true
    [".uasset"] "git-lfs"
    (fun s => bool_decide (FileState (State s) = EFileState.Unknown))
    (fun s => bool_decide (TreeState (State s) = ETreeState.Untracked))
    (mkGitState EFileState.Unknown ETreeState.NotInRepo ELockState.Unset ""
       ERemoteState.UpToDate "")
    ETreeState.Unset.

(** An environment whose every launch prints the identifier and the
    subject of one commit. *)
Definition commit_id : string := "0123456789abcdef0123456789abcdef01234567".

Definition commit_env : Env :=
  mkEnv
    (fun _ _ =>
       mkProcessOutput 0
         (commit_id +:+ " Fix the map" +:+ String FString.newline "") "")
    0 (fun _ => true) (fun root path => root +:+ path) true "me" true
    [".uasset"] "git-lfs"
    (fun s => bool_decide (FileState (State s) = EFileState.Unknown))
    (fun s => bool_decide (TreeState (State s) = ETreeState.Untracked))
    (mkGitState EFileState.Unknown ETreeState.NotInRepo ELockState.Unset ""
       ERemoteState.UpToDate "")
    ETreeState.Unset.

(** ** Remote status *)

(** [TSet::Add] on a set kept in insertion order. *)
Definition TSet_Add (x : string) (s : list string) : list string :=
  if bool_decide (x ∈ s) then s else s ++ [x].

(** The locals of [CheckRemote] that live across its loop over the
    branches, with the flag [bPendingRestart] of the provider. *)
Record RemoteLoop := mkRemoteLoop {
  loop_NewerFiles : gmap string string;
  loop_ErrorMessages : list string;
  loop_bPendingRestart : bool
}.

(** One pass of the loop of [CheckRemote] over the files that are newer
    on [Branch]. *)
Definition CheckRemote_file (E : Env) (InRepositoryRoot Branch : string)
  (bCurrentBranch : bool) (acc : gmap string string * bool)
  (NewerFileName : string) : gmap string string * bool :=
  let '(NewerFiles, bPendingRestart) := acc in
  if negb (IsFileLFSLockable E NewerFileName) then
    if bCurrentBranch
       && (FString.Equals NewerFileName ".checksum"
           || FString.StartsWith "Binaries/" NewerFileName
           || FString.StartsWith "Plugins/" NewerFileName)
    then (NewerFiles, true)
    else (NewerFiles, bPendingRestart)
  else
    let NewerFilePath :=
      ConvertRelativePathToFull E InRepositoryRoot NewerFileName in
    if bCurrentBranch
       || negb (bool_decide (is_Some (NewerFiles !! NewerFilePath)))
    then (<[NewerFilePath := Branch]> NewerFiles, bPendingRestart)
    else (NewerFiles, bPendingRestart).

(** One pass of the loop of [CheckRemote] over the branches to diff. *)
Definition CheckRemote_branch (E : Env) (H : Host) (InPathToGitBinary
  InRepositoryRoot CurrentBranchName : string)
  (bDiffAgainstRemoteCurrent : bool) (FilesToDiff : list string)
  (Branch : string) (L : RemoteLoop) : M RemoteLoop :=
  let bCurrentBranch :=
    bDiffAgainstRemoteCurrent && String.eqb Branch CurrentBranchName in
  let ParametersLog := ["--pretty="; "--name-only"; ".." +:+ Branch; "--"] in
  '(bResultLog, LogResults, ErrorMessages) ←
    RunCommand E "log" InPathToGitBinary InRepositoryRoot ParametersLog
      FilesToDiff [] (loop_ErrorMessages L);
  if (bResultLog : bool) then
    '(Intersection, ErrorMessages) ←
      (if (0 <? length (StatusBranchNames H))%nat then
         let DiffParametersLog :=
           ["--pretty="; "--name-only"; "..." +:+ Branch; ""; "--"] in
         '(bResultDiff, DiffResults, ErrorMessages) ←
           RunCommand E "diff" InPathToGitBinary InRepositoryRoot
             DiffParametersLog FilesToDiff [] ErrorMessages;
         mret (filter
                 (fun ChangedFile =>
                    Is_true (existsb (FString.Equals ChangedFile) LogResults))
                 DiffResults,
               ErrorMessages)
       else mret (LogResults, ErrorMessages));
    let '(NewerFiles, bPendingRestart) :=
      foldl (CheckRemote_file E InRepositoryRoot Branch bCurrentBranch)
        (loop_NewerFiles L, loop_bPendingRestart L) Intersection in
    mret (mkRemoteLoop NewerFiles ErrorMessages bPendingRestart)
  else
    mret (mkRemoteLoop (loop_NewerFiles L) ErrorMessages
            (loop_bPendingRestart L)).

Fixpoint CheckRemote_loop (E : Env) (H : Host) (InPathToGitBinary
  InRepositoryRoot CurrentBranchName : string)
  (bDiffAgainstRemoteCurrent : bool) (FilesToDiff BranchesToDiff : list string)
  (L : RemoteLoop) : M RemoteLoop :=
  match BranchesToDiff with
  | [] => mret L
  | Branch :: BranchesToDiff' =>
      L' ← CheckRemote_branch E H InPathToGitBinary InRepositoryRoot
             CurrentBranchName bDiffAgainstRemoteCurrent FilesToDiff Branch L;
      CheckRemote_loop E H InPathToGitBinary InRepositoryRoot
        CurrentBranchName bDiffAgainstRemoteCurrent FilesToDiff
        BranchesToDiff' L'
  end.

(** One pass of the last loop of [CheckRemote]: the entry of a newer
    file, when there is one, gets its remote state and head branch. *)
Definition CheckRemote_apply (CurrentBranchName : string)
  (OutStates : gmap string FGitSourceControlState)
  (NewFile : string * string) : gmap string FGitSourceControlState :=
  match OutStates !! NewFile.1 with
  | Some FileState =>
      let FileState :=
        set_State
          (set_RemoteState
             (if String.eqb NewFile.2 CurrentBranchName
              then ERemoteState.NotAtHead else ERemoteState.NotLatest))
          FileState in
      let FileState := set_State (set_HeadBranch NewFile.2) FileState in
      <[NewFile.1 := FileState]> OutStates
  | None => OutStates
  end.

(** [CheckRemote]: the files that are newer on the status branches or
    on the upstream of the current branch are marked in [OutStates].  The
    answer holds [OutErrorMessages], [OutStates] and the flag
    [bPendingRestart] of the provider.  [Branch.Equals] compares with
    case. *)
Definition CheckRemote (E : Env) (H : Host) (InPathToGitBinary
  InRepositoryRoot : string) (Files OutErrorMessages : list string)
  (OutStates : gmap string FGitSourceControlState) (bPendingRestart : bool)
  : M (list string * gmap string FGitSourceControlState * bool) :=
  if negb (ModuleAvailable E)
  then mret (OutErrorMessages, OutStates, bPendingRestart)
  else
    let BranchesToDiff :=
      foldl (fun s Branch => TSet_Add Branch s) [] (StatusBranchNames H) in
    '(bDiffAgainstRemoteCurrent, CurrentBranchName) ←
      GetRemoteBranchName E H InPathToGitBinary InRepositoryRoot "";
    let BranchesToDiff :=
      if (bDiffAgainstRemoteCurrent : bool)
      then TSet_Add CurrentBranchName BranchesToDiff else BranchesToDiff in
    if (length BranchesToDiff =? 0)%nat
    then mret (OutErrorMessages, OutStates, bPendingRestart)
    else
      let FilesToDiff :=
        [ProjectContentDir H; ".checksum"; "Binaries/"; "Plugins/"] in
      L ← CheckRemote_loop E H InPathToGitBinary InRepositoryRoot
            CurrentBranchName bDiffAgainstRemoteCurrent FilesToDiff
            BranchesToDiff (mkRemoteLoop ∅ [] bPendingRestart);
      let OutStates :=
        foldl (CheckRemote_apply CurrentBranchName) OutStates
          (map_to_list (loop_NewerFiles L)) in
      mret (OutErrorMessages ++ loop_ErrorMessages L, OutStates,
            loop_bPendingRestart L).

(** An environment in which the upstream is origin/main and every log
    lists one asset and one binary as newer. *)
Definition remote_env : Env :=
  mkEnv
    (fun _ cl =>
       if String.eqb (Command cl) "rev-parse"
       then mkProcessOutput 0 ("origin/main" +:+ String FString.newline "") ""
       else mkProcessOutput 0
              ("Content/a.uasset" +:+ String FString.newline
                 ("Binaries/Editor.dll" +:+ String FString.newline ""))
              "")
    0 (fun _ => true) (fun root path => root +:+ "/" +:+ path) true "me" true
    [".uasset"] "git-lfs"
    (fun s => bool_decide (FileState (State s) = EFileState.Unknown))
    (fun s => bool_decide (TreeState (State s) = ETreeState.Untracked))
    (mkGitState EFileState.Unknown ETreeState.NotInRepo ELockState.Unset ""
       ERemoteState.UpToDate "")
    ETreeState.Unset.

(** ** Status of files and directories *)

(** [ListFilesInDirectoryRecurse]: the files git tracks under a
    directory, as full paths. *)
Definition ListFilesInDirectoryRecurse (E : Env) (InPathToGitBinary
  InRepositoryRoot InDirectory : string) : M (bool * list string) :=
  '(bResult, OutFiles, ErrorMessages) ←
    RunCommandInternal E "ls-files" InPathToGitBinary InRepositoryRoot []
      [InDirectory];
  mret (bResult, map (ConvertRelativePathToFull E InRepositoryRoot) OutFiles).

(** The first loop of [ParseStatusResults]: the set [Files] of the files
    to look at, a directory standing for the files tracked under it. *)
Fixpoint ParseStatusResults_files (E : Env) (H : Host) (InPathToGitBinary
  InRepositoryRoot : string) (InFiles Files : list string)
  : M (list string) :=
  match InFiles with
  | [] => mret Files
  | File :: InFiles' =>
      if DirectoryExists H File then
        '(bResult, DirectoryFiles) ←
          ListFilesInDirectoryRecurse E InPathToGitBinary InRepositoryRoot
            File;
        ParseStatusResults_files E H InPathToGitBinary InRepositoryRoot
          InFiles'
          (if (bResult : bool)
           then foldl (fun s InnerFile => TSet_Add InnerFile s) Files
                  DirectoryFiles
           else Files)
      else
        ParseStatusResults_files E H InPathToGitBinary InRepositoryRoot
          InFiles' (TSet_Add File Files)
  end.

(** [ParseStatusResults]: the states of files and directories from the
    lines of a status command. *)
Definition ParseStatusResults (E : Env) (H : Host) (InPathToGitBinary
  InRepositoryRoot : string) (InUsingLfsLocking : bool)
  (InFiles : list string) (InResults : gmap string string)
  (OutStates : gmap string FGitSourceControlState)
  : M (option (gmap string FGitSourceControlState)) :=
  Files ← ParseStatusResults_files E H InPathToGitBinary InRepositoryRoot
            InFiles [];
  ParseFileStatusResult E InPathToGitBinary InRepositoryRoot
    InUsingLfsLocking Files InResults OutStates.

(** A disk with the directory /repo/Content, and an environment whose
    "ls-files" lists two assets. *)
Definition content_host : Host :=
  mkHost (fun Path => String.eqb Path "/repo/Content") [] "" ""
    "/repo/Content/".

Definition ls_files_env : Env :=
  mkEnv
    (fun _ _ =>
       mkProcessOutput 0
         ("Content/a.uasset" +:+ String FString.newline
            ("Content/b.uasset" +:+ String FString.newline ""))
         "")
    0 (fun _ => true) (fun root path => root +:+ "/" +:+ path) true "me" true
    [".uasset"] "git-lfs"
    (fun s => bool_decide (FileState (State s) = EFileState.Unknown))
    (fun s => bool_decide (TreeState (State s) = ETreeState.Untracked))
    (mkGitState EFileState.Unknown ETreeState.NotInRepo ELockState.Unset ""
       ERemoteState.UpToDate "")
    ETreeState.Unset.

(** ** Blob of a revision *)

(** The members of [FGitLsTreeParser]; [FileSize] is assigned only when
    the line holds a tab. *)
Module LsTreeParser.
Record t := mk { FileHash : string; FileSize : option Z }.
End LsTreeParser.

(** The constructor of [FGitLsTreeParser] on the lines of
    "git ls-tree --long"; [None] when there is no first line to read. *)
Definition FGitLsTreeParser (InResults : list string)
  : option LsTreeParser.t :=
  match InResults !! 0%nat with
  | None => None
  | Some FirstResult =>
      let FileHash := FString.Mid 12 40 FirstResult in
      match FString.FindChar FString.tab FirstResult with
      | Some IdxTab =>
          let SizeString :=
            FString.Mid 53 (Z.of_nat IdxTab - 53) FirstResult in
          Some (LsTreeParser.mk FileHash (Some (FString.Atoi SizeString)))
      | None => Some (LsTreeParser.mk FileHash None)
      end
  end.

(** The line of "git ls-tree --long" that the source documents. *)
Definition ls_tree_line : string :=
  "100644 blob a14347dc3b589b78fb19ba62a7e3982f343718bc   70731"
  +:+ String FString.tab "Content/Blueprints/BP_Test.uasset".

(** The lines of "git ls-files --unmerged" for one file in conflict. *)
Definition unmerged_lines : list string :=
  [ "100644 d9b33098273547b57c0af314136f35b494e16dcb 1"
      +:+ String FString.tab "Content/Blueprints/BP_Test.uasset";
    "100644 a14347dc3b589b78fb19ba62a7e3982f343718bc 2"
      +:+ String FString.tab "Content/Blueprints/BP_Test.uasset";
    "100644 f3137a7167c840847cd7bd2bf07eefbfb2d9bcd2 3"
      +:+ String FString.tab "Content/Blueprints/BP_Test.uasset" ].

(** An environment whose every launch prints [unmerged_lines]. *)
Definition unmerged_env : Env :=
  mkEnv
    (fun _ _ =>
       mkProcessOutput 0
         (foldr (fun Line Out => Line +:+ String FString.newline Out) ""
            unmerged_lines)
         "")
    0 (fun _ => true) (fun root path => root +:+ "/" +:+ path) true "me" true
    [".uasset"] "git-lfs"
    (fun s => bool_decide (FileState (State s) = EFileState.Unknown))
    (fun s => bool_decide (TreeState (State s) = ETreeState.Untracked))
    (mkGitState EFileState.Unknown ETreeState.NotInRepo ELockState.Unset ""
       ERemoteState.UpToDate "")
    ETreeState.Unset.

(** An environment without remote: the plain "locks" query fails, the
    "--cached" list holds a lock of bob and a lock of the user, the
    "--local" list holds another lock of the user. *)
Definition offline_env : Env :=
  let tab := String FString.tab "" in
  let nl := String FString.newline "" in
  mkEnv
    (fun _ cl =>
       if bool_decide (Parameters cl = []) then
         mkProcessOutput 1 "" "offline"
       else if bool_decide (Parameters cl = ["--cached"]) then
         mkProcessOutput 0
           ("Content/a.uasset" +:+ tab +:+ "bob" +:+ tab +:+ "ID:1" +:+ nl
            +:+ "Content/c.uasset" +:+ tab +:+ "me" +:+ tab +:+ "ID:3" +:+ nl)
           ""
       else
         mkProcessOutput 0
           ("Content/b.uasset" +:+ tab +:+ "me" +:+ tab +:+ "ID:2" +:+ nl) "")
    0 (fun _ => true) (fun root path => root +:+ "/" +:+ path) true "me" true
    [".uasset"] "git-lfs"
    (fun s => bool_decide (FileState (State s) = EFileState.Unknown))
    (fun s => bool_decide (TreeState (State s) = ETreeState.Untracked))
    (mkGitState EFileState.Unknown ETreeState.NotInRepo ELockState.Unset ""
       ERemoteState.UpToDate "")
    ETreeState.Unset.

(** * Properties *)

(** Unfolds the state-passing operations. *)
Ltac unfold_M :=
  unfold mbind, M_bind, mret, M_ret, get_world, modify_world in *.

(** ** Status line parser *)

Lemma FGitStatusParser_defined (InResult : string) :
  is_Some (FGitStatusParser InResult) <-> (2 <= String.length InResult)%nat.
Proof.
  unfold FGitStatusParser.
  destruct InResult as [|a [|b s]]; simpl.
  - split; [intros [x Hx]; discriminate | lia].
  - split; [intros [x Hx]; discriminate | lia].
  - split; [lia|]. intros _.
    repeat match goal with
           | |- context [if ?b then _ else _] => destruct b
           end; eauto.
Qed.

(** C2: a status line whose index or worktree character is 'U', or whose
    two characters are both 'A' or both 'D', is classified
    FileState=Unmerged and TreeState=Working, whatever else the two
    characters would match: no other rule of the parser is consulted. *)
Theorem FGitStatusParser_conflict (InResult : string)
  (IndexState WCopyState : ascii) :
  FString.at_ InResult 0 = Some IndexState ->
  FString.at_ InResult 1 = Some WCopyState ->
  (IndexState = "U" \/ WCopyState = "U"
   \/ (IndexState = "A" /\ WCopyState = "A")
   \/ (IndexState = "D" /\ WCopyState = "D"))%char ->
  FGitStatusParser InResult
  = Some (StatusParser.mk EFileState.Unmerged (Some ETreeState.Working)).
Proof.
  intros H0 H1 Hc.
  unfold FGitStatusParser. rewrite H0, H1.
  destruct Hc as [-> | [-> | [[-> ->] | [-> ->]]]]; simpl;
    rewrite ?orb_true_r; reflexivity.
Qed.

(** The line "AA path" is a conflict: the rule for an added file does not
    classify it. *)
Lemma FGitStatusParser_conflict_witness :
  FGitStatusParser "AA path"
  = Some (StatusParser.mk EFileState.Unmerged (Some ETreeState.Working))
  /\ (StatusParser.FileState <$> FGitStatusParser "AA path")
     <> Some EFileState.Added.
Proof.
  assert (H : FGitStatusParser "AA path"
              = Some (StatusParser.mk EFileState.Unmerged
                        (Some ETreeState.Working))).
  { apply (FGitStatusParser_conflict "AA path" "A" "A");
      [reflexivity | reflexivity | right; right; left; split; reflexivity]. }
  split; [exact H | rewrite H; simpl; discriminate].
Defined.

(** C10: the parser reads the first two characters of its line without a
    test, so that it has no result on a line shorter than two characters;
    and on a line whose two characters are both different from a space and
    fall under none of the conflict, '?' and '!' rules it assigns a
    FileState but no TreeState.  "MM path" is such a line, with
    FileState=Modified. *)
Theorem FGitStatusParser_partial :
  (forall InResult : string,
      (String.length InResult < 2)%nat -> FGitStatusParser InResult = None)
  /\ (forall (InResult : string) (IndexState WCopyState : ascii),
        FString.at_ InResult 0 = Some IndexState ->
        FString.at_ InResult 1 = Some WCopyState ->
        (IndexState <> " " -> WCopyState <> " " ->
         ~ (IndexState = "U" \/ WCopyState = "U"
            \/ (IndexState = "A" /\ WCopyState = "A")
            \/ (IndexState = "D" /\ WCopyState = "D")) ->
         IndexState <> "?" -> WCopyState <> "?" ->
         IndexState <> "!" -> WCopyState <> "!" ->
         exists fs : EFileState.t,
           FGitStatusParser InResult = Some (StatusParser.mk fs None))%char)
  /\ FGitStatusParser "MM path"
     = Some (StatusParser.mk EFileState.Modified None).
Proof.
  split; [|split].
  - intros InResult Hlen.
    destruct (FGitStatusParser InResult) eqn:Hp; [|reflexivity].
    assert (Hs : is_Some (FGitStatusParser InResult)) by (rewrite Hp; eauto).
    apply FGitStatusParser_defined in Hs. lia.
  - intros InResult i c H0 H1 Hi Hc Hconf Hq1 Hq2 Hb1 Hb2.
    unfold FGitStatusParser. rewrite H0, H1.
    apply Ascii.eqb_neq in Hi, Hc, Hq1, Hq2, Hb1, Hb2.
    rewrite Hi, Hc, Hq1, Hq2, Hb1, Hb2. simpl.
    destruct (Ascii.eqb i "U") eqn:HiU.
    { apply Ascii.eqb_eq in HiU. exfalso. apply Hconf. auto. }
    destruct (Ascii.eqb c "U") eqn:HcU.
    { apply Ascii.eqb_eq in HcU. exfalso. apply Hconf. auto. }
    destruct (Ascii.eqb i "A") eqn:HiA, (Ascii.eqb c "A") eqn:HcA; simpl;
      try (apply Ascii.eqb_eq in HiA; apply Ascii.eqb_eq in HcA;
           exfalso; apply Hconf; auto);
      try (eexists; reflexivity);
    destruct (Ascii.eqb i "D") eqn:HiD, (Ascii.eqb c "D") eqn:HcD; simpl;
      try (apply Ascii.eqb_eq in HiD; apply Ascii.eqb_eq in HcD;
           exfalso; apply Hconf; auto);
      try (eexists; reflexivity);
    repeat match goal with
           | |- context [if ?b then _ else _] => destruct b
           end; eexists; reflexivity.
  - reflexivity.
Qed.

Lemma FGitStatusParser_partial_witness :
  FGitStatusParser "M" = None
  /\ (exists fs : EFileState.t,
         FGitStatusParser "RM a -> b" = Some (StatusParser.mk fs None)).
Proof.
  destruct FGitStatusParser_partial as (Hshort & Hnotree & _).
  split.
  - apply Hshort. simpl. lia.
  - apply (Hnotree "RM a -> b" "R"%char "M"%char); try reflexivity;
      try discriminate.
    intros [H | [H | [[H _] | [H _]]]]; discriminate.
Defined.

(** ** Path of a status line *)

Lemma FindLastChar_app_Some (c : ascii) (pre s : string) (i : nat) :
  FString.FindLastChar c s = Some i ->
  FString.FindLastChar c (pre +:+ s) = Some (String.length pre + i)%nat.
Proof.
  intros Hs. induction pre as [|d pre IH]; simpl; [exact Hs|].
  rewrite IH. reflexivity.
Qed.

Lemma drop_chars_app (pre s : string) (k : nat) :
  FString.drop_chars (String.length pre + k) (pre +:+ s)
  = FString.drop_chars k s.
Proof. induction pre as [|d pre IH]; simpl; [reflexivity | exact IH]. Qed.

Lemma FilenameFromGitStatus_arrow (pre dst : string) :
  FString.FindLastChar ">" dst = None ->
  FilenameFromGitStatus (pre +:+ " -> " +:+ dst) = FString.TrimQuotes dst.
Proof.
  intros Hdst. unfold FilenameFromGitStatus.
  assert (Harrow : FString.FindLastChar ">" (" -> " +:+ dst) = Some 2%nat).
  { change (" -> " +:+ dst)
      with (String " " (String "-" (String ">" (String " " dst)))).
    cbn [FString.FindLastChar]. rewrite Hdst. reflexivity. }
  rewrite (FindLastChar_app_Some _ pre _ _ Harrow).
  unfold FString.RightChop.
  replace (Z.to_nat (Z.of_nat (String.length pre + 2) + 2))
    with (String.length pre + 4)%nat by lia.
  rewrite drop_chars_app. reflexivity.
Qed.

(** C8 (as amended): for a status line [pre -> dst] whose destination
    holds no '>' the path is [dst], and for a line that holds no '>' at
    all it is what follows the first three characters; in both cases one
    leading and one trailing double quote are trimmed.  The line
    "R  a/b.txt -> a/c.txt" yields a/c.txt. *)
Theorem FilenameFromGitStatus_path :
  (forall pre dst : string,
      FString.FindLastChar ">" dst = None ->
      FilenameFromGitStatus (pre +:+ " -> " +:+ dst) = FString.TrimQuotes dst)
  /\ (forall InResult : string,
        FString.FindLastChar ">" InResult = None ->
        FilenameFromGitStatus InResult
        = FString.TrimQuotes (FString.RightChop 3 InResult))
  /\ FilenameFromGitStatus "R  a/b.txt -> a/c.txt" = "a/c.txt".
Proof.
  split; [|split].
  - exact FilenameFromGitStatus_arrow.
  - intros InResult H. unfold FilenameFromGitStatus. rewrite H. reflexivity.
  - reflexivity.
Qed.

Lemma FilenameFromGitStatus_path_witness :
  FilenameFromGitStatus ("R  a.txt" +:+ " -> " +:+ quoted_path)
  = "b c.txt"
  /\ FilenameFromGitStatus "M  Content/T.uasset" = "Content/T.uasset".
Proof.
  destruct FilenameFromGitStatus_path as (Harrow & Hplain & _).
  split.
  - rewrite (Harrow "R  a.txt" quoted_path); reflexivity.
  - rewrite (Hplain "M  Content/T.uasset"); reflexivity.
Defined.

(** C8 (as stated) fails on two lines without a rename arrow.  On the
    line of a quoted path the result is not everything after the
    three-character prefix: the quotes are trimmed there too.  On a line
    whose file name holds a '>' the result starts two characters after
    that '>'. *)
Lemma FilenameFromGitStatus_not_plain_suffix :
  (FString.Contains "->" quoted_status_line = false
   /\ FilenameFromGitStatus quoted_status_line = "b c.txt"
   /\ FilenameFromGitStatus quoted_status_line
      <> FString.RightChop 3 quoted_status_line)
  /\ (FString.Contains "->" "M  a>b.txt" = false
      /\ FilenameFromGitStatus "M  a>b.txt" = ".txt"
      /\ FString.RightChop 3 "M  a>b.txt" = "a>b.txt").
Proof.
  repeat split; try reflexivity.
  vm_compute. discriminate.
Qed.

(** ** Redundant errors *)

Lemma reclassify_foldl (InFilter : string) (Errors Infos : list string)
  (bFound : bool) :
  foldl
    (fun (acc : list string * bool) (Line : string) =>
       if FString.Contains InFilter Line
       then (acc.1 ++ [Line], true) else acc)
    (Infos, bFound) Errors
  = (Infos ++ List.filter (FString.Contains InFilter) Errors,
     bFound || existsb (FString.Contains InFilter) Errors).
Proof.
  revert Infos bFound.
  induction Errors as [|Line Errors IH]; intros Infos bFound; simpl.
  - rewrite app_nil_r, orb_false_r. reflexivity.
  - destruct (FString.Contains InFilter Line); simpl.
    + rewrite IH. rewrite <- app_assoc. simpl.
      rewrite orb_true_r. reflexivity.
    + apply IH.
Qed.

Lemma existsb_filter_nil {A : Type} (p : A -> bool) (l : list A) :
  existsb p l = false <-> List.filter p l = [].
Proof.
  induction l as [|a l IH]; simpl; [tauto|].
  destruct (p a); simpl; [split; discriminate | exact IH].
Qed.

(** C9: a pass of the redundant-error filter appends every error line
    that contains the filter to the informational messages, in order, and
    removes it from the errors; the success flag goes from false to true
    exactly when a line was reclassified, no error is left and the command
    was unsuccessful; a pass that reclassifies nothing leaves the flag as
    it was. *)
Theorem RemoveRedundantErrors_reclassifies
  (InCommand : FGitSourceControlCommand) (InFilter : string) :
  let Out := RemoveRedundantErrors InCommand InFilter in
  let Benign :=
    List.filter (FString.Contains InFilter)
      (ErrorMessages (ResultInfo InCommand)) in
  InfoMessages (ResultInfo Out)
  = InfoMessages (ResultInfo InCommand) ++ Benign
  /\ ErrorMessages (ResultInfo Out)
     = List.filter (fun Line => negb (FString.Contains InFilter Line))
         (ErrorMessages (ResultInfo InCommand))
  /\ ((bCommandSuccessful InCommand = false
       /\ bCommandSuccessful Out = true)
      <-> (Benign <> [] /\ ErrorMessages (ResultInfo Out) = []
           /\ bCommandSuccessful InCommand = false))
  /\ (Benign = [] -> bCommandSuccessful Out = bCommandSuccessful InCommand).
Proof.
  intros Out Benign. subst Out Benign.
  unfold RemoveRedundantErrors. rewrite reclassify_foldl. simpl.
  set (Errs := ErrorMessages (ResultInfo InCommand)).
  assert (Hfilter :
    List.filter (fun Line => negb (FRemoveRedundantErrors InFilter Line)) Errs
    = List.filter (fun Line => negb (FString.Contains InFilter Line)) Errs).
  { apply filter_ext. intros Line. unfold FRemoveRedundantErrors.
    destruct (FString.Contains InFilter Line); reflexivity. }
  rewrite Hfilter.
  set (Left := List.filter
                 (fun Line => negb (FString.Contains InFilter Line)) Errs).
  split; [reflexivity|]. split; [reflexivity|].
  pose proof (existsb_filter_nil (FString.Contains InFilter) Errs) as Hex.
  destruct (existsb (FString.Contains InFilter) Errs) eqn:Hfound.
  - assert (Hne : List.filter (FString.Contains InFilter) Errs <> []).
    { intros Hnil. apply Hex in Hnil. discriminate. }
    split.
    + destruct Left as [|l Left']; simpl;
        destruct (bCommandSuccessful InCommand); simpl;
        split; intros H; try tauto;
        repeat match goal with H : _ /\ _ |- _ => destruct H end;
        try discriminate; auto.
    + intros Hnil. contradiction.
  - assert (Hnil : List.filter (FString.Contains InFilter) Errs = [])
      by (apply Hex; reflexivity).
    split.
    + simpl. split.
      * intros [Hf Ht]. rewrite Hf in Ht. discriminate.
      * intros [Hne _]. contradiction.
    + intros _. reflexivity.
Qed.

Lemma RemoveRedundantErrors_reclassifies_witness :
  bCommandSuccessful
    (RemoveRedundantErrors
       (mkCommand (mkResultInfo ["done"] ["fatal: no upstream"]) false)
       "warning:")
  = false.
Proof.
  apply (RemoveRedundantErrors_reclassifies
           (mkCommand (mkResultInfo ["done"] ["fatal: no upstream"]) false)
           "warning:").
  reflexivity.
Defined.

(** ** History parser *)

Lemma ParseLog_line_defined (Result : string)
  (st : FGitSourceControlRevision * list FGitSourceControlRevision) :
  Result <> "" -> is_Some (ParseLog_line Result st).
Proof.
  intros Hne. destruct st as [cur hist]. unfold ParseLog_line.
  destruct (FString.StartsWith "commit " Result).
  { destruct (bool_decide (RevisionNumber cur ≠ 0%Z)); eauto. }
  destruct (FString.StartsWith "Author: " Result).
  { destruct (FString.FindLastChar "<" (FString.RightChop 8 Result)); eauto. }
  destruct (FString.StartsWith "Date:   " Result); [eauto|].
  destruct (FString.StartsWith "    " Result); [eauto|].
  destruct Result as [|c Result']; [congruence|].
  cbn [FString.at_ String.get].
  destruct (FString.FindLastChar FString.tab (String c Result')); eauto.
Qed.

Lemma ParseLog_line_count (Result : string)
  (cur cur' : FGitSourceControlRevision)
  (hist hist' : list FGitSourceControlRevision) :
  ParseLog_line Result (cur, hist) = Some (cur', hist') ->
  (length hist' + pending cur'
   = length hist + pending cur
     + (if FString.StartsWith "commit " Result then 1 else 0))%nat.
Proof.
  unfold ParseLog_line.
  destruct (FString.StartsWith "commit " Result).
  - unfold pending at 2.
    destruct (bool_decide (RevisionNumber cur ≠ 0%Z));
      intros [= <- <-]; rewrite ?length_app; simpl; unfold pending; simpl; lia.
  - destruct (FString.StartsWith "Author: " Result).
    { destruct (FString.FindLastChar "<" (FString.RightChop 8 Result));
        intros [= <- <-]; unfold pending; simpl; lia. }
    destruct (FString.StartsWith "Date:   " Result).
    { intros [= <- <-]; unfold pending; simpl; lia. }
    destruct (FString.StartsWith "    " Result).
    { intros [= <- <-]; unfold pending; simpl; lia. }
    destruct (FString.at_ Result 0); [|discriminate].
    destruct (FString.FindLastChar FString.tab Result);
      intros [= <- <-]; unfold pending; simpl; lia.
Qed.

#[local] Arguments ParseLog_line : simpl never.

Lemma ParseLog_lines_defined (InResults : list string) :
  Forall (fun Result => Result <> "") InResults ->
  forall st, is_Some (ParseLog_lines InResults st).
Proof.
  induction 1 as [|Result InResults Hne _ IH]; intros st; simpl; [eauto|].
  destruct (ParseLog_line_defined Result st Hne) as [st' ->]. apply IH.
Qed.

Lemma ParseLog_lines_count (InResults : list string) :
  forall cur hist cur' hist',
    ParseLog_lines InResults (cur, hist) = Some (cur', hist') ->
    (length hist' + pending cur'
     = length hist + pending cur + commit_lines InResults)%nat.
Proof.
  unfold commit_lines.
  induction InResults as [|Result InResults IH]; intros cur hist cur' hist';
    simpl.
  - intros [= <- <-]. lia.
  - destruct (ParseLog_line Result (cur, hist)) as [[cur1 hist1]|] eqn:Hline;
      [|discriminate].
    intros Hrest. apply IH in Hrest. apply ParseLog_line_count in Hline.
    destruct (FString.StartsWith "commit " Result); simpl; lia.
Qed.

Lemma number_revision_ordinal (Num i : nat) (r : FGitSourceControlRevision) :
  RevisionNumber (number_revision Num i r) = (Z.of_nat Num - Z.of_nat i)%Z.
Proof.
  unfold number_revision.
  destruct (_ && _); reflexivity.
Qed.

Lemma number_revision_action (Num i : nat) (r : FGitSourceControlRevision) :
  Action (number_revision Num i r) = Action r.
Proof.
  unfold number_revision.
  destruct (_ && _); reflexivity.
Qed.

Lemma number_revision_branch (Num i : nat) (r : FGitSourceControlRevision) :
  Action r = "branch" -> (i + 1 < Num)%nat ->
  BranchSource (number_revision Num i r) = Some (i + 1)%nat.
Proof.
  intros Ha Hi. unfold number_revision. simpl. rewrite Ha.
  replace (Z.of_nat i <? Z.of_nat Num - 1)%Z with true
    by (symmetry; apply Z.ltb_lt; lia).
  reflexivity.
Qed.

(** C5: the history parser numbers the records of a log against their
    order of emission, the first record with the number of records and the
    last with 1, and links a record whose action is "branch" to the record
    after it.  A log of lines that are not empty always has a result, and
    from an empty history the number of records is the number of commit
    lines.  On the two-commit log whose newest commit renames x.txt to
    y.txt the ordinals are 2 and 1 and the origin of revision 2 is
    revision 1. *)
Theorem ParseLogResults_ordinals :
  (forall (InResults : list string)
          (OutHistory : list FGitSourceControlRevision),
      Forall (fun Result => Result <> "") InResults ->
      exists H : list FGitSourceControlRevision,
        ParseLogResults InResults OutHistory = Some H
        /\ length H = (length OutHistory + commit_lines InResults)%nat
        /\ (forall (i : nat) (r : FGitSourceControlRevision),
              H !! i = Some r ->
              RevisionNumber r = (Z.of_nat (length H) - Z.of_nat i)%Z)
        /\ (forall r, head H = Some r ->
                      RevisionNumber r = Z.of_nat (length H))
        /\ (forall r, last H = Some r -> RevisionNumber r = 1%Z)
        /\ (forall (i : nat) (r : FGitSourceControlRevision),
              H !! i = Some r -> Action r = "branch" ->
              (i + 1 < length H)%nat ->
              BranchSource r = Some (i + 1)%nat
              /\ exists origin : FGitSourceControlRevision,
                   H !! (i + 1)%nat = Some origin
                   /\ RevisionNumber origin = (RevisionNumber r - 1)%Z))
  /\ (exists newest oldest : FGitSourceControlRevision,
         ParseLogResults rename_log [] = Some [newest; oldest]
         /\ Filename newest = "y.txt" /\ Action newest = "branch"
         /\ RevisionNumber newest = 2%Z
         /\ Filename oldest = "x.txt" /\ Action oldest = "add"
         /\ RevisionNumber oldest = 1%Z
         /\ BranchSource newest = Some 1%nat
         /\ [newest; oldest] !! 1%nat = Some oldest).
Proof.
  split.
  - intros InResults OutHistory Hne.
    unfold ParseLogResults.
    destruct (ParseLog_lines_defined InResults Hne (NewRevision, OutHistory))
      as [[cur hist] Hlines].
    rewrite Hlines.
    pose proof (ParseLog_lines_count _ _ _ _ _ Hlines) as Hcount.
    set (L := if bool_decide (RevisionNumber cur ≠ 0%Z)
              then hist ++ [cur] else hist).
    assert (HlenL : length L = (length OutHistory + commit_lines InResults)%nat).
    { subst L. unfold pending in Hcount. simpl in Hcount.
      destruct (bool_decide (RevisionNumber cur ≠ 0%Z));
        rewrite ?length_app; simpl; lia. }
    assert (Hlen : length (imap (number_revision (length L)) L) = length L)
      by apply length_imap.
    assert (Hord : forall i r,
               imap (number_revision (length L)) L !! i = Some r ->
               RevisionNumber r = (Z.of_nat (length L) - Z.of_nat i)%Z).
    { intros i r Hi. rewrite list_lookup_imap in Hi.
      destruct (L !! i) as [r0|]; simpl in Hi; [|discriminate].
      injection Hi as <-. apply number_revision_ordinal. }
    exists (imap (number_revision (length L)) L).
    rewrite Hlen.
    split; [reflexivity|]. split; [exact HlenL|]. split; [exact Hord|].
    split; [|split].
    + intros r Hhead. rewrite head_lookup in Hhead.
      rewrite (Hord _ _ Hhead). lia.
    + intros r Hlast. rewrite last_lookup in Hlast. rewrite Hlen in Hlast.
      pose proof (lookup_lt_Some _ _ _ Hlast) as Hlt. rewrite Hlen in Hlt.
      rewrite (Hord _ _ Hlast). lia.
    + intros i r Hi Hact Hnext.
      pose proof Hi as Hi'. rewrite list_lookup_imap in Hi'.
      destruct (L !! i) as [r0|] eqn:Hr0; simpl in Hi'; [|discriminate].
      injection Hi' as <-.
      rewrite number_revision_action in Hact.
      split; [apply number_revision_branch; assumption|].
      destruct (lookup_lt_is_Some_2 (imap (number_revision (length L)) L)
                  (i + 1)) as [origin Horigin]; [rewrite Hlen; lia|].
      exists origin. split; [exact Horigin|].
      rewrite (Hord _ _ Horigin), (Hord _ _ Hi). lia.
  - eexists _, _. split; [reflexivity|].
    repeat split; reflexivity.
Qed.

Lemma ParseLogResults_ordinals_witness :
  exists H : list FGitSourceControlRevision,
    ParseLogResults rename_log [] = Some H /\ length H = 2%nat.
Proof.
  destruct ParseLogResults_ordinals as [Hgeneral _].
  destruct (Hgeneral rename_log []) as (H & Hparse & Hlen & _).
  - repeat constructor; discriminate.
  - exists H. split; [exact Hparse | exact Hlen].
Defined.

(** ** Batches *)

Lemma RunCommandInternal_world (E : Env) (c b r : string)
  (p f : list string) (w : World) :
  (RunCommandInternal E c b r p f w).2
  = set_Trace (Trace w ++ [mkCmdLine c b r p f]) w.
Proof.
  unfold RunCommandInternal, RunCommandInternalRaw. unfold_M.
  destruct (_ && _); reflexivity.
Qed.

Lemma RunCommandInternal_run (E : Env) (c b r : string)
  (p f : list string) (w : World) :
  exists res : bool * list string * list string,
    RunCommandInternal E c b r p f w
    = (res, set_Trace (Trace w ++ [mkCmdLine c b r p f]) w).
Proof.
  pose proof (RunCommandInternal_world E c b r p f w) as Hw.
  destruct (RunCommandInternal E c b r p f w) as [res w'].
  simpl in Hw. subst w'. eauto.
Qed.

#[local] Arguments RunCommandInternal : simpl never.
#[local] Arguments FilesInBatch : simpl never.

Lemma RunCommand_loop_trace (E : Env) (c b r : string)
  (p InFiles : list string) (fuel : nat) :
  forall (FileCount : nat) (bResult : bool) (res errs : list string)
         (w : World),
    Trace (RunCommand_loop E fuel c b r p InFiles FileCount bResult res errs
             w).2
    = Trace w
      ++ map (mkCmdLine c b r p) (loop_batches fuel InFiles FileCount).
Proof.
  induction fuel as [|fuel IH]; intros FileCount bResult res errs w; simpl.
  - unfold_M. simpl. rewrite app_nil_r. reflexivity.
  - destruct (FileCount <? length InFiles)%nat.
    + unfold_M.
      destruct (RunCommandInternal_run E c b r p
                  (FilesInBatch InFiles FileCount) w)
        as [[[r1 br] be] ->].
      rewrite IH. simpl. rewrite <- app_assoc. reflexivity.
    + unfold_M. simpl. rewrite app_nil_r. reflexivity.
Qed.

Lemma RunCommit_loop_trace (E : Env) (b r : string)
  (ap p InFiles : list string) (fuel : nat) :
  forall (FileCount : nat) (bResult : bool) (res errs : list string)
         (w : World),
    Trace (RunCommit_loop E fuel b r ap p InFiles FileCount bResult res errs
             w).2
    = Trace w
      ++ flat_map
           (fun Batch =>
              [mkCmdLine "add" b r ap Batch; mkCmdLine "commit" b r p Batch])
           (loop_batches fuel InFiles FileCount).
Proof.
  induction fuel as [|fuel IH]; intros FileCount bResult res errs w; simpl.
  - unfold_M. simpl. rewrite app_nil_r. reflexivity.
  - destruct (FileCount <? length InFiles)%nat.
    + unfold_M.
      destruct (RunCommandInternal_run E "add" b r ap
                  (FilesInBatch InFiles FileCount) w)
        as [[[r1 br1] be1] ->].
      destruct (RunCommandInternal_run E "commit" b r p
                  (FilesInBatch InFiles FileCount)
                  (set_Trace
                     (Trace w
                      ++ [mkCmdLine "add" b r ap
                            (FilesInBatch InFiles FileCount)]) w))
        as [[[r2 br2] be2] ->].
      rewrite IH. simpl. rewrite <- !app_assoc. reflexivity.
    + unfold_M. simpl. rewrite app_nil_r. reflexivity.
Qed.

(** The passes allowed to the loops are enough: the batches of a whole
    run are the files from the start index on, in order. *)
Lemma loop_batches_cover (InFiles : list string) (fuel : nat) :
  forall FileCount : nat,
    (length InFiles - FileCount <= fuel)%nat ->
    concat (loop_batches fuel InFiles FileCount) = drop FileCount InFiles.
Proof.
  induction fuel as [|fuel IH]; intros FileCount Hfuel; simpl.
  - rewrite drop_ge by lia. reflexivity.
  - destruct (Nat.ltb_spec FileCount (length InFiles)) as [Hlt|Hge].
    + simpl. unfold FilesInBatch at 1.
      assert (Hb : (1 <= length (FilesInBatch InFiles FileCount))%nat).
      { unfold FilesInBatch, GitSourceControlConstants.MaxFilesPerBatch.
        rewrite length_take, length_drop. lia. }
      rewrite IH by lia.
      assert (Hdd : forall n : nat,
                 drop (FileCount + n) InFiles
                 = drop n (drop FileCount InFiles))
        by (intros n; rewrite drop_drop; reflexivity).
      rewrite Hdd. unfold FilesInBatch.
      set (rest := drop FileCount InFiles).
      destruct (Nat.le_gt_cases
                  GitSourceControlConstants.MaxFilesPerBatch (length rest))
        as [Hle|Hgt].
      * rewrite length_take, Nat.min_l by exact Hle. apply take_drop.
      * rewrite (take_ge rest) by lia. rewrite drop_all, app_nil_r.
        reflexivity.
    + rewrite drop_ge by lia. reflexivity.
Qed.

Lemma loop_batches_step (fuel : nat) (InFiles : list string)
  (FileCount : nat) :
  (FileCount < length InFiles)%nat ->
  loop_batches (S fuel) InFiles FileCount
  = FilesInBatch InFiles FileCount
    :: loop_batches fuel InFiles
         (FileCount + length (FilesInBatch InFiles FileCount))%nat.
Proof.
  intros Hlt. simpl.
  destruct (Nat.ltb_spec FileCount (length InFiles)); [reflexivity | lia].
Qed.

Lemma loop_batches_end (fuel : nat) (InFiles : list string)
  (FileCount : nat) :
  (length InFiles <= FileCount)%nat ->
  loop_batches fuel InFiles FileCount = [].
Proof.
  intros Hge. destruct fuel as [|fuel]; simpl; [reflexivity|].
  destruct (Nat.ltb_spec FileCount (length InFiles)); [lia | reflexivity].
Qed.

Lemma loop_batches_120 (InFiles : list string) :
  length InFiles = 120%nat ->
  loop_batches 120 InFiles 50
  = [take 50 (drop 50 InFiles); drop 100 InFiles]
  /\ loop_batches 120 InFiles 0
     = [take 50 InFiles; take 50 (drop 50 InFiles); drop 100 InFiles].
Proof.
  intros Hlen.
  assert (H0 : FilesInBatch InFiles 0 = take 50 InFiles) by reflexivity.
  assert (H50 : FilesInBatch InFiles 50 = take 50 (drop 50 InFiles))
    by reflexivity.
  assert (H100 : FilesInBatch InFiles 100 = drop 100 InFiles).
  { unfold FilesInBatch. apply take_ge. rewrite length_drop.
    unfold GitSourceControlConstants.MaxFilesPerBatch. lia. }
  assert (L0 : length (take 50 InFiles) = 50%nat)
    by (rewrite length_take; lia).
  assert (L50 : length (take 50 (drop 50 InFiles)) = 50%nat)
    by (rewrite length_take, length_drop; lia).
  assert (L100 : length (drop 100 InFiles) = 20%nat)
    by (rewrite length_drop; lia).
  assert (Htail : loop_batches 119 InFiles 50
                  = [take 50 (drop 50 InFiles); drop 100 InFiles]).
  { change 119%nat with (S (S 117)).
    rewrite loop_batches_step by lia. rewrite H50, L50.
    change (50 + 50)%nat with 100%nat.
    rewrite loop_batches_step by lia. rewrite H100, L100.
    rewrite loop_batches_end by lia. reflexivity. }
  split.
  - change 120%nat with (S (S 118)) at 1.
    rewrite loop_batches_step by lia. rewrite H50, L50.
    change (50 + 50)%nat with 100%nat.
    rewrite loop_batches_step by lia. rewrite H100, L100.
    rewrite loop_batches_end by lia. reflexivity.
  - change 120%nat with (S 119) at 1.
    rewrite loop_batches_step by lia. rewrite H0, L0.
    change (0 + 50)%nat with 50%nat. rewrite Htail. reflexivity.
Qed.

(** C6: a list of 120 files goes through the 50-file batching as three
    batches of 50, 50 and 20 files in input order, one launch per batch;
    and the commit by batches launches, after the "add" of each batch,
    one "commit" with the parameters as given for the first batch and
    then two "commit" with "--amend" appended to them for the others. *)
Theorem RunCommit_120_files (E : Env) (InCommand InPathToGitBinary
  InRepositoryRoot : string) (InParameters InFiles OutResults
  OutErrorMessages : list string) (w : World) :
  length InFiles = 120%nat ->
  let B1 := take 50 InFiles in
  let B2 := take 50 (drop 50 InFiles) in
  let B3 := drop 100 InFiles in
  let launch := mkCmdLine InCommand InPathToGitBinary InRepositoryRoot
                  InParameters in
  let add := mkCmdLine "add" InPathToGitBinary InRepositoryRoot ["-A"] in
  let commit := mkCmdLine "commit" InPathToGitBinary InRepositoryRoot
                  InParameters in
  let amend := mkCmdLine "commit" InPathToGitBinary InRepositoryRoot
                 (InParameters ++ ["--amend"]) in
  (length B1 = 50%nat /\ length B2 = 50%nat /\ length B3 = 20%nat
   /\ B1 ++ B2 ++ B3 = InFiles)
  /\ loop_batches (length InFiles) InFiles 0 = [B1; B2; B3]
  /\ Trace (RunCommand E InCommand InPathToGitBinary InRepositoryRoot
              InParameters InFiles OutResults OutErrorMessages w).2
     = Trace w ++ [launch B1; launch B2; launch B3]
  /\ Trace (RunCommit E InPathToGitBinary InRepositoryRoot InParameters
              InFiles OutResults OutErrorMessages w).2
     = Trace w
       ++ [add B1; commit B1; add B2; amend B2; add B3; amend B3].
Proof.
  intros Hlen B1 B2 B3 launch add commit amend.
  destruct (loop_batches_120 InFiles Hlen) as [Htail Hall].
  assert (Hbig : (GitSourceControlConstants.MaxFilesPerBatch
                  <? length InFiles)%nat = true).
  { apply Nat.ltb_lt. unfold GitSourceControlConstants.MaxFilesPerBatch.
    lia. }
  split; [|split; [|split]].
  - subst B1 B2 B3.
    rewrite !length_take, !length_drop, Hlen.
    repeat split; try lia.
    transitivity (take 50 InFiles ++ drop 50 InFiles); [|apply take_drop].
    f_equal.
    replace (drop 100 InFiles) with (drop 50 (drop 50 InFiles))
      by (rewrite drop_drop; reflexivity).
    apply take_drop.
  - rewrite Hlen. exact Hall.
  - unfold RunCommand. rewrite Hbig, RunCommand_loop_trace, Hlen, Hall.
    reflexivity.
  - unfold RunCommit. rewrite Hbig. unfold_M.
    destruct (RunCommandInternal_run E "add" InPathToGitBinary
                InRepositoryRoot ["-A"]
                (take GitSourceControlConstants.MaxFilesPerBatch InFiles) w)
      as [[[r1 res1] errs1] ->].
    destruct (RunCommandInternal_run E "commit" InPathToGitBinary
                InRepositoryRoot InParameters
                (take GitSourceControlConstants.MaxFilesPerBatch InFiles)
                (set_Trace
                   (Trace w
                    ++ [mkCmdLine "add" InPathToGitBinary InRepositoryRoot
                          ["-A"]
                          (take GitSourceControlConstants.MaxFilesPerBatch
                             InFiles)]) w))
      as [[[r2 res2] errs2] ->].
    rewrite RunCommit_loop_trace, Hlen.
    change GitSourceControlConstants.MaxFilesPerBatch with 50%nat.
    rewrite Htail. simpl. rewrite <- !app_assoc. reflexivity.
Qed.

Lemma RunCommit_120_files_witness :
  map Parameters
    (List.filter (fun cl => String.eqb (Command cl) "commit")
       (Trace (RunCommit quiet_env "git" "/repo" ["-m"; "msg"] files_120
                 [] [] empty_world).2))
  = [["-m"; "msg"]; ["-m"; "msg"; "--amend"]; ["-m"; "msg"; "--amend"]].
Proof.
  destruct (RunCommit_120_files quiet_env "status" "git" "/repo"
              ["-m"; "msg"] files_120 [] [] empty_world)
    as (_ & _ & _ & Hcommit); [reflexivity|].
  rewrite Hcommit. reflexivity.
Defined.

(** ** Lock cache refresh *)

Lemma RunLFSCommand_no_file (E : Env) (c root fallback : string)
  (p res errs : list string) :
  RunLFSCommand E c root fallback p [] res errs
  = RunCommandInternal E c (LFSLockBinary E) root p [].
Proof. reflexivity. Qed.

Lemma RunCommandInternal_result (E : Env) (c b r : string)
  (p f : list string) (w : World) :
  exists Results Errors : list string,
    RunCommandInternal E c b r p f w
    = (((ReturnCode (ExecProcess E (Trace w) (mkCmdLine c b r p f)) =? 0)%Z,
        Results, Errors),
       set_Trace (Trace w ++ [mkCmdLine c b r p f]) w).
Proof.
  unfold RunCommandInternal, RunCommandInternalRaw. unfold_M.
  destruct (_ && _); simpl; eauto.
Qed.

Ltac step_cmd :=
  match goal with
  | |- context [RunCommandInternal ?E ?c ?b ?r ?p ?f ?w] =>
      let R := fresh "R" in
      let Er := fresh "Er" in
      destruct (RunCommandInternal_result E c b r p f w) as (R & Er & ->)
  end.

Section LockCacheRefresh.

Context (E : Env) (root fallback : string).
Context (errs : list string) (locks : gmap string string).

Lemma GetAllLocks_fresh (w : World) :
  (Now E - LastUpdated w <= CacheLimit)%Z ->
  GetAllLocks E root fallback errs locks false w
  = ((true, errs, LockedFiles w), w).
Proof.
  intros Hfresh. unfold GetAllLocks. unfold_M.
  replace (CacheLimit <? Now E - LastUpdated w)%Z with false
    by (symmetry; apply Z.ltb_ge; exact Hfresh).
  reflexivity.
Qed.

Lemma GetAllLocks_refreshed (Results Errors : list string)
  (bInvalidateCache : bool) (w w1 : World) :
  cache_expired E w bInvalidateCache = true ->
  RunCommandInternal E "locks" (LFSLockBinary E) root [] [] w
  = ((true, Results, Errors), w1) ->
  let fresh := add_locks E root (fun _ => true) Results locks in
  GetAllLocks E root fallback errs locks bInvalidateCache w
  = ((true, Errors, fresh),
     (SetLockedFiles E fresh (set_LastUpdated (Now E) w1)).2).
Proof.
  intros Hexp Hrun fresh. unfold GetAllLocks. unfold_M.
  unfold cache_expired in Hexp. rewrite Hexp.
  rewrite RunLFSCommand_no_file, Hrun. reflexivity.
Qed.

Lemma GetAllLocks_last_resort (bInvalidateCache : bool) (w : World) :
  let q0 := locks_query E root [] in
  let q1 := locks_query E root ["--cached"] in
  let q2 := locks_query E root ["--local"] in
  cache_expired E w bInvalidateCache = true ->
  (ReturnCode (ExecProcess E (Trace w) q0) =? 0)%Z = false ->
  ModuleAvailable E = false
  \/ (ReturnCode (ExecProcess E (Trace w ++ [q0]) q1) =? 0)%Z = false
  \/ (ReturnCode (ExecProcess E (Trace w ++ [q0; q1]) q2) =? 0)%Z = false ->
  exists (OutErrorMessages : list string) (launched : list CmdLine),
    GetAllLocks E root fallback errs locks bInvalidateCache w
    = ((true, OutErrorMessages, LockedFiles w),
       set_Trace (Trace w ++ launched) w).
Proof.
  intros q0 q1 q2 Hexp Hq0 Hfall. subst q0 q1 q2. unfold locks_query in *.
  unfold GetAllLocks. unfold_M.
  unfold cache_expired in Hexp. rewrite Hexp.
  rewrite RunLFSCommand_no_file. step_cmd.
  rewrite Hq0.
  destruct (ModuleAvailable E) eqn:Hmod; simpl.
  2:{ exists Er, [mkCmdLine "locks" (LFSLockBinary E) root [] []].
      reflexivity. }
  rewrite !RunLFSCommand_no_file. step_cmd. cbn [Trace set_Trace].
  rewrite !RunLFSCommand_no_file. step_cmd. cbn [Trace set_Trace].
  rewrite <- !app_assoc. simpl.
  eexists _, _.
  destruct Hfall as [Hm | [H1 | H2]]; [discriminate| |].
  - rewrite H1. simpl. unfold set_Trace. simpl. reflexivity.
  - rewrite H2, andb_false_r. unfold set_Trace. simpl. reflexivity.
Qed.

Lemma GetAllLocks_true (bInvalidateCache : bool) (w : World) :
  (GetAllLocks E root fallback errs locks bInvalidateCache w).1.1.1 = true.
Proof.
  unfold GetAllLocks. unfold_M.
  destruct (if bInvalidateCache then true else _); [|reflexivity].
  rewrite RunLFSCommand_no_file.
  destruct (RunCommandInternal E "locks" (LFSLockBinary E) root [] [] w)
    as [[[r0 R0] E0] w0].
  destruct r0; [reflexivity|].
  destruct (negb (ModuleAvailable E)); [reflexivity|].
  rewrite !RunLFSCommand_no_file.
  destruct (RunCommandInternal E "locks" (LFSLockBinary E) root ["--cached"]
              [] w0) as [[[r1 R1] E1] w1].
  rewrite !RunLFSCommand_no_file.
  destruct (RunCommandInternal E "locks" (LFSLockBinary E) root ["--local"]
              [] w1) as [[[r2 R2] E2] w2].
  destruct (r1 && r2); reflexivity.
Qed.

Lemma GetAllLocks_expired_trace (bInvalidateCache : bool) (w : World) :
  cache_expired E w bInvalidateCache = true ->
  exists more : list CmdLine,
    Trace (GetAllLocks E root fallback errs locks bInvalidateCache w).2
    = Trace w ++ locks_query E root [] :: more.
Proof.
  intros Hexp. unfold locks_query, GetAllLocks. unfold_M.
  unfold cache_expired in Hexp. rewrite Hexp.
  rewrite RunLFSCommand_no_file. step_cmd.
  destruct (ReturnCode _ =? 0)%Z.
  { exists []. reflexivity. }
  destruct (negb (ModuleAvailable E)).
  { exists []. reflexivity. }
  rewrite !RunLFSCommand_no_file. step_cmd.
  rewrite !RunLFSCommand_no_file. step_cmd.
  cbn [Trace set_Trace]. rewrite <- !app_assoc. simpl.
  eexists. destruct (_ && _); cbn [snd Trace set_Trace]; reflexivity.
Qed.

End LockCacheRefresh.

Lemma add_locks_app (E : Env) (root : string)
  (keep : LocksParser.t -> bool) (pre post : list string)
  (OutLocks : gmap string string) :
  add_locks E root keep (pre ++ post) OutLocks
  = add_locks E root keep post (add_locks E root keep pre OutLocks).
Proof. unfold add_locks. apply foldl_app. Qed.

Lemma add_locks_miss (E : Env) (root : string) (Results : list string) :
  forall (OutLocks : gmap string string) (File : string),
    (forall Line, Line ∈ Results ->
       LocksParser.LocalFilename (FGitLfsLocksParser E root Line true)
       <> File) ->
    add_locks E root (fun _ => true) Results OutLocks !! File
    = OutLocks !! File.
Proof.
  unfold add_locks.
  induction Results as [|Result Results IH]; intros OutLocks File Hmiss;
    cbn [foldl]; [reflexivity|].
  rewrite IH by (intros Line HLine; apply Hmiss; right; exact HLine).
  apply lookup_insert_ne, Hmiss. left.
Qed.

Lemma add_locks_last (E : Env) (root : string) (pre post : list string)
  (Line : string) (OutLocks : gmap string string) :
  (forall Later, Later ∈ post ->
     LocksParser.LocalFilename (FGitLfsLocksParser E root Later true)
     <> LocksParser.LocalFilename (FGitLfsLocksParser E root Line true)) ->
  add_locks E root (fun _ => true) (pre ++ Line :: post) OutLocks
  !! LocksParser.LocalFilename (FGitLfsLocksParser E root Line true)
  = Some (LocksParser.LockUser (FGitLfsLocksParser E root Line true)).
Proof.
  intros Hlast.
  rewrite add_locks_app.
  change (Line :: post) with ([Line] ++ post). rewrite add_locks_app.
  rewrite add_locks_miss by exact Hlast.
  unfold add_locks. cbn [foldl]. apply lookup_insert_eq.
Qed.

Lemma add_locks_reach (E : Env) (root : string) (Results : list string) :
  forall (OutLocks : gmap string string) (Line : string),
    Line ∈ Results ->
    exists Last,
      Last ∈ Results
      /\ LocksParser.LocalFilename (FGitLfsLocksParser E root Last true)
         = LocksParser.LocalFilename (FGitLfsLocksParser E root Line true)
      /\ add_locks E root (fun _ => true) Results OutLocks
         !! LocksParser.LocalFilename (FGitLfsLocksParser E root Line true)
         = Some (LocksParser.LockUser (FGitLfsLocksParser E root Last true)).
Proof.
  induction Results as [|Result Results IH]; intros OutLocks Line HLine.
  - apply elem_of_nil in HLine. contradiction.
  - set (path := fun L =>
                   LocksParser.LocalFilename
                     (FGitLfsLocksParser E root L true)).
    assert (Hstep : forall L,
               L ∈ Results ->
               exists Last,
                 Last ∈ Result :: Results
                 /\ path Last = path L
                 /\ add_locks E root (fun _ => true) (Result :: Results)
                      OutLocks !! path L
                    = Some (LocksParser.LockUser
                              (FGitLfsLocksParser E root Last true))).
    { intros L HL.
      destruct (IH (<[path Result :=
                       LocksParser.LockUser
                         (FGitLfsLocksParser E root Result true)]> OutLocks)
                  L HL) as (Last & HLast & Hpath & Hlook).
      exists Last. split; [right; exact HLast|]. split; [exact Hpath|].
      exact Hlook. }
    apply elem_of_cons in HLine as [->|HLine]; [|apply Hstep, HLine].
    destruct (decide (path Result ∈ path <$> Results)) as [Hin|Hnot].
    + apply list_elem_of_fmap in Hin as (L & HpathL & HL).
      destruct (Hstep L HL) as (Last & HLast & Hpath & Hlook).
      exists Last. fold (path Result). rewrite HpathL.
      split; [exact HLast|]. split; [exact Hpath | exact Hlook].
    + exists Result. split; [left|]. split; [reflexivity|].
      apply (add_locks_last E root [] Results Result OutLocks).
      intros Later HLater Heq. apply Hnot.
      apply list_elem_of_fmap. exists Later. split; [|exact HLater].
      symmetry. exact Heq.
Qed.

(** C3: a refresh of the lock list that is not forced and comes less than
    30 seconds after the last stamped refresh returns the cached map,
    launches nothing and changes nothing.  One that comes more than 30
    seconds after it launches the remote lock-list query first, and when
    that query succeeds the cache becomes the map it returns (the locks of
    the answer added to the map the caller passed in, whatever the old
    cache held) and the refresh time becomes the current time.  So a second refresh less than
    30 seconds after a successful first one returns what the first one
    cached and launches no query.  In the new cache every path that a
    line of the answer locks is locked, by the user of the last line of
    the answer for that path, and a path that no line of the answer locks
    has what the caller's map had for it: nothing, when the caller passes
    an empty map, whatever the old cache held. *)
Theorem GetAllLocks_cache_window (E : Env) (root fallback : string)
  (errs : list string) (locks : gmap string string) (w : World) :
  let elapsed := (Now E - LastUpdated w)%Z in
  let run := GetAllLocks E root fallback errs locks false w in
  (elapsed < 30 * TicksPerSecond ->
   run = ((true, errs, LockedFiles w), w))%Z
  /\ ((30 * TicksPerSecond < elapsed)%Z ->
      exists (bResult : bool) (Results Errors : list string),
        RunCommandInternal E "locks" (LFSLockBinary E) root [] [] w
        = ((bResult, Results, Errors),
           set_Trace (Trace w ++ [locks_query E root []]) w)
        /\ (exists more : list CmdLine,
               Trace run.2 = Trace w ++ locks_query E root [] :: more)
        /\ (bResult = true ->
            let fresh := add_locks E root (fun _ => true) Results locks in
            run.1 = (true, Errors, fresh)
            /\ LockedFiles run.2 = fresh
            /\ LastUpdated run.2 = Now E
            /\ Trace run.2 = Trace w ++ [locks_query E root []]
            /\ (forall (E2 : Env) (root2 fallback2 : string)
                       (errs2 : list string) (locks2 : gmap string string),
                  (Now E2 - Now E < 30 * TicksPerSecond)%Z ->
                  GetAllLocks E2 root2 fallback2 errs2 locks2 false run.2
                  = ((true, errs2, fresh), run.2))
            /\ (forall File : string,
                  (forall Line, Line ∈ Results ->
                     LocksParser.LocalFilename
                       (FGitLfsLocksParser E root Line true) <> File) ->
                  LockedFiles run.2 !! File = locks !! File)
            /\ (forall (pre post : list string) (Line : string),
                  Results = pre ++ Line :: post ->
                  (forall Later, Later ∈ post ->
                     LocksParser.LocalFilename
                       (FGitLfsLocksParser E root Later true)
                     <> LocksParser.LocalFilename
                          (FGitLfsLocksParser E root Line true)) ->
                  LockedFiles run.2
                  !! LocksParser.LocalFilename
                       (FGitLfsLocksParser E root Line true)
                  = Some (LocksParser.LockUser
                            (FGitLfsLocksParser E root Line true)))
            /\ (forall Line : string,
                  Line ∈ Results ->
                  exists Last,
                    Last ∈ Results
                    /\ LocksParser.LocalFilename
                         (FGitLfsLocksParser E root Last true)
                       = LocksParser.LocalFilename
                           (FGitLfsLocksParser E root Line true)
                    /\ LockedFiles run.2
                       !! LocksParser.LocalFilename
                            (FGitLfsLocksParser E root Line true)
                       = Some (LocksParser.LockUser
                                 (FGitLfsLocksParser E root Last true))))).
Proof.
  intros elapsed run. subst elapsed run. split.
  - intros Hfresh. apply GetAllLocks_fresh. unfold CacheLimit. lia.
  - intros Hold.
    assert (Hexp : cache_expired E w false = true).
    { unfold cache_expired, CacheLimit. apply Z.ltb_lt. exact Hold. }
    destruct (RunCommandInternal_result E "locks" (LFSLockBinary E) root []
                [] w) as (Results & Errors & Hrun).
    eexists _, Results, Errors. split; [exact Hrun|].
    split; [apply GetAllLocks_expired_trace; exact Hexp|].
    intros Hok. rewrite Hok in Hrun.
    rewrite (GetAllLocks_refreshed E root fallback errs locks Results Errors
               false w _ Hexp Hrun).
    cbn [fst snd].
    unfold SetLockedFiles.
    cbn [snd LockedFiles LastUpdated Trace set_LockedFiles set_ReadOnlyLog
           set_LastUpdated set_Trace].
    do 4 (split; [reflexivity|]).
    split; [|split; [|split]].
    + intros E2 root2 fallback2 errs2 locks2 Hsoon.
      apply GetAllLocks_fresh.
      cbn [LastUpdated set_LockedFiles set_ReadOnlyLog set_LastUpdated].
      unfold CacheLimit. lia.
    + intros File Hmiss. apply add_locks_miss, Hmiss.
    + intros pre post Line -> Hlast. apply add_locks_last, Hlast.
    + intros Line HLine. apply add_locks_reach, HLine.
Qed.

Lemma GetAllLocks_cache_window_witness :
  GetAllLocks (lock_list_env (10 * TicksPerSecond) 0) "/repo/" "git" [] ∅
    false cached_world
  = ((true, [], {[ "/repo/Content/b.uasset" := "alice" ]}), cached_world)
  /\ (exists more : list CmdLine,
        Trace (GetAllLocks (lock_list_env (31 * TicksPerSecond) 0) "/repo/"
                 "git" [] ∅ false cached_world).2
        = locks_query (lock_list_env (31 * TicksPerSecond) 0) "/repo/" []
          :: more)
  /\ (let refreshed :=
        (GetAllLocks (lock_list_env (31 * TicksPerSecond) 0) "/repo/" "git"
           [] ∅ false cached_world).2 in
      LockedFiles refreshed !! "/repo/Content/a.uasset" = Some "bob"
      /\ LockedFiles refreshed !! "/repo/Content/b.uasset" = None
      /\ LastUpdated refreshed = (31 * TicksPerSecond)%Z).
Proof.
  split.
  - apply (GetAllLocks_cache_window (lock_list_env (10 * TicksPerSecond) 0)
             "/repo/" "git" [] ∅ cached_world).
    vm_compute. reflexivity.
  - destruct (GetAllLocks_cache_window
                (lock_list_env (31 * TicksPerSecond) 0) "/repo/" "git" [] ∅
                cached_world) as [_ Hold].
    destruct Hold as (bResult & Results & Errors & Hrun & Hmore & Hok).
    + vm_compute. reflexivity.
    + split; [exact Hmore|].
      assert (Hval : bResult = true
                     /\ Results
                        = ["Content/a.uasset" +:+ String FString.tab
                             ("bob" +:+ String FString.tab "ID:1")]).
      { vm_compute in Hrun. injection Hrun as <- <- _. split; reflexivity. }
      destruct Hval as [-> ->].
      pose proof (Hok eq_refl) as Hfresh. cbv zeta in Hfresh.
      destruct Hfresh as (_ & _ & Hstamp & _ & _ & Hmiss & Hlast & _).
      cbv zeta. split; [|split].
      * apply (Hlast [] []
                 ("Content/a.uasset" +:+ String FString.tab
                    ("bob" +:+ String FString.tab "ID:1")) eq_refl).
        intros Later HLater. apply elem_of_nil in HLater. contradiction.
      * rewrite (Hmiss "/repo/Content/b.uasset"); [reflexivity|].
        intros Line HLine. apply list_elem_of_singleton in HLine as ->.
        vm_compute. discriminate.
      * exact Hstamp.
Defined.

(** C4: a refresh of the lock list always reports success; and when the
    remote query fails and the fallback does not succeed either (the
    cached-remote or the local query fails, or the module is gone), what
    it returns is the lock cache as it was, which it leaves untouched. *)
Theorem GetAllLocks_never_fails (E : Env) (root fallback : string)
  (errs : list string) (locks : gmap string string)
  (bInvalidateCache : bool) (w : World) :
  let run := GetAllLocks E root fallback errs locks bInvalidateCache w in
  let q0 := locks_query E root [] in
  let q1 := locks_query E root ["--cached"] in
  let q2 := locks_query E root ["--local"] in
  run.1.1.1 = true
  /\ (cache_expired E w bInvalidateCache = true ->
      ReturnCode (ExecProcess E (Trace w) q0) <> 0%Z ->
      ModuleAvailable E = false
      \/ ReturnCode (ExecProcess E (Trace w ++ [q0]) q1) <> 0%Z
      \/ ReturnCode (ExecProcess E (Trace w ++ [q0; q1]) q2) <> 0%Z ->
      run.1.2 = LockedFiles w
      /\ LockedFiles run.2 = LockedFiles w
      /\ LastUpdated run.2 = LastUpdated w).
Proof.
  intros run q0 q1 q2. subst run. split; [apply GetAllLocks_true|].
  intros Hexp H0 Hfall.
  destruct (GetAllLocks_last_resort E root fallback errs locks
              bInvalidateCache w Hexp) as (Errors & launched & ->).
  - apply Z.eqb_neq. exact H0.
  - destruct Hfall as [Hm | [H1 | H2]]; [left; exact Hm | |].
    + right; left. apply Z.eqb_neq. exact H1.
    + right; right. apply Z.eqb_neq. exact H2.
  - repeat split.
Qed.

Lemma GetAllLocks_never_fails_witness :
  let run :=
    GetAllLocks (lock_list_env (31 * TicksPerSecond) 128) "/repo/" "git" []
      ∅ false cached_world in
  run.1.1.1 = true /\ run.1.2 = LockedFiles cached_world.
Proof.
  intros run.
  destruct (GetAllLocks_never_fails (lock_list_env (31 * TicksPerSecond) 128)
              "/repo/" "git" [] ∅ false cached_world) as [Htrue Hlast].
  destruct Hlast as (Hmap & _ & _).
  - vm_compute. reflexivity.
  - vm_compute. discriminate.
  - right; left. vm_compute. discriminate.
  - split; [exact Htrue | exact Hmap].
Defined.

(** ** Merge guard of the state cache *)

Section MergeGuard.

Context (E : Env) (TimeNow : Z).
Context (Path : string) (Existing : FGitSourceControlState).

Lemma UpdateCachedStates_step_other (Pair : string * FGitState) (w : World) :
  Pair.1 <> Path ->
  StateCache w !! Path = Some Existing ->
  StateCache (UpdateCachedStates_step E TimeNow Pair w).2 !! Path
  = Some Existing.
Proof.
  intros Hne Hw. unfold UpdateCachedStates_step, GetStateInternal,
    write_state, AddFileToIgnoreForceCache. unfold_M.
  destruct (StateCache w !! Pair.1) as [s|] eqn:Hs.
  - destruct (merge_state E Pair.2 TimeNow s); simpl; [|exact Hw].
    rewrite lookup_insert_ne by exact Hne. exact Hw.
  - destruct (merge_state E Pair.2 TimeNow (NewSourceControlState E Pair.1));
      simpl; rewrite !lookup_insert_ne by exact Hne; exact Hw.
Qed.

Lemma UpdateCachedStates_step_rejected (Pair : string * FGitState)
  (w : World) :
  StateCache w !! Pair.1 = Some Existing ->
  merge_state E Pair.2 TimeNow Existing = None ->
  UpdateCachedStates_step E TimeNow Pair w = (tt, w).
Proof.
  intros Hw Hm. unfold UpdateCachedStates_step, GetStateInternal. unfold_M.
  rewrite Hw, Hm. reflexivity.
Qed.

Lemma for_each_guard (l : list (string * FGitState)) :
  (forall Pair, Pair ∈ l -> Pair.1 = Path ->
                merge_state E Pair.2 TimeNow Existing = None) ->
  forall w : World,
    StateCache w !! Path = Some Existing ->
    StateCache (for_each (UpdateCachedStates_step E TimeNow) l w).2 !! Path
    = Some Existing.
Proof.
  induction l as [|Pair l IH]; intros Hl w Hw; simpl.
  - exact Hw.
  - unfold_M.
    destruct (UpdateCachedStates_step E TimeNow Pair w) as [[] w1] eqn:Hstep.
    apply IH.
    + intros P HP. apply Hl. right. exact HP.
    + destruct (decide (Pair.1 = Path)) as [Heq|Hne].
      * rewrite UpdateCachedStates_step_rejected in Hstep.
        -- injection Hstep as <-. exact Hw.
        -- rewrite Heq. exact Hw.
        -- apply Hl; [left | exact Heq].
      * pose proof (UpdateCachedStates_step_other Pair w Hne Hw) as Hother.
        rewrite Hstep in Hother. exact Hother.
Qed.

End MergeGuard.

(** C1: when a merge into the state cache holds, for a path, a fragment
    that proposes FileState=Added while the cached entry of that path is
    neither unknown nor eligible to be added, the merge leaves that entry
    as it was, its FileState included; so an entry cached as Modified that
    is neither of the two stays Modified. *)
Theorem UpdateCachedStates_added_guard (E : Env)
  (InResults : gmap string FGitState) (w : World) (Path : string)
  (NewState : FGitState) (Existing : FGitSourceControlState) :
  InResults !! Path = Some NewState ->
  FileState NewState = EFileState.Added ->
  StateCache w !! Path = Some Existing ->
  StateIsUnknown E Existing = false ->
  StateCanAdd E Existing = false ->
  let w' := (UpdateCachedStates E InResults w).2 in
  StateCache w' !! Path = Some Existing
  /\ (FileState (State Existing) = EFileState.Modified ->
      exists s : FGitSourceControlState,
        StateCache w' !! Path = Some s
        /\ FileState (State s) = EFileState.Modified).
Proof.
  intros Hin Hadded Hw Hunk Hadd w'.
  assert (Hkeep : StateCache w' !! Path = Some Existing).
  { subst w'. unfold UpdateCachedStates.
    destruct (bool_decide (size InResults = 0%nat)); [exact Hw|].
    destruct (negb (ModuleAvailable E)); [exact Hw|].
    unfold_M.
    set (TimeNow := if UsesCheckout E then Now E else 0%Z).
    destruct (for_each (UpdateCachedStates_step E TimeNow)
                (map_to_list InResults) w) as [[] w1] eqn:Hrun.
    cbn [snd].
    change w1 with ((tt, w1).2). rewrite <- Hrun.
    apply for_each_guard; [|exact Hw].
    intros [k ns] Hk Heq. simpl in Heq. subst k.
    apply elem_of_map_to_list in Hk.
    assert (Hns : ns = NewState) by congruence. subst ns. cbn [snd].
    unfold merge_state. rewrite Hadded, Hunk, Hadd. reflexivity. }
  split; [exact Hkeep|].
  intros Hmod. exists Existing. split; [exact Hkeep | exact Hmod].
Qed.

Lemma UpdateCachedStates_added_guard_witness :
  StateCache
    (UpdateCachedStates quiet_env
       {[ "/repo/Content/a.uasset" := added_fragment ]} modified_world).2
  !! "/repo/Content/a.uasset"
  = Some modified_entry.
Proof.
  apply (UpdateCachedStates_added_guard quiet_env
           {[ "/repo/Content/a.uasset" := added_fragment ]} modified_world
           "/repo/Content/a.uasset" added_fragment modified_entry);
    reflexivity.
Defined.

(** ** Files without a status line *)

Section FileStatus.

Context (E : Env) (bin root : string) (lfs : bool).

Lemma FileStatus_of_absent (File : string) (Results : gmap string string)
  (s : FGitSourceControlState) (w : World) :
  Results !! File = None ->
  FileStatus_of E bin root File Results s w
  = (Some
       (set_State
          (set_TreeState
             (if FileExists E File then ETreeState.Unmodified
              else ETreeState.NotInRepo))
          (set_State (set_FileState EFileState.Unknown) s)), w).
Proof.
  intros Habs. unfold FileStatus_of. rewrite Habs.
  destruct (FileExists E File); reflexivity.
Qed.

Lemma FileStatus_of_defined (File : string) (Results : gmap string string)
  (s : FGitSourceControlState) (w : World) :
  readable Results ->
  exists (s' : FGitSourceControlState) (w' : World),
    FileStatus_of E bin root File Results s w = (Some s', w').
Proof.
  intros Hread. unfold FileStatus_of.
  destruct (Results !! File) as [Line|] eqn:HLine.
  - destruct (proj2 (FGitStatusParser_defined Line) (Hread _ _ HLine))
      as [p ->].
    destruct (IsConflicted _); [|unfold_M; eauto].
    unfold RunGetConflictStatus. unfold_M.
    destruct (RunCommandInternal E "ls-files" bin root ["--unmerged"] [File]
                w) as [[[r Rs] Es] w1].
    destruct Rs as [|R0 [|R1 [|R2 [|R3 Rs]]]]; try destruct r; eauto.
  - destruct (FileExists E File); unfold_M; eauto.
Qed.

Lemma LockStatus_of_keeps (File : string)
  (Locked Locked' : gmap string string) (bChecked bChecked' : bool)
  (s s' : FGitSourceControlState) (w w' : World) :
  LockStatus_of E bin root File lfs Locked bChecked s w
  = ((s', Locked', bChecked'), w') ->
  FileState (State s') = FileState (State s)
  /\ TreeState (State s') = TreeState (State s).
Proof.
  unfold LockStatus_of. unfold_M.
  destruct (negb lfs); [intros [= <- <- <- <-]; split; reflexivity|].
  destruct (IsFileLFSLockable E File);
    [|intros [= <- <- <- <-]; split; reflexivity].
  destruct (negb bChecked).
  - destruct (GetAllLocks E root bin [] Locked false w)
      as [[[r Errs] Locks] w1].
    destruct (Locks !! File) as [User|];
      [destruct (FString.Equals (ProviderLockUser E) User)|];
      intros [= <- <- <- <-]; split; reflexivity.
  - destruct (Locked !! File) as [User|];
      [destruct (FString.Equals (ProviderLockUser E) User)|];
      intros [= <- <- <- <-]; split; reflexivity.
Qed.

#[local] Arguments FileStatus_of : simpl never.
#[local] Arguments LockStatus_of : simpl never.

Lemma ParseFileStatus_step_run (F File : string) (L L' : FileStatusLoop)
  (w w' : World) :
  ParseFileStatus_step E bin root lfs F L w = (Some L', w') ->
  (loop_Results L !! File = None -> loop_Results L' !! File = None)
  /\ (F = File -> loop_Results L !! File = None ->
      exists s, loop_OutStates L' !! File = Some s /\ absent_state E File s)
  /\ (F <> File -> loop_OutStates L' !! File = loop_OutStates L !! File)
  /\ (readable (loop_Results L) -> readable (loop_Results L')).
Proof.
  unfold ParseFileStatus_step. unfold_M.
  set (s0 := set_State (set_LockState ELockState.Unset)
               (set_State (set_TreeState ETreeState.Unset)
                  (set_State (set_FileState EFileState.Unset)
                     (NewSourceControlState E F)))).
  destruct (FileStatus_of E bin root F (loop_Results L) s0 w)
    as [[s1|] w1] eqn:Hfs; [|discriminate].
  destruct (LockStatus_of E bin root F lfs (loop_LockedFiles L)
              (loop_bCheckedLockedFiles L) s1 w1)
    as [[[s2 Locked2] bChecked2] w2] eqn:Hlk.
  intros [= <- <-]. cbn [loop_Results loop_OutStates].
  split; [|split; [|split]].
  - intros Habs. destruct (decide (F = File)) as [->|Hne].
    + apply lookup_delete_eq.
    + rewrite lookup_delete_ne by exact Hne. exact Habs.
  - intros -> Habs. rewrite lookup_insert_eq. eexists. split; [reflexivity|].
    rewrite FileStatus_of_absent in Hfs by exact Habs.
    injection Hfs as <- <-.
    destruct (LockStatus_of_keeps _ _ _ _ _ _ _ _ _ Hlk) as [HF HT].
    unfold absent_state. rewrite HF, HT. split; reflexivity.
  - intros Hne. apply lookup_insert_ne. exact Hne.
  - intros Hread Key Line HKey.
    destruct (decide (F = Key)) as [->|Hne].
    + rewrite lookup_delete_eq in HKey. discriminate.
    + rewrite lookup_delete_ne in HKey by exact Hne. eapply Hread, HKey.
Qed.

Lemma ParseFileStatus_step_defined (F : string) (L : FileStatusLoop)
  (w : World) :
  readable (loop_Results L) ->
  exists (L' : FileStatusLoop) (w' : World),
    ParseFileStatus_step E bin root lfs F L w = (Some L', w').
Proof.
  intros Hread. unfold ParseFileStatus_step. unfold_M.
  match goal with
  | |- context [FileStatus_of E bin root F (loop_Results L) ?s0 w] =>
      destruct (FileStatus_of_defined F (loop_Results L) s0 w Hread)
        as (s1 & w1 & ->)
  end.
  destruct (LockStatus_of E bin root F lfs (loop_LockedFiles L)
              (loop_bCheckedLockedFiles L) s1 w1)
    as [[[s2 Locked2] bChecked2] w2].
  eauto.
Qed.

#[local] Arguments ParseFileStatus_step : simpl never.

Lemma ParseFileStatus_loop_defined (InFiles : list string) :
  forall (L : FileStatusLoop) (w : World),
    readable (loop_Results L) ->
    exists (L' : FileStatusLoop) (w' : World),
      ParseFileStatus_loop E bin root lfs InFiles L w = (Some L', w')
      /\ readable (loop_Results L').
Proof.
  induction InFiles as [|F InFiles IH]; intros L w Hread; simpl.
  - unfold_M. eauto.
  - unfold_M.
    destruct (ParseFileStatus_step_defined F L w Hread)
      as (L1 & w1 & Hstep).
    rewrite Hstep.
    apply IH.
    destruct (ParseFileStatus_step_run F F L L1 w w1 Hstep)
      as (_ & _ & _ & Hr). apply Hr, Hread.
Qed.

Lemma ParseFileStatus_loop_absent (File : string) (InFiles : list string) :
  forall (L L' : FileStatusLoop) (w w' : World),
    ParseFileStatus_loop E bin root lfs InFiles L w = (Some L', w') ->
    loop_Results L !! File = None ->
    File ∈ InFiles
    \/ (exists s, loop_OutStates L !! File = Some s /\ absent_state E File s) ->
    loop_Results L' !! File = None
    /\ exists s, loop_OutStates L' !! File = Some s /\ absent_state E File s.
Proof.
  induction InFiles as [|F InFiles IH]; intros L L' w w'; simpl.
  - unfold_M. intros [= <- <-] Habs [Hin | Hs].
    + apply elem_of_nil in Hin. contradiction.
    + split; assumption.
  - unfold_M.
    destruct (ParseFileStatus_step E bin root lfs F L w) as [[L1|] w1]
      eqn:Hstep; [|discriminate].
    intros Hloop Habs Hcase.
    destruct (ParseFileStatus_step_run F File L L1 w w1 Hstep)
      as (Hres & Hhit & Hmiss & _).
    apply (IH _ _ _ _ Hloop); [apply Hres, Habs|].
    destruct (decide (F = File)) as [Heq|Hne].
    + right. apply Hhit; assumption.
    + destruct Hcase as [Hin | Hs].
      * left. apply elem_of_cons in Hin. destruct Hin as [->|Hin];
          [contradiction | exact Hin].
      * right. rewrite Hmiss by exact Hne. exact Hs.
Qed.

Lemma ParseDirectoryStatus_fold (l : list (string * string)) :
  (forall Result, Result ∈ l -> (2 <= String.length Result.2)%nat) ->
  forall OutStates : gmap string FGitSourceControlState,
    exists States : gmap string FGitSourceControlState,
      foldl
        (fun acc Result =>
           match acc with
           | Some States => ParseDirectoryStatus_step E lfs States Result
           | None => None
           end)
        (Some OutStates) l
      = Some States
      /\ forall File : string,
           (forall Result, Result ∈ l -> Result.1 <> File) ->
           States !! File = OutStates !! File.
Proof.
  induction l as [|Result l IH]; intros Hl OutStates; simpl; [eauto|].
  assert (Hlen : (2 <= String.length Result.2)%nat) by (apply Hl; left).
  assert (Hstep : exists States1,
             ParseDirectoryStatus_step E lfs OutStates Result = Some States1
             /\ forall File, Result.1 <> File ->
                             States1 !! File = OutStates !! File).
  { unfold ParseDirectoryStatus_step.
    destruct (proj2 (FGitStatusParser_defined Result.2) Hlen) as [p ->].
    destruct (_ || _); eexists; (split; [reflexivity|]); intros File Hne;
      [apply lookup_insert_ne; exact Hne | reflexivity]. }
  destruct Hstep as (States1 & -> & H1).
  destruct (IH (fun R HR => Hl R (list_elem_of_further _ _ _ HR)) States1)
    as (States & -> & H2).
  exists States. split; [reflexivity|].
  intros File Hne. rewrite H2, H1; [reflexivity | apply Hne; left |].
  intros R HR. apply Hne. right. exact HR.
Qed.

End FileStatus.

(** C7: with the module available and status lines the parser can read,
    the aggregation of a file list has a result, and in it every listed
    file that has no status line is FileState=Unknown with
    TreeState=Unmodified when the file exists on disk and
    TreeState=NotInRepo when it does not. *)
Theorem ParseFileStatusResult_absent_path (E : Env) (InPathToGitBinary
  InRepositoryRoot : string) (InUsingLfsLocking : bool)
  (InFiles : list string) (InResults : gmap string string)
  (OutStates : gmap string FGitSourceControlState) (w : World) :
  ModuleAvailable E = true ->
  readable InResults ->
  exists (States : gmap string FGitSourceControlState) (w' : World),
    ParseFileStatusResult E InPathToGitBinary InRepositoryRoot
      InUsingLfsLocking InFiles InResults OutStates w
    = (Some States, w')
    /\ forall File : string,
         File ∈ InFiles -> InResults !! File = None ->
         exists s : FGitSourceControlState,
           States !! File = Some s
           /\ FileState (State s) = EFileState.Unknown
           /\ TreeState (State s)
              = (if FileExists E File then ETreeState.Unmodified
                 else ETreeState.NotInRepo).
Proof.
  intros Hmod Hread. unfold ParseFileStatusResult. rewrite Hmod. simpl.
  unfold_M.
  destruct (ParseFileStatus_loop_defined E InPathToGitBinary InRepositoryRoot
              InUsingLfsLocking InFiles
              (mkFileStatusLoop InResults ∅ false OutStates) w Hread)
    as (L & w1 & Hloop & HreadL).
  rewrite Hloop.
  assert (Hall : forall Result,
             Result ∈ map_to_list (loop_Results L) ->
             (2 <= String.length Result.2)%nat).
  { intros [k v] Hk. apply elem_of_map_to_list in Hk. exact (HreadL k v Hk). }
  destruct (ParseDirectoryStatus_fold E InUsingLfsLocking _ Hall
              (loop_OutStates L)) as (States & HStates & Hsame).
  unfold ParseDirectoryStatusResult. rewrite HStates.
  exists States, w1. split; [reflexivity|].
  intros File Hin Habs.
  destruct (ParseFileStatus_loop_absent E InPathToGitBinary InRepositoryRoot
              InUsingLfsLocking File InFiles _ _ _ _ Hloop Habs (or_introl Hin))
    as (HabsL & s & Hs & HF & HT).
  exists s. rewrite Hsame; [auto|].
  intros [k v] Hk. apply elem_of_map_to_list in Hk. simpl. intros ->.
  congruence.
Qed.

Lemma ParseFileStatusResult_absent_path_witness :
  exists (States : gmap string FGitSourceControlState) (w' : World),
    ParseFileStatusResult disk_env "git" "/repo" false ["A"; "B"; "C"]
      {[ "A" := "M  A" ]} ∅ empty_world
    = (Some States, w')
    /\ (exists s, States !! "B" = Some s
                  /\ FileState (State s) = EFileState.Unknown
                  /\ TreeState (State s) = ETreeState.Unmodified)
    /\ (exists s, States !! "C" = Some s
                  /\ FileState (State s) = EFileState.Unknown
                  /\ TreeState (State s) = ETreeState.NotInRepo).
Proof.
  destruct (ParseFileStatusResult_absent_path disk_env "git" "/repo" false
              ["A"; "B"; "C"] {[ "A" := "M  A" ]} ∅ empty_world)
    as (States & w' & Hrun & Habsent).
  - reflexivity.
  - intros Key Line HKey.
    apply lookup_singleton_Some in HKey as [_ <-]. simpl. lia.
  - exists States, w'. split; [exact Hrun|]. split.
    + apply (Habsent "B"); [|reflexivity].
      apply list_elem_of_In. simpl. auto.
    + apply (Habsent "C"); [|reflexivity].
      apply list_elem_of_In. simpl. auto.
Defined.

(** * Further properties *)

(** ** The command gateway in general *)

Lemma ParseIntoArray_empty (delim : ascii) :
  FString.ParseIntoArray delim "" = [].
Proof. reflexivity. Qed.

Lemma RunCommandInternal_success (E : Env) (c b r : string)
  (p f : list string) (w w' : World) (Results Errors : list string) :
  RunCommandInternal E c b r p f w = ((true, Results, Errors), w') ->
  Errors = [].
Proof.
  unfold RunCommandInternal, RunCommandInternalRaw. unfold_M.
  destruct (ReturnCode _ =? 0)%Z eqn:Hok; simpl.
  - destruct (0 <? FString.Len _)%Z eqn:Hlen; intros [= <- <- <-].
    + reflexivity.
    + apply Z.ltb_ge in Hlen. unfold FString.Len in Hlen.
      destruct (StdErr _) as [|ch rest]; [reflexivity|].
      simpl in Hlen. lia.
  - intros [= <- <- <-].
Qed.

Lemma loop_batches_shape (InFiles : list string) (fuel : nat) :
  forall FileCount : nat,
    (length InFiles - FileCount <= fuel)%nat ->
    Forall (fun Batch : list string =>
              (1 <= length Batch <= GitSourceControlConstants.MaxFilesPerBatch)%nat)
      (loop_batches fuel InFiles FileCount)
    /\ forall (i : nat) (Batch : list string),
         loop_batches fuel InFiles FileCount !! i = Some Batch ->
         (S i < length (loop_batches fuel InFiles FileCount))%nat ->
         length Batch = GitSourceControlConstants.MaxFilesPerBatch.
Proof.
  induction fuel as [|fuel IH]; intros FileCount Hfuel.
  - simpl. split; [constructor|]. intros i B Hi. discriminate.
  - destruct (Nat.ltb_spec FileCount (length InFiles)) as [Hlt|Hge].
    + rewrite loop_batches_step by exact Hlt.
      assert (Hb : length (FilesInBatch InFiles FileCount)
                   = Nat.min GitSourceControlConstants.MaxFilesPerBatch
                       (length InFiles - FileCount)).
      { unfold FilesInBatch. rewrite length_take, length_drop. reflexivity. }
      assert (Hmax : GitSourceControlConstants.MaxFilesPerBatch = 50%nat)
        by reflexivity.
      destruct (IH (FileCount + length (FilesInBatch InFiles FileCount))%nat)
        as [Hall Hfull]; [lia|].
      split.
      * constructor; [lia | exact Hall].
      * intros [|i] B Hi Hnext.
        -- injection Hi as <-. simpl in Hnext.
           destruct (Nat.ltb_spec
                       (FileCount + length (FilesInBatch InFiles FileCount))
                       (length InFiles)) as [Hmore|Hdone].
           ++ lia.
           ++ rewrite loop_batches_end in Hnext by exact Hdone.
              simpl in Hnext. lia.
        -- simpl in Hi, Hnext. apply (Hfull i B Hi). lia.
    + rewrite loop_batches_end by exact Hge.
      split; [constructor|]. intros i B Hi. discriminate.
Qed.

(** X1: whatever the number of files, [RunCommand] launches its command
    once per batch, the batches taken together are the files in input
    order, and up to 50 files (none included) make one launch with all of
    them; beyond 50 files no batch is empty, none holds more than 50 files
    and all but the last hold exactly 50. *)
Theorem RunCommand_batches (E : Env) (InCommand InPathToGitBinary
  InRepositoryRoot : string) (InParameters InFiles OutResults
  OutErrorMessages : list string) (w : World) :
  exists Batches : list (list string),
    Trace (RunCommand E InCommand InPathToGitBinary InRepositoryRoot
             InParameters InFiles OutResults OutErrorMessages w).2
    = Trace w
      ++ map (mkCmdLine InCommand InPathToGitBinary InRepositoryRoot
                InParameters) Batches
    /\ concat Batches = InFiles
    /\ ((length InFiles <= 50)%nat -> Batches = [InFiles])
    /\ ((50 < length InFiles)%nat ->
        Forall (fun Batch : list string => (1 <= length Batch <= 50)%nat)
          Batches
        /\ forall (i : nat) (Batch : list string),
             Batches !! i = Some Batch -> (S i < length Batches)%nat ->
             length Batch = 50%nat).
Proof.
  unfold RunCommand.
  destruct (Nat.ltb_spec GitSourceControlConstants.MaxFilesPerBatch
              (length InFiles)) as [Hbig|Hsmall].
  - exists (loop_batches (length InFiles) InFiles 0).
    split; [apply RunCommand_loop_trace|].
    split; [rewrite loop_batches_cover by lia; apply drop_0|].
    split.
    + unfold GitSourceControlConstants.MaxFilesPerBatch in Hbig. lia.
    + intros _. apply loop_batches_shape. lia.
  - exists [InFiles].
    destruct (RunCommandInternal_run E InCommand InPathToGitBinary
                InRepositoryRoot InParameters InFiles w) as [res ->].
    split; [reflexivity|]. split; [simpl; apply app_nil_r|].
    split; [reflexivity|].
    unfold GitSourceControlConstants.MaxFilesPerBatch in Hsmall. lia.
Qed.

Lemma RunCommand_batches_witness :
  exists Batches : list (list string),
    Trace (RunCommand quiet_env "add" "git" "/repo" [] files_120 [] []
             empty_world).2
    = map (mkCmdLine "add" "git" "/repo" []) Batches
    /\ concat Batches = files_120
    /\ Forall (fun Batch : list string => (1 <= length Batch <= 50)%nat)
         Batches.
Proof.
  destruct (RunCommand_batches quiet_env "add" "git" "/repo" [] files_120
              [] [] empty_world)
    as (Batches & Htrace & Hconcat & _ & Hbig).
  exists Batches. split; [exact Htrace|]. split; [exact Hconcat|].
  apply Hbig. vm_compute. lia.
Defined.

Lemma RunCommand_loop_success (E : Env) (c b r : string)
  (p InFiles : list string) (fuel : nat) :
  forall (FileCount : nat) (bResult : bool) (res errs Results Errors : list string)
         (w w' : World),
    RunCommand_loop E fuel c b r p InFiles FileCount bResult res errs w
    = ((true, Results, Errors), w') ->
    bResult = true /\ Errors = errs.
Proof.
  induction fuel as [|fuel IH];
    intros FileCount bResult res errs Results Errors w w'; simpl.
  - unfold_M. intros [= -> <- <- <-]. split; reflexivity.
  - destruct (FileCount <? length InFiles)%nat.
    + unfold_M.
      destruct (RunCommandInternal E c b r p (FilesInBatch InFiles FileCount)
                  w) as [[[r1 br] be] w1] eqn:Hrun.
      intros Hloop. apply IH in Hloop. destruct Hloop as [Hand ->].
      apply andb_true_iff in Hand. destruct Hand as [-> ->].
      apply RunCommandInternal_success in Hrun. subst be.
      split; [reflexivity | apply app_nil_r].
    + unfold_M. intros [= -> <- <- <-]. split; reflexivity.
Qed.

(** X2: a [RunCommand] that reports success hands no error line of its
    own to the caller: with up to 50 files the error array comes back
    empty, and with more it comes back as the caller passed it. *)
Theorem RunCommand_success_no_error (E : Env) (InCommand InPathToGitBinary
  InRepositoryRoot : string) (InParameters InFiles OutResults
  OutErrorMessages Results Errors : list string) (w w' : World) :
  RunCommand E InCommand InPathToGitBinary InRepositoryRoot InParameters
    InFiles OutResults OutErrorMessages w
  = ((true, Results, Errors), w') ->
  Errors = (if (50 <? length InFiles)%nat then OutErrorMessages else []).
Proof.
  unfold RunCommand.
  change GitSourceControlConstants.MaxFilesPerBatch with 50%nat.
  destruct (50 <? length InFiles)%nat.
  - intros Hloop. apply RunCommand_loop_success in Hloop. apply Hloop.
  - apply RunCommandInternal_success.
Qed.

Lemma RunCommand_success_no_error_witness :
  (RunCommand quiet_env "status" "git" "/repo" ["--porcelain"] files_120
     [] ["earlier"] empty_world).1.2
  = ["earlier"].
Proof.
  destruct (RunCommand quiet_env "status" "git" "/repo" ["--porcelain"]
              files_120 [] ["earlier"] empty_world)
    as [[[ok Results] Errors] w'] eqn:Hrun.
  assert (Hok : ok = true).
  { apply (f_equal (fun x => x.1.1.1)) in Hrun. vm_compute in Hrun.
    symmetry. exact Hrun. }
  subst ok.
  apply (RunCommand_success_no_error quiet_env "status" "git" "/repo"
           ["--porcelain"] files_120 [] ["earlier"] Results Errors
           empty_world w') in Hrun.
  exact Hrun.
Defined.

(** X3: with up to 50 files [RunCommit] launches one "add -A" and one
    "commit" on all the files, and what it reports is the outcome of the
    commit alone: the outcome of the add does not count. *)
Theorem RunCommit_small (E : Env) (InPathToGitBinary InRepositoryRoot
  : string) (InParameters InFiles OutResults OutErrorMessages : list string)
  (w : World) :
  (length InFiles <= 50)%nat ->
  let add := mkCmdLine "add" InPathToGitBinary InRepositoryRoot ["-A"]
               InFiles in
  let commit := mkCmdLine "commit" InPathToGitBinary InRepositoryRoot
                  InParameters InFiles in
  let run := RunCommit E InPathToGitBinary InRepositoryRoot InParameters
               InFiles OutResults OutErrorMessages w in
  Trace run.2 = Trace w ++ [add; commit]
  /\ run.1.1.1
     = (ReturnCode (ExecProcess E (Trace w ++ [add]) commit) =? 0)%Z.
Proof.
  intros Hsmall add commit run. subst run. unfold RunCommit.
  replace (GitSourceControlConstants.MaxFilesPerBatch <? length InFiles)%nat
    with false
    by (symmetry; apply Nat.ltb_ge;
        unfold GitSourceControlConstants.MaxFilesPerBatch; lia).
  unfold_M. step_cmd. cbn [Trace set_Trace]. step_cmd.
  cbn [fst snd Trace set_Trace]. rewrite <- app_assoc. split; reflexivity.
Qed.

Lemma RunCommit_small_witness :
  (RunCommit add_fails_env "git" "/repo" ["-m"; "msg"] ["a.uasset"] [] []
     empty_world).1.1.1
  = true.
Proof.
  destruct (RunCommit_small add_fails_env "git" "/repo" ["-m"; "msg"]
              ["a.uasset"] [] [] empty_world) as [_ Hres].
  - simpl. lia.
  - rewrite Hres. reflexivity.
Defined.

(** ** Lines of the lock list *)

Lemma string_of_rev_app (cur : list ascii) (a : string) :
  string_of_list_ascii (rev cur ++ list_ascii_of_string a)
  = string_of_list_ascii (rev cur) +:+ a.
Proof.
  induction (rev cur) as [|c l IH]; simpl.
  - apply string_of_list_ascii_of_string.
  - rewrite IH. reflexivity.
Qed.

Lemma split_cull_piece (delim : ascii) (a : string) :
  FString.FindChar delim a = None ->
  forall cur : list ascii,
    (forall rest : string,
        FString.split_cull delim cur (a +:+ String delim rest)
        = match rev cur ++ list_ascii_of_string a with
          | [] => FString.split_cull delim [] rest
          | piece =>
              string_of_list_ascii piece :: FString.split_cull delim [] rest
          end)
    /\ FString.split_cull delim cur a
       = match rev cur ++ list_ascii_of_string a with
         | [] => []
         | piece => [string_of_list_ascii piece]
         end.
Proof.
  induction a as [|c a IH]; intros Hno cur.
  - change ("" +:+ String delim ?r) with (String delim r).
    simpl. rewrite Ascii.eqb_refl, app_nil_r.
    split; [intros rest|]; destruct cur as [|x cur]; simpl; try reflexivity;
      destruct (rev cur ++ [x]) eqn:Hr; try reflexivity;
      apply app_eq_nil in Hr; destruct Hr; discriminate.
  - simpl in Hno. rewrite Ascii.eqb_sym in Hno.
    destruct (Ascii.eqb delim c) eqn:Hc; [discriminate|].
    rewrite Ascii.eqb_sym in Hc.
    destruct (FString.FindChar delim a) eqn:Ha; [discriminate|].
    destruct (IH eq_refl (c :: cur)) as [IH1 IH2].
    assert (Hrev : rev (c :: cur) ++ list_ascii_of_string a
                   = rev cur ++ list_ascii_of_string (String c a)).
    { simpl. rewrite <- app_assoc. reflexivity. }
    split.
    + intros rest.
      change (String c a +:+ String delim rest)
        with (String c (a +:+ String delim rest)).
      cbn [FString.split_cull]. rewrite Hc, IH1, Hrev. reflexivity.
    + cbn [FString.split_cull]. rewrite Hc, IH2, Hrev. reflexivity.
Qed.

Lemma split_cull_head (delim : ascii) (a rest : string) :
  FString.FindChar delim a = None -> a <> "" ->
  FString.ParseIntoArray delim (a +:+ String delim rest)
  = a :: FString.ParseIntoArray delim rest.
Proof.
  intros Hno Hne. unfold FString.ParseIntoArray.
  destruct (split_cull_piece delim a Hno []) as [H _]. rewrite H. simpl.
  destruct a as [|c a]; [congruence|]. simpl.
  rewrite string_of_list_ascii_of_string. reflexivity.
Qed.

Lemma split_cull_last (delim : ascii) (a : string) :
  FString.FindChar delim a = None -> a <> "" ->
  FString.ParseIntoArray delim a = [a].
Proof.
  intros Hno Hne. unfold FString.ParseIntoArray.
  destruct (split_cull_piece delim a Hno []) as [_ H]. rewrite H. simpl.
  destruct a as [|c a]; [congruence|]. simpl.
  rewrite string_of_list_ascii_of_string. reflexivity.
Qed.

(** X4: the parser of a line of the lock list.  From
    [path<TAB>user<TAB>id] it takes the full path of [path] and the user,
    both without trailing whitespace, unless the user column is blank or
    starts with "ID:", which gives the current user; from
    [path<TAB>id] it takes the full path and the current user; and from a
    line without tab it takes nothing: the path and the user stay
    empty. *)
Theorem FGitLfsLocksParser_fields (E : Env) (InRepositoryRoot : string) :
  (forall path user id : string,
      FString.FindChar FString.tab path = None -> path <> "" ->
      FString.FindChar FString.tab user = None -> user <> "" ->
      FString.FindChar FString.tab id = None -> id <> "" ->
      FGitLfsLocksParser E InRepositoryRoot
        (path +:+ String FString.tab (user +:+ String FString.tab id)) true
      = LocksParser.mk
          (ConvertRelativePathToFull E InRepositoryRoot (FString.TrimEnd path))
          (if FString.IsEmpty (FString.TrimEnd user)
              || FString.StartsWith "ID:" (FString.TrimEnd user)
           then ProviderLockUser E else FString.TrimEnd user))
  /\ (forall path id : string,
        FString.FindChar FString.tab path = None -> path <> "" ->
        FString.FindChar FString.tab id = None -> id <> "" ->
        FGitLfsLocksParser E InRepositoryRoot
          (path +:+ String FString.tab id) true
        = LocksParser.mk
            (ConvertRelativePathToFull E InRepositoryRoot
               (FString.TrimEnd path))
            (ProviderLockUser E))
  /\ (forall line : string,
        FString.FindChar FString.tab line = None ->
        FGitLfsLocksParser E InRepositoryRoot line true
        = LocksParser.mk "" "").
Proof.
  split; [|split].
  - intros path user id Hp Hpne Hu Hune Hi Hine.
    unfold FGitLfsLocksParser.
    rewrite (split_cull_head _ path _ Hp Hpne),
      (split_cull_head _ user _ Hu Hune), (split_cull_last _ id Hi Hine).
    cbn [length Nat.eqb orb].
    destruct (FString.IsEmpty (FString.TrimEnd user)
              || FString.StartsWith "ID:" (FString.TrimEnd user));
      reflexivity.
  - intros path id Hp Hpne Hi Hine.
    unfold FGitLfsLocksParser.
    rewrite (split_cull_head _ path _ Hp Hpne), (split_cull_last _ id Hi Hine).
    reflexivity.
  - intros line Hno. unfold FGitLfsLocksParser.
    destruct line as [|c line]; [reflexivity|].
    rewrite (split_cull_last _ (String c line) Hno) by discriminate.
    reflexivity.
Qed.

Lemma FGitLfsLocksParser_fields_witness :
  FGitLfsLocksParser quiet_env "/repo/" lock_line_user true
  = LocksParser.mk "/repo/Content/a.uasset" "bob"
  /\ FGitLfsLocksParser quiet_env "/repo/" lock_line_id true
     = LocksParser.mk "/repo/Content/a.uasset" "me"
  /\ FGitLfsLocksParser quiet_env "/repo/" "no lock held" true
     = LocksParser.mk "" "".
Proof.
  destruct (FGitLfsLocksParser_fields quiet_env "/repo/")
    as (Huser & Hid & Hnone).
  split; [|split].
  - unfold lock_line_user.
    rewrite (Huser "Content/a.uasset    " "bob       " "ID:891");
      try reflexivity; discriminate.
  - unfold lock_line_id.
    rewrite (Hid "Content/a.uasset    " "ID:891");
      try reflexivity; discriminate.
  - apply Hnone. reflexivity.
Defined.

(** ** Local changes of the lock cache *)

Lemma elem_of_lock_changes (E : Env) (present absent : gmap string string)
  (locked : bool) (path : string) (flag : bool) :
  (path, flag) ∈ lock_changes E present absent locked
  <-> flag = negb locked
      /\ exists user : string,
           present !! path = Some user /\ absent !! path = None
           /\ FString.Equals (ProviderLockUser E) user = true.
Proof.
  unfold lock_changes. rewrite list_elem_of_In, in_flat_map. split.
  - intros ([k u] & Hk & Hin).
    apply (proj2 (list_elem_of_In _ _)) in Hk.
    apply elem_of_map_to_list in Hk.
    cbn [fst snd] in Hin.
    destruct (absent !! k) eqn:Habs; [destruct Hin|].
    unfold OnFileLockChanged in Hin.
    destruct (FString.Equals (ProviderLockUser E) u) eqn:Heq;
      [|destruct Hin].
    destruct Hin as [[= <- <-]|[]]. split; [reflexivity|]. eauto.
  - intros (-> & u & Hp & Ha & Heq). exists (path, u). split.
    + apply list_elem_of_In, elem_of_map_to_list. exact Hp.
    + cbn [fst snd]. rewrite Ha. unfold OnFileLockChanged. rewrite Heq.
      left. reflexivity.
Qed.

(** X5: [SetLockedFiles] replaces the lock cache by the new map, and the
    read-only attribute follows the locks of the current user only: a file
    is made read-only exactly when its lock, held by the current user,
    left the map, and writable exactly when a lock of the current user
    entered it.  A path that stays in the map is never touched, even when
    its owner changes, and setting the map the cache already holds
    touches no file. *)
Theorem SetLockedFiles_read_only (E : Env) (newLocks : gmap string string)
  (w : World) :
  let w' := (SetLockedFiles E newLocks w).2 in
  LockedFiles w' = newLocks
  /\ exists changes : list (string * bool),
       ReadOnlyLog w' = ReadOnlyLog w ++ changes
       /\ (forall path : string,
              (path, true) ∈ changes
              <-> exists user : string,
                    LockedFiles w !! path = Some user
                    /\ newLocks !! path = None
                    /\ FString.Equals (ProviderLockUser E) user = true)
       /\ (forall path : string,
              (path, false) ∈ changes
              <-> exists user : string,
                    newLocks !! path = Some user
                    /\ LockedFiles w !! path = None
                    /\ FString.Equals (ProviderLockUser E) user = true)
       /\ (forall (path : string) (flag : bool),
              is_Some (LockedFiles w !! path) ->
              is_Some (newLocks !! path) -> (path, flag) ∉ changes)
       /\ (newLocks = LockedFiles w -> changes = []).
Proof.
  intros w'. subst w'. unfold SetLockedFiles. cbn [snd LockedFiles
    ReadOnlyLog set_LockedFiles set_ReadOnlyLog].
  split; [reflexivity|].
  eexists. split; [reflexivity|].
  assert (Hin : forall path flag,
             (path, flag)
             ∈ lock_changes E (LockedFiles w) newLocks false
               ++ lock_changes E newLocks (LockedFiles w) true
             <-> (flag = true
                  /\ exists user, LockedFiles w !! path = Some user
                                  /\ newLocks !! path = None
                                  /\ FString.Equals (ProviderLockUser E) user
                                     = true)
                 \/ (flag = false
                     /\ exists user, newLocks !! path = Some user
                                     /\ LockedFiles w !! path = None
                                     /\ FString.Equals (ProviderLockUser E)
                                          user = true)).
  { intros path flag. rewrite elem_of_app, !elem_of_lock_changes.
    simpl. tauto. }
  split; [|split; [|split]].
  - intros path. rewrite Hin. split.
    + intros [[_ H]|[H _]]; [exact H | discriminate].
    + intros H. left. split; [reflexivity | exact H].
  - intros path. rewrite Hin. split.
    + intros [[H _]|[_ H]]; [discriminate | exact H].
    + intros H. right. split; [reflexivity | exact H].
  - intros path flag [u Hu] [v Hv]. rewrite Hin.
    intros [[_ (x & _ & Hx & _)]|[_ (x & _ & Hx & _)]]; congruence.
  - intros ->.
    destruct (lock_changes E (LockedFiles w) (LockedFiles w) false
              ++ lock_changes E (LockedFiles w) (LockedFiles w) true)
      as [|[path flag] rest] eqn:Hch; [reflexivity|].
    exfalso.
    assert (Hhead : (path, flag) ∈ (path, flag) :: rest) by left.
    apply Hin in Hhead.
    destruct Hhead as [[_ (x & Hx & Hy & _)]|[_ (x & Hx & Hy & _)]];
      congruence.
Qed.

Lemma SetLockedFiles_read_only_witness :
  ReadOnlyLog
    (SetLockedFiles quiet_env {[ "/repo/Content/b.uasset" := "me" ]}
       cached_world).2
  = [].
Proof.
  destruct (SetLockedFiles_read_only quiet_env
              {[ "/repo/Content/b.uasset" := "me" ]} cached_world)
    as (_ & changes & Hlog & _ & _ & Hstay & _).
  rewrite Hlog. simpl.
  destruct changes as [|[path flag] rest]; [reflexivity|].
  exfalso.
  destruct (decide (path = "/repo/Content/b.uasset")) as [->|Hne].
  - apply (Hstay "/repo/Content/b.uasset" flag); [eexists; reflexivity
      | eexists; reflexivity | left].
  - assert (Hin : (path, flag)
                  ∈ ReadOnlyLog
                      (SetLockedFiles quiet_env
                         {[ "/repo/Content/b.uasset" := "me" ]}
                         cached_world).2)
      by (rewrite Hlog; simpl; left).
    vm_compute in Hin. apply elem_of_nil in Hin. exact Hin.
Defined.

(** X6: locking then unlocking a path that held no lock leaves the lock
    cache as it was; when the lock is the current user's the file is made
    writable and then read-only again, and when it is another user's no
    file attribute is touched.  After [AddLockedFile] the cache answers
    the new owner for the path and is unchanged elsewhere. *)
Theorem AddLockedFile_RemoveLockedFile (E : Env) (filePath lockUser : string)
  (w : World) :
  let w1 := (AddLockedFile E filePath lockUser w).2 in
  let w2 := (RemoveLockedFile E filePath w1).2 in
  LockedFiles w1 !! filePath = Some lockUser
  /\ (forall other : string,
         other <> filePath ->
         LockedFiles w1 !! other = LockedFiles w !! other)
  /\ (LockedFiles w !! filePath = None -> LockedFiles w2 = LockedFiles w)
  /\ ReadOnlyLog w2
     = ReadOnlyLog w
       ++ (if FString.Equals (ProviderLockUser E) lockUser
           then [(filePath, false); (filePath, true)] else []).
Proof.
  intros w1 w2. subst w1 w2. unfold AddLockedFile, RemoveLockedFile.
  cbn [snd LockedFiles ReadOnlyLog set_LockedFiles set_ReadOnlyLog].
  split; [apply lookup_insert_eq|].
  split; [intros other Hne; apply lookup_insert_ne; congruence|].
  split.
  - intros Hnone. rewrite delete_insert_eq. apply delete_id. exact Hnone.
  - rewrite lookup_insert_eq. unfold OnFileLockChanged, default. simpl.
    destruct (FString.Equals (ProviderLockUser E) lockUser); simpl;
      rewrite <- ?app_assoc, ?app_nil_r; reflexivity.
Qed.

Lemma AddLockedFile_RemoveLockedFile_witness :
  LockedFiles
    (RemoveLockedFile quiet_env "/repo/Content/a.uasset"
       (AddLockedFile quiet_env "/repo/Content/a.uasset" "me"
          cached_world).2).2
  = LockedFiles cached_world.
Proof.
  apply (AddLockedFile_RemoveLockedFile quiet_env "/repo/Content/a.uasset"
           "me" cached_world).
  reflexivity.
Defined.

(** ** Fetch *)

(** X7: [FetchRemote] ends with the launch of "fetch --no-tags --prune",
    and what it returns (outcome, results and errors) is what that launch
    gives: the errors of the lock refresh do not reach the caller.  With
    the locking workflow in use the lock list is queried from the remote
    first, however recent the cache is; without it nothing else is
    launched. *)
Theorem FetchRemote_forces_locks (E : Env) (InPathToGitBinary
  InPathToRepositoryRoot : string) (InUsingGitLfsLocking : bool)
  (OutResults OutErrorMessages : list string) (w : World) :
  exists w1 : World,
    FetchRemote E InPathToGitBinary InPathToRepositoryRoot
      InUsingGitLfsLocking OutResults OutErrorMessages w
    = RunCommandInternal E "fetch" InPathToGitBinary InPathToRepositoryRoot
        ["--no-tags"; "--prune"] [] w1
    /\ (InUsingGitLfsLocking = false -> w1 = w)
    /\ (InUsingGitLfsLocking = true ->
        exists more : list CmdLine,
          Trace w1
          = Trace w ++ locks_query E InPathToRepositoryRoot [] :: more).
Proof.
  unfold FetchRemote. unfold_M. destruct InUsingGitLfsLocking.
  - pose proof (GetAllLocks_expired_trace E InPathToRepositoryRoot
                  InPathToGitBinary OutErrorMessages ∅ true w eq_refl)
      as Htrace.
    destruct (GetAllLocks E InPathToRepositoryRoot InPathToGitBinary
                OutErrorMessages ∅ true w) as [[[ok errs] Locks] w1].
    exists w1. split; [reflexivity|]. split; [discriminate|].
    intros _. exact Htrace.
  - exists w. split; [reflexivity|]. split; [reflexivity | discriminate].
Qed.

Lemma FetchRemote_forces_locks_witness :
  exists more : list CmdLine,
    Trace (FetchRemote (lock_list_env 0 0) "git" "/repo/" true [] []
             cached_world).2
    = locks_query (lock_list_env 0 0) "/repo/" [] :: more.
Proof.
  destruct (FetchRemote_forces_locks (lock_list_env 0 0) "git" "/repo/" true
              [] [] cached_world) as (w1 & Hrun & _ & Hlocks).
  destruct (Hlocks eq_refl) as [more Hmore].
  rewrite Hrun, RunCommandInternal_world. cbn [Trace set_Trace].
  rewrite Hmore. simpl. eauto.
Defined.

(** ** Root of the repository *)

Lemma take_chars_length (n : nat) (s : string) :
  String.length (FString.take_chars n s) = Nat.min n (String.length s).
Proof.
  revert s. induction n as [|n IH]; intros [|c s]; simpl; try reflexivity.
  rewrite IH. reflexivity.
Qed.

Lemma at_take_chars (i j : nat) (s : string) :
  (j < i)%nat -> FString.at_ (FString.take_chars i s) j = FString.at_ s j.
Proof.
  unfold FString.at_. revert j s.
  induction i as [|i IH]; intros j s Hlt; [lia|].
  destruct s as [|c s]; [reflexivity|].
  destruct j as [|j]; simpl; [reflexivity|]. apply IH. lia.
Qed.

Lemma take_take_chars (i j : nat) (s : string) :
  (j <= i)%nat ->
  FString.take_chars j (FString.take_chars i s) = FString.take_chars j s.
Proof.
  revert j s. induction i as [|i IH]; intros j s Hle.
  - replace j with 0%nat by lia. reflexivity.
  - destruct s as [|c s]; [destruct j; reflexivity|].
    destruct j as [|j]; simpl; [reflexivity|]. rewrite IH by lia.
    reflexivity.
Qed.

Lemma at_lt_length (s : string) (i : nat) (c : ascii) :
  FString.at_ s i = Some c -> (i < String.length s)%nat.
Proof.
  unfold FString.at_. revert i.
  induction s as [|d s IH]; intros i; simpl; [discriminate|].
  destruct i as [|i]; [lia|]. intros H. apply IH in H. lia.
Qed.

Lemma prefixb_refl (s : string) : FString.prefixb s s = true.
Proof.
  induction s as [|c s IH]; simpl; [reflexivity|].
  rewrite Ascii.eqb_refl. exact IH.
Qed.

Lemma prefixb_take_chars (n : nat) (s : string) :
  FString.prefixb (FString.take_chars n s) s = true.
Proof.
  revert s. induction n as [|n IH]; intros [|c s]; simpl; try reflexivity.
  rewrite Ascii.eqb_refl. apply IH.
Qed.

Lemma prefixb_trans (a b c : string) :
  FString.prefixb a b = true -> FString.prefixb b c = true ->
  FString.prefixb a c = true.
Proof.
  revert b c. induction a as [|x a IH]; intros b c; [reflexivity|].
  destruct b as [|y b]; simpl; [discriminate|].
  destruct c as [|z c]; simpl; [intros _ H; discriminate|].
  intros Hab Hbc.
  apply andb_true_iff in Hab, Hbc. destruct Hab as [Hxy Hab].
  destruct Hbc as [Hyz Hbc]. apply Ascii.eqb_eq in Hxy, Hyz. subst.
  rewrite Ascii.eqb_refl. simpl. eapply IH; eassumption.
Qed.

Lemma FindLastChar_Some_spec (c : ascii) (s : string) (i : nat) :
  FString.FindLastChar c s = Some i ->
  FString.at_ s i = Some c
  /\ forall j : nat, FString.at_ s j = Some c -> (j <= i)%nat.
Proof.
  unfold FString.at_. revert i.
  induction s as [|d s IH]; intros i; simpl; [discriminate|].
  destruct (FString.FindLastChar c s) as [k|] eqn:Hk.
  - intros [= <-]. destruct (IH k eq_refl) as [Hat Hmax].
    split; [exact Hat|]. intros [|j] Hj; [lia|].
    apply Hmax in Hj. lia.
  - destruct (Ascii.eqb d c) eqn:Hd; [|discriminate].
    intros [= <-]. apply Ascii.eqb_eq in Hd. subst d.
    split; [reflexivity|]. intros [|j] Hj; [lia|]. exfalso.
    clear IH. revert j Hj.
    induction s as [|e s IHs]; intros j; simpl; [discriminate|].
    simpl in Hk.
    destruct (FString.FindLastChar c s) eqn:Hs; [discriminate|].
    destruct (Ascii.eqb e c) eqn:He; [discriminate|].
    destruct j as [|j].
    + intros [= ->]. rewrite Ascii.eqb_refl in He. discriminate.
    + apply IHs. reflexivity.
Qed.

Lemma FindLastChar_None_spec (c : ascii) (s : string) :
  FString.FindLastChar c s = None ->
  forall j : nat, FString.at_ s j <> Some c.
Proof.
  unfold FString.at_.
  induction s as [|e s IHs]; intros Hk j; simpl; [discriminate|].
  simpl in Hk.
  destruct (FString.FindLastChar c s) eqn:Hs; [discriminate|].
  destruct (Ascii.eqb e c) eqn:He; [discriminate|].
  destruct j as [|j].
  - intros [= ->]. rewrite Ascii.eqb_refl in He. discriminate.
  - apply IHs. reflexivity.
Qed.

Lemma TrimTrailing_loop_prefix (fuel : nat) (Char : ascii) (Str : string) :
  FString.prefixb (TrimTrailing_loop fuel Char Str) Str = true.
Proof.
  revert Str. induction fuel as [|fuel IH]; intros Str; simpl.
  - apply prefixb_refl.
  - destruct (bool_decide _); [|apply prefixb_refl].
    eapply prefixb_trans; [apply IH|]. apply prefixb_take_chars.
Qed.

Lemma ancestor_prefix (Start Candidate : string) :
  ancestor Start Candidate -> FString.prefixb Candidate Start = true.
Proof.
  intros [->|(i & _ & ->)]; [apply prefixb_refl | apply prefixb_take_chars].
Qed.

Lemma FindRootDirectory_loop_spec (E : Env) (H : Host) (fuel : nat) :
  forall Root : string,
    (String.length Root < fuel)%nat ->
    let result := FindRootDirectory_loop E H fuel Root in
    (forall Candidate : string,
        ancestor Root Candidate -> Candidate <> "" ->
        (result.1 = true ->
         (String.length result.2 < String.length Candidate)%nat) ->
        has_git E H Candidate = false)
    /\ (result.1 = true ->
        result.2 <> "" /\ has_git E H result.2 = true
        /\ ancestor Root result.2).
Proof.
  induction fuel as [|fuel IH]; intros Root Hfuel; [lia|].
  cbn [FindRootDirectory_loop].
  destruct (FString.IsEmpty Root) eqn:Hempty.
  { destruct Root; [|discriminate].
    cbn [fst snd]. split; [|discriminate].
    intros Candidate [->|(i & Hi & _)] Hne _; [congruence|].
    discriminate. }
  assert (HRoot : Root <> "") by (intros ->; discriminate).
  destruct (has_git E H Root) eqn:Hgit.
  { cbn [fst snd]. split.
    - intros Candidate Hanc _ Hlonger. specialize (Hlonger eq_refl).
      destruct Hanc as [->|(i & _ & ->)]; [lia|].
      rewrite take_chars_length in Hlonger. lia.
    - intros _. split; [exact HRoot|].
      split; [exact Hgit | left; reflexivity]. }
  destruct (FString.FindLastChar "/" Root) as [i|] eqn:Hlast.
  - destruct (FindLastChar_Some_spec _ _ _ Hlast) as [Hat Hmax].
    pose proof (at_lt_length _ _ _ Hat) as Hi.
    unfold FString.Left. rewrite Nat2Z.id.
    set (Next := FString.take_chars i Root).
    assert (HlenNext : String.length Next = i)
      by (subst Next; rewrite take_chars_length; lia).
    destruct (IH Next) as [Hnone Hfound]; [lia|].
    split.
    + intros Candidate Hanc Hne Hlonger.
      destruct Hanc as [->|(j & Hj & ->)]; [exact Hgit|].
      pose proof (Hmax j Hj) as Hji.
      destruct (decide (j = i)) as [->|Hneq].
      * apply Hnone; [left; reflexivity | exact Hne | exact Hlonger].
      * apply Hnone; [|exact Hne | exact Hlonger].
        right. exists j. subst Next.
        rewrite at_take_chars by lia. rewrite take_take_chars by lia.
        split; [exact Hj | reflexivity].
    + intros Htrue. destruct (Hfound Htrue) as (Hne & Hg & Hanc).
      split; [exact Hne|]. split; [exact Hg|].
      destruct Hanc as [->|(j & Hj & ->)].
      * right. exists i. split; [exact Hat | reflexivity].
      * pose proof (at_lt_length _ _ _ Hj) as Hjlen.
        rewrite HlenNext in Hjlen. subst Next.
        rewrite at_take_chars in Hj by lia.
        rewrite take_take_chars by lia.
        right. exists j. split; [exact Hj | reflexivity].
  - assert (Hend : FindRootDirectory_loop E H fuel "" = (false, "")).
    { destruct fuel; reflexivity. }
    rewrite Hend. cbn [fst snd]. split; [|discriminate].
    intros Candidate Hanc Hne _.
    destruct Hanc as [->|(j & Hj & _)]; [exact Hgit|].
    exfalso. exact (FindLastChar_None_spec _ _ Hlast j Hj).
Qed.

(** X8: [FindRootDirectory] searches upward from the path without its
    trailing backslashes and slashes.  When it finds a root, the root is
    not empty, it is a candidate of the search (the start or what stands
    before one of its slashes, so a prefix of the path), it holds ".git",
    and no longer candidate holds ".git": it is the nearest one.  When it
    finds none, no candidate holds ".git" and the path comes back as
    given. *)
Theorem FindRootDirectory_nearest (E : Env) (H : Host) (InPath : string) :
  let Start := TrimTrailing "/" (TrimTrailing "\" InPath) in
  let result := FindRootDirectory E H InPath in
  (result.1 = true ->
   result.2 <> "" /\ has_git E H result.2 = true
   /\ ancestor Start result.2
   /\ FString.prefixb result.2 InPath = true
   /\ forall Candidate : string,
        ancestor Start Candidate ->
        (String.length result.2 < String.length Candidate)%nat ->
        has_git E H Candidate = false)
  /\ (result.1 = false ->
      result.2 = InPath
      /\ forall Candidate : string,
           ancestor Start Candidate -> Candidate <> "" ->
           has_git E H Candidate = false).
Proof.
  intros Start result. subst result. unfold FindRootDirectory.
  fold Start.
  destruct (FindRootDirectory_loop_spec E H (S (String.length Start)) Start)
    as [Hnone Hfound]; [lia|].
  destruct (FindRootDirectory_loop E H (S (String.length Start)) Start)
    as [[|] Root]; cbn [fst snd] in *.
  - split; [|discriminate]. intros _.
    destruct (Hfound eq_refl) as (Hne & Hgit & Hanc).
    split; [exact Hne|]. split; [exact Hgit|]. split; [exact Hanc|].
    split.
    + eapply prefixb_trans; [apply ancestor_prefix; exact Hanc|].
      subst Start. unfold TrimTrailing.
      eapply prefixb_trans; apply TrimTrailing_loop_prefix.
    + intros Candidate Hc Hlonger. apply Hnone; [exact Hc| |auto].
      intros ->. simpl in Hlonger. lia.
  - split; [discriminate|]. intros _. split; [reflexivity|].
    intros Candidate Hc Hne. apply Hnone; [exact Hc | exact Hne |].
    discriminate.
Qed.

Lemma FindRootDirectory_nearest_witness :
  FindRootDirectory disk_env repo_host "/repo/Content/Maps//"
  = (true, "/repo")
  /\ has_git disk_env repo_host "/repo/Content" = false.
Proof.
  destruct (FindRootDirectory_nearest disk_env repo_host
              "/repo/Content/Maps//") as [Hfound _].
  split; [reflexivity|].
  destruct (Hfound eq_refl) as (_ & _ & _ & _ & Hnearest).
  apply Hnearest.
  - right. exists 13%nat. split; reflexivity.
  - vm_compute. lia.
Defined.

(** ** Merging fragments, in general *)

Section MergeFrame.

Context (E : Env) (TimeNow : Z).

Lemma UpdateCachedStates_step_frame (Pair : string * FGitState)
  (Path : string) (w : World) :
  Pair.1 <> Path ->
  StateCache (UpdateCachedStates_step E TimeNow Pair w).2 !! Path
  = StateCache w !! Path.
Proof.
  intros Hne. unfold UpdateCachedStates_step, GetStateInternal,
    write_state, AddFileToIgnoreForceCache. unfold_M.
  destruct (StateCache w !! Pair.1) as [s|] eqn:Hs.
  - destruct (merge_state E Pair.2 TimeNow s); simpl; [|reflexivity].
    apply lookup_insert_ne. exact Hne.
  - destruct (merge_state E Pair.2 TimeNow (NewSourceControlState E Pair.1));
      simpl; rewrite !lookup_insert_ne by exact Hne; reflexivity.
Qed.

Lemma UpdateCachedStates_step_self (Path : string) (NewState : FGitState)
  (w : World) :
  let Old := default (NewSourceControlState E Path) (StateCache w !! Path) in
  StateCache (UpdateCachedStates_step E TimeNow (Path, NewState) w).2 !! Path
  = Some (default Old (merge_state E NewState TimeNow Old)).
Proof.
  intros Old. subst Old. unfold UpdateCachedStates_step, GetStateInternal,
    write_state, AddFileToIgnoreForceCache. unfold_M. cbn [fst snd].
  destruct (StateCache w !! Path) as [s|] eqn:Hs; cbn [default from_option id].
  - destruct (merge_state E NewState TimeNow s); simpl;
      [apply lookup_insert_eq | exact Hs].
  - destruct (merge_state E NewState TimeNow (NewSourceControlState E Path));
      simpl; rewrite ?lookup_insert_eq; reflexivity.
Qed.

Lemma UpdateCachedStates_step_quiet (Pair : string * FGitState) (w : World) :
  let w' := (UpdateCachedStates_step E TimeNow Pair w).2 in
  Trace w' = Trace w /\ LockedFiles w' = LockedFiles w
  /\ LastUpdated w' = LastUpdated w /\ ReadOnlyLog w' = ReadOnlyLog w.
Proof.
  unfold UpdateCachedStates_step, GetStateInternal, write_state,
    AddFileToIgnoreForceCache. unfold_M.
  destruct (StateCache w !! Pair.1) as [s|].
  - destruct (merge_state E Pair.2 TimeNow s); simpl; auto.
  - destruct (merge_state E Pair.2 TimeNow (NewSourceControlState E Pair.1));
      simpl; auto.
Qed.

Lemma for_each_quiet (l : list (string * FGitState)) :
  forall w : World,
    let w' := (for_each (UpdateCachedStates_step E TimeNow) l w).2 in
    Trace w' = Trace w /\ LockedFiles w' = LockedFiles w
    /\ LastUpdated w' = LastUpdated w /\ ReadOnlyLog w' = ReadOnlyLog w.
Proof.
  induction l as [|Pair l IH]; intros w; simpl; [auto|].
  unfold_M.
  pose proof (UpdateCachedStates_step_quiet Pair w) as Hstep.
  destruct (UpdateCachedStates_step E TimeNow Pair w) as [[] w1].
  cbn [snd] in Hstep. destruct Hstep as (H1 & H2 & H3 & H4).
  destruct (IH w1) as (I1 & I2 & I3 & I4).
  repeat split; congruence.
Qed.

Lemma for_each_frame (Path : string) (l : list (string * FGitState)) :
  Path ∉ l.*1 ->
  forall w : World,
    StateCache (for_each (UpdateCachedStates_step E TimeNow) l w).2 !! Path
    = StateCache w !! Path.
Proof.
  induction l as [|Pair l IH]; intros Hnot w; simpl; [reflexivity|].
  unfold_M.
  pose proof (UpdateCachedStates_step_frame Pair Path w) as Hstep.
  destruct (UpdateCachedStates_step E TimeNow Pair w) as [[] w1].
  cbn [snd] in Hstep.
  rewrite fmap_cons, not_elem_of_cons in Hnot. destruct Hnot as [Hne Hnot].
  rewrite IH by exact Hnot. apply Hstep. congruence.
Qed.

Lemma for_each_self (Path : string) (NewState : FGitState)
  (l : list (string * FGitState)) :
  NoDup l.*1 -> (Path, NewState) ∈ l ->
  forall w : World,
    let Old := default (NewSourceControlState E Path) (StateCache w !! Path) in
    StateCache (for_each (UpdateCachedStates_step E TimeNow) l w).2 !! Path
    = Some (default Old (merge_state E NewState TimeNow Old)).
Proof.
  induction l as [|Pair l IH]; intros Hnd Hin w Old.
  - apply elem_of_nil in Hin. contradiction.
  - rewrite fmap_cons, NoDup_cons in Hnd. destruct Hnd as [Hhead Hnd].
    simpl. unfold_M.
    apply elem_of_cons in Hin. destruct Hin as [<-|Hin].
    + pose proof (UpdateCachedStates_step_self Path NewState w) as Hstep.
      destruct (UpdateCachedStates_step E TimeNow (Path, NewState) w)
        as [[] w1].
      cbn [snd] in Hstep. rewrite for_each_frame by exact Hhead.
      exact Hstep.
    + assert (Hne : Pair.1 <> Path).
      { intros Heq. apply Hhead. rewrite Heq.
        apply (list_elem_of_fmap_2 fst l (Path, NewState)). exact Hin. }
      pose proof (UpdateCachedStates_step_frame Pair Path w Hne) as Hstep.
      destruct (UpdateCachedStates_step E TimeNow Pair w) as [[] w1].
      cbn [snd] in Hstep. rewrite (IH Hnd Hin w1). rewrite Hstep.
      reflexivity.
Qed.

End MergeFrame.

(** X9: a merge into the state cache touches only the entries of the
    paths it holds a fragment for, launches no process and leaves the
    lock cache alone; with no fragment, or without the module, it reports
    false and changes nothing, and otherwise it reports true. *)
Theorem UpdateCachedStates_frame (E : Env)
  (InResults : gmap string FGitState) (w : World) :
  let run := UpdateCachedStates E InResults w in
  (forall Path : string,
      InResults !! Path = None ->
      StateCache run.2 !! Path = StateCache w !! Path)
  /\ Trace run.2 = Trace w /\ LockedFiles run.2 = LockedFiles w
  /\ LastUpdated run.2 = LastUpdated w
  /\ (InResults = ∅ \/ ModuleAvailable E = false -> run = (false, w))
  /\ (InResults <> ∅ -> ModuleAvailable E = true -> run.1 = true).
Proof.
  intros run. subst run. unfold UpdateCachedStates.
  destruct (bool_decide (size InResults = 0%nat)) eqn:Hsize.
  { apply bool_decide_eq_true in Hsize. apply map_size_empty_inv in Hsize.
    unfold_M. cbn [fst snd]. repeat split; auto; intros; contradiction. }
  apply bool_decide_eq_false in Hsize.
  assert (Hne : InResults <> ∅).
  { intros ->. apply Hsize. apply map_size_empty. }
  destruct (ModuleAvailable E) eqn:Hmod; cbn [negb].
  2:{ unfold_M. cbn [fst snd]. repeat split; auto; intros; discriminate. }
  unfold_M.
  set (TimeNow := if UsesCheckout E then Now E else 0%Z).
  pose proof (for_each_quiet E TimeNow (map_to_list InResults) w) as Hquiet.
  pose proof (fun Path H =>
                for_each_frame E TimeNow Path (map_to_list InResults) H w)
    as Hframe.
  destruct (for_each (UpdateCachedStates_step E TimeNow)
              (map_to_list InResults) w) as [[] w1].
  cbn [fst snd] in *. destruct Hquiet as (H1 & H2 & H3 & _).
  split; [|repeat split; auto].
  - intros Path Hnone. apply Hframe. intros Hin.
    apply list_elem_of_fmap in Hin. destruct Hin as ([k v] & -> & Hin).
    apply elem_of_map_to_list in Hin. simpl in Hnone. congruence.
  - intros [Hempty|Hoff]; [contradiction | discriminate].
Qed.

Lemma UpdateCachedStates_frame_witness :
  UpdateCachedStates quiet_env ∅ modified_world = (false, modified_world)
  /\ StateCache
       (UpdateCachedStates quiet_env {[ "/repo/Content/z.uasset" := lock_fragment ]}
          modified_world).2 !! "/repo/Content/a.uasset"
     = Some modified_entry.
Proof.
  split.
  - apply (UpdateCachedStates_frame quiet_env ∅ modified_world).
    left. reflexivity.
  - destruct (UpdateCachedStates_frame quiet_env
                {[ "/repo/Content/z.uasset" := lock_fragment ]}
                modified_world) as [Hframe _].
    rewrite Hframe; reflexivity.
Defined.

(** X10: a fragment that the guard on Added lets through is laid over
    the cached entry of its path (a fresh default entry when the path has
    none) member by member: a member the fragment leaves Unset keeps its
    cached value, the lock owner follows the lock state, the head branch
    follows the remote state and is emptied by UpToDate, the path and the
    conflict metadata of the entry stay, and the entry is stamped with
    the time of the merge. *)
Theorem UpdateCachedStates_merges (E : Env)
  (InResults : gmap string FGitState) (w : World) (Path : string)
  (NewState : FGitState) :
  ModuleAvailable E = true ->
  InResults !! Path = Some NewState ->
  let Old := default (NewSourceControlState E Path) (StateCache w !! Path) in
  (FileState NewState <> EFileState.Added
   \/ StateIsUnknown E Old = true \/ StateCanAdd E Old = true) ->
  exists s : FGitSourceControlState,
    StateCache (UpdateCachedStates E InResults w).2 !! Path = Some s
    /\ FileState (State s)
       = keep_unless_set EFileState.Unset (FileState NewState)
           (FileState (State Old))
    /\ TreeState (State s)
       = keep_unless_set ETreeState.Unset (TreeState NewState)
           (TreeState (State Old))
    /\ LockState (State s)
       = keep_unless_set ELockState.Unset (LockState NewState)
           (LockState (State Old))
    /\ LockUser (State s)
       = (if bool_decide (LockState NewState = ELockState.Unset)
          then LockUser (State Old) else LockUser NewState)
    /\ RemoteState (State s)
       = keep_unless_set ERemoteState.Unset (RemoteState NewState)
           (RemoteState (State Old))
    /\ HeadBranch (State s)
       = (if bool_decide (RemoteState NewState = ERemoteState.Unset)
          then HeadBranch (State Old)
          else if bool_decide (RemoteState NewState = ERemoteState.UpToDate)
               then "" else HeadBranch NewState)
    /\ LocalFilename s = LocalFilename Old
    /\ PendingResolveInfo s = PendingResolveInfo Old
    /\ TimeStamp s = (if UsesCheckout E then Now E else 0%Z).
Proof.
  intros Hmod Hin Old Hpass. unfold UpdateCachedStates.
  assert (Hsize : size InResults <> 0%nat).
  { intros H0. apply map_size_empty_inv in H0. subst InResults.
    rewrite lookup_empty in Hin. discriminate. }
  rewrite bool_decide_eq_false_2 by exact Hsize. rewrite Hmod. cbn [negb].
  unfold_M.
  set (TimeNow := if UsesCheckout E then Now E else 0%Z).
  pose proof (for_each_self E TimeNow Path NewState (map_to_list InResults)
                (NoDup_fst_map_to_list InResults)
                (proj2 (elem_of_map_to_list InResults Path NewState) Hin) w)
    as Hself.
  destruct (for_each (UpdateCachedStates_step E TimeNow)
              (map_to_list InResults) w) as [[] w1].
  cbn [fst snd] in *. fold Old in Hself.
  eexists. split; [exact Hself|].
  assert (Hmerge : merge_state E NewState TimeNow Old
                   = Some (merge_rest NewState TimeNow
                             (if bool_decide (FileState NewState
                                              ≠ EFileState.Unset)
                              then set_State
                                     (set_FileState (FileState NewState)) Old
                              else Old))).
  { unfold merge_state.
    destruct (bool_decide (FileState NewState ≠ EFileState.Unset));
      [|reflexivity].
    destruct (bool_decide (FileState NewState = EFileState.Added)) eqn:Hadd;
      [|reflexivity].
    apply bool_decide_eq_true in Hadd.
    destruct Hpass as [Hna|[Hunk|Hcan]]; [contradiction| |].
    - rewrite Hunk. reflexivity.
    - rewrite Hcan, andb_false_r. reflexivity. }
  rewrite Hmerge. cbn [default from_option id].
  unfold merge_rest, keep_unless_set.
  destruct (decide (FileState NewState = EFileState.Unset)) as [HF|HF],
    (decide (TreeState NewState = ETreeState.Unset)) as [HT|HT],
    (decide (LockState NewState = ELockState.Unset)) as [HL|HL],
    (decide (RemoteState NewState = ERemoteState.Unset)) as [HR|HR];
    rewrite ?(bool_decide_eq_true_2 _ HF), ?(bool_decide_eq_true_2 _ HT),
      ?(bool_decide_eq_true_2 _ HL), ?(bool_decide_eq_true_2 _ HR),
      ?(bool_decide_eq_false_2 _ HF), ?(bool_decide_eq_false_2 _ HT),
      ?(bool_decide_eq_false_2 _ HL), ?(bool_decide_eq_false_2 _ HR);
    rewrite ?(bool_decide_eq_false_2 (_ ≠ _)) by (intros Hx; contradiction);
    rewrite ?(bool_decide_eq_true_2 (_ ≠ _)) by assumption;
    try (destruct (bool_decide (RemoteState NewState = ERemoteState.UpToDate)));
    repeat split; reflexivity.
Qed.

Lemma UpdateCachedStates_merges_witness :
  exists s : FGitSourceControlState,
    StateCache
      (UpdateCachedStates quiet_env
         {[ "/repo/Content/a.uasset" := lock_fragment ]} modified_world).2
    !! "/repo/Content/a.uasset" = Some s
    /\ FileState (State s) = EFileState.Modified
    /\ LockState (State s) = ELockState.LockedOther
    /\ LockUser (State s) = "bob".
Proof.
  destruct (UpdateCachedStates_merges quiet_env
              {[ "/repo/Content/a.uasset" := lock_fragment ]} modified_world
              "/repo/Content/a.uasset" lock_fragment)
    as (s & Hs & HF & _ & HL & HU & _).
  - reflexivity.
  - reflexivity.
  - left. discriminate.
  - exists s. split; [exact Hs|]. split; [exact HF|].
    split; [exact HL | exact HU].
Defined.

(** ** Collecting fragments *)

Lemma CollectNewStates_set_fields (NewState s : FGitState) :
  let s' := CollectNewStates_set NewState s in
  FileState s'
  = keep_unless_set EFileState.Unset (FileState NewState) (FileState s)
  /\ TreeState s'
     = keep_unless_set ETreeState.Unset (TreeState NewState) (TreeState s)
  /\ LockState s'
     = keep_unless_set ELockState.Unset (LockState NewState) (LockState s)
  /\ RemoteState s'
     = keep_unless_set ERemoteState.Unset (RemoteState NewState)
         (RemoteState s)
  /\ LockUser s' = LockUser s /\ HeadBranch s' = HeadBranch s.
Proof.
  unfold CollectNewStates_set, keep_unless_set.
  destruct (decide (FileState NewState = EFileState.Unset)) as [HF|HF],
    (decide (TreeState NewState = ETreeState.Unset)) as [HT|HT],
    (decide (LockState NewState = ELockState.Unset)) as [HL|HL],
    (decide (RemoteState NewState = ERemoteState.Unset)) as [HR|HR];
    rewrite ?(bool_decide_eq_true_2 _ HF), ?(bool_decide_eq_true_2 _ HT),
      ?(bool_decide_eq_true_2 _ HL), ?(bool_decide_eq_true_2 _ HR),
      ?(bool_decide_eq_false_2 _ HF), ?(bool_decide_eq_false_2 _ HT),
      ?(bool_decide_eq_false_2 _ HL), ?(bool_decide_eq_false_2 _ HR);
    rewrite ?(bool_decide_eq_false_2 (_ ≠ _)) by (intros Hx; contradiction);
    rewrite ?(bool_decide_eq_true_2 (_ ≠ _)) by assumption;
    repeat split; reflexivity.
Qed.

Lemma CollectNewStates_set_twice (NewState s : FGitState) :
  CollectNewStates_set NewState (CollectNewStates_set NewState s)
  = CollectNewStates_set NewState s.
Proof.
  unfold CollectNewStates_set.
  repeat match goal with
         | |- context [bool_decide ?P] => destruct (bool_decide P)
         end; reflexivity.
Qed.

Lemma CollectNewStates_foldl (NewState : FGitState) (InFiles : list string)
  (File : string) :
  forall Results : gmap string FGitState,
    foldl (CollectNewStates_step NewState) Results InFiles !! File
    = if decide (File ∈ InFiles)
      then Some (CollectNewStates_set NewState
                   (default NewState (Results !! File)))
      else Results !! File.
Proof.
  induction InFiles as [|F InFiles IH]; intros Results.
  - destruct (decide (File ∈ [])) as [Hin|_]; [|reflexivity].
    apply elem_of_nil in Hin. contradiction.
  - cbn [foldl]. rewrite IH. unfold CollectNewStates_step.
    destruct (decide (F = File)) as [->|Hne].
    + rewrite lookup_insert_eq. cbn [default from_option id].
      rewrite CollectNewStates_set_twice.
      destruct (decide (File ∈ File :: InFiles)) as [_|Hnot];
        [|exfalso; apply Hnot; left].
      destruct (decide (File ∈ InFiles)); reflexivity.
    + rewrite lookup_insert_ne by exact Hne.
      destruct (decide (File ∈ InFiles)) as [Hin|Hnin],
        (decide (File ∈ F :: InFiles)) as [Hin'|Hnin']; try reflexivity.
      * exfalso. apply Hnin'. right. exact Hin.
      * exfalso. apply elem_of_cons in Hin'. destruct Hin'; congruence.
Qed.

(** X11: [CollectNewStates] on a list of files reports false and records
    nothing for an empty list.  Otherwise it reports true, leaves the
    records of the other paths as they are, and gives every listed file a
    record in which each state the call sets (not Unset) is that state,
    each state it leaves Unset is the one already recorded (Unset for a
    file without record), and the lock owner and head branch are the
    recorded ones (the default ones for a file without record). *)
Theorem CollectNewStates_records (E : Env) (InFiles : list string)
  (OutResults : gmap string FGitState) (InFileState : EFileState.t)
  (InTreeState : ETreeState.t) (InLockState : ELockState.t)
  (InRemoteState : ERemoteState.t) :
  let run := CollectNewStates E InFiles OutResults InFileState InTreeState
               InLockState InRemoteState in
  let NewState :=
    mkGitState InFileState InTreeState InLockState
      (LockUser (DefaultGitState E)) InRemoteState
      (HeadBranch (DefaultGitState E)) in
  (InFiles = [] -> run = (false, OutResults))
  /\ (InFiles <> [] -> run.1 = true)
  /\ (forall File : string,
         File ∉ InFiles -> run.2 !! File = OutResults !! File)
  /\ (forall File : string,
         File ∈ InFiles ->
         let Old := default NewState (OutResults !! File) in
         exists s : FGitState,
           run.2 !! File = Some s
           /\ FileState s
              = keep_unless_set EFileState.Unset InFileState (FileState Old)
           /\ TreeState s
              = keep_unless_set ETreeState.Unset InTreeState (TreeState Old)
           /\ LockState s
              = keep_unless_set ELockState.Unset InLockState (LockState Old)
           /\ RemoteState s
              = keep_unless_set ERemoteState.Unset InRemoteState
                  (RemoteState Old)
           /\ LockUser s = LockUser Old /\ HeadBranch s = HeadBranch Old).
Proof.
  intros run NewState. subst run. unfold CollectNewStates.
  destruct InFiles as [|F InFiles].
  { cbn [length Nat.eqb fst snd]. repeat split; auto; try congruence.
    intros File Hin. apply elem_of_nil in Hin. contradiction. }
  cbn [length Nat.eqb fst snd].
  change (set_RemoteState InRemoteState
            (set_LockState InLockState
               (set_TreeState InTreeState
                  (set_FileState InFileState (DefaultGitState E)))))
    with NewState.
  refine (conj _ (conj _ (conj _ _))).
  - discriminate.
  - intros _. reflexivity.
  - intros File Hnot. rewrite CollectNewStates_foldl.
    rewrite decide_False by exact Hnot. reflexivity.
  - intros File Hin. rewrite CollectNewStates_foldl.
    rewrite decide_True by exact Hin.
    eexists. split; [reflexivity|].
    apply (CollectNewStates_set_fields NewState
             (default NewState (OutResults !! File))).
Qed.

Lemma CollectNewStates_records_witness :
  (CollectNewStates quiet_env ["/repo/Content/a.uasset"]
     {[ "/repo/Content/a.uasset" := lock_fragment ]} EFileState.Unmodified
     ETreeState.Unset ELockState.Unset ERemoteState.Unset).2
  !! "/repo/Content/a.uasset"
  = Some (mkGitState EFileState.Unmodified ETreeState.Unset
            ELockState.LockedOther "bob" ERemoteState.Unset "")
  /\ CollectNewStates quiet_env [] ∅ EFileState.Unmodified ETreeState.Unset
       ELockState.Unset ERemoteState.Unset
     = (false, ∅).
Proof.
  destruct (CollectNewStates_records quiet_env ["/repo/Content/a.uasset"]
              {[ "/repo/Content/a.uasset" := lock_fragment ]}
              EFileState.Unmodified ETreeState.Unset ELockState.Unset
              ERemoteState.Unset) as (_ & _ & _ & Hin).
  destruct (Hin "/repo/Content/a.uasset")
    as (s & Hs & HF & HT & HL & HR & HU & HB); [left|].
  split.
  - rewrite Hs. destruct s. simpl in *. vm_compute in HF, HT, HL, HR, HU, HB.
    congruence.
  - apply (CollectNewStates_records quiet_env [] ∅ EFileState.Unmodified
             ETreeState.Unset ELockState.Unset ERemoteState.Unset).
    reflexivity.
Defined.

(** ** Lockable types *)

Lemma CheckLFSLockable_loop_short (InFiles Results Types : list string) :
  (length Results < length InFiles)%nat ->
  CheckLFSLockable_loop InFiles Results Types = None.
Proof.
  revert Results Types.
  induction InFiles as [|File InFiles IH]; intros Results Types Hlen;
    [simpl in Hlen; lia|].
  destruct Results as [|Result Results]; [reflexivity|].
  simpl in *. apply IH. lia.
Qed.

Lemma CheckLFSLockable_loop_types (InFiles Results Types : list string) :
  (length InFiles <= length Results)%nat ->
  exists Out,
    CheckLFSLockable_loop InFiles Results Types = Some Out /\
    forall Type_, Type_ ∈ Out <->
      Type_ ∈ Types \/
      exists (i : nat) File Result,
        InFiles !! i = Some File /\ Results !! i = Some Result /\
        attribute_set Result = true /\ Type_ = FString.RightChop 1 File.
Proof.
  revert Results Types.
  induction InFiles as [|File InFiles IH]; intros Results Types Hlen.
  - exists Types. split; [reflexivity|].
    intros Type_. split; [auto|].
    intros [H|(i & F & R & Hi & _)]; [exact H|].
    rewrite lookup_nil in Hi. discriminate.
  - destruct Results as [|Result Results]; [simpl in Hlen; lia|].
    simpl in Hlen.
    destruct (IH Results
                (if attribute_set Result
                 then Types ++ [FString.RightChop 1 File] else Types))
      as (Out & HOut & Hmem); [lia|].
    exists Out. split; [exact HOut|].
    intros Type_. rewrite Hmem. split.
    + intros [H|(i & F & R & Hi & Hr & Hset & Heq)].
      * destruct (attribute_set Result) eqn:Hset; [|left; exact H].
        apply elem_of_app in H as [H|H]; [left; exact H|].
        apply list_elem_of_singleton in H. right.
        exists 0%nat, File, Result. auto.
      * right. exists (S i), F, R. auto.
    + intros [H|(i & F & R & Hi & Hr & Hset & Heq)].
      * left. destruct (attribute_set Result); [|exact H].
        apply elem_of_app. left. exact H.
      * destruct i as [|i].
        -- simpl in Hi, Hr. injection Hi as <-. injection Hr as <-.
           left. rewrite Hset. apply elem_of_app. right.
           apply list_elem_of_singleton. exact Heq.
        -- right. exists i, F, R. auto.
Qed.

(** X12: [CheckLFSLockable] starts from no lockable type.  When the
    "check-attr" command fails it answers false and leaves no lockable
    type, so that no file is lockable afterwards.  When the command
    succeeds with fewer result lines than wildcards the loop reads a line
    that does not exist.  Otherwise it answers true, and a file is
    lockable afterwards exactly when it ends (ignoring case) with a
    wildcard less its first character whose result line, at the same
    index, ends with "set" and not with "unset"; the types of an earlier
    call play no part. *)
Theorem CheckLFSLockable_types (E : Env) (bin root : string)
  (InFiles Errs : list string) (w w' : World)
  (bResults : bool) (Results OutErrs : list string) :
  RunCommand E "check-attr" bin root ["lockable"] InFiles [] Errs w
    = ((bResults, Results, OutErrs), w') ->
  (bResults = false ->
     CheckLFSLockable E bin root InFiles Errs w
       = (Some (false, OutErrs, []), w') /\
     forall File, IsFileLFSLockable (with_LockableTypes [] E) File = false) /\
  (bResults = true -> (length Results < length InFiles)%nat ->
     CheckLFSLockable E bin root InFiles Errs w = (None, w')) /\
  (bResults = true -> (length InFiles <= length Results)%nat ->
     exists Types,
       CheckLFSLockable E bin root InFiles Errs w
         = (Some (true, OutErrs, Types), w') /\
       forall File,
         IsFileLFSLockable (with_LockableTypes Types E) File = true <->
         exists (i : nat) Wildcard Result,
           InFiles !! i = Some Wildcard /\ Results !! i = Some Result /\
           attribute_set Result = true /\
           FString.EndsWith (FString.RightChop 1 Wildcard) File = true).
Proof.
  intros Hrun.
  assert (Hdef : CheckLFSLockable E bin root InFiles Errs w
    = ((if negb bResults then mret (Some (false, OutErrs, []))
        else match CheckLFSLockable_loop InFiles Results [] with
             | None => mret None
             | Some Types => mret (Some (true, OutErrs, Types))
             end)
       : M (option (bool * list string * list string))) w').
  { unfold CheckLFSLockable. unfold_M. rewrite Hrun. reflexivity. }
  refine (conj _ (conj _ _)).
  - intros ->. split; [rewrite Hdef; reflexivity|]. intros File. reflexivity.
  - intros -> Hlen. rewrite Hdef. simpl.
    rewrite CheckLFSLockable_loop_short by exact Hlen. reflexivity.
  - intros -> Hlen.
    destruct (CheckLFSLockable_loop_types InFiles Results [] Hlen)
      as (Types & HTypes & Hmem).
    exists Types. split; [rewrite Hdef; simpl; rewrite HTypes; reflexivity|].
    intros File. unfold IsFileLFSLockable, with_LockableTypes. simpl.
    rewrite existsb_exists. split.
    + intros (Type_ & Hin & Hends).
      apply list_elem_of_In, Hmem in Hin.
      destruct Hin as [Hin|(i & F & R & Hi & Hr & Hset & ->)].
      * apply elem_of_nil in Hin. contradiction.
      * exists i, F, R. auto.
    + intros (i & F & R & Hi & Hr & Hset & Hends).
      exists (FString.RightChop 1 F). split; [|exact Hends].
      apply list_elem_of_In, Hmem. right. exists i, F, R. auto.
Qed.

Lemma CheckLFSLockable_types_witness :
  exists Types,
    CheckLFSLockable attr_env "git" "/repo" ["*.uasset"; "*.ini"] []
      empty_world
      = (Some (true, [], Types),
         (RunCommand attr_env "check-attr" "git" "/repo" ["lockable"]
            ["*.uasset"; "*.ini"] [] [] empty_world).2) /\
    IsFileLFSLockable (with_LockableTypes Types attr_env)
      "/repo/Content/Map.UASSET" = true.
Proof.
  destruct (CheckLFSLockable_types attr_env "git" "/repo"
              ["*.uasset"; "*.ini"] [] empty_world
              (RunCommand attr_env "check-attr" "git" "/repo" ["lockable"]
                 ["*.uasset"; "*.ini"] [] [] empty_world).2
              true ["*.uasset: lockable: set"; "*.ini: lockable: unset"] []
              ltac:(vm_compute; reflexivity))
    as (_ & _ & H).
  destruct (H eq_refl ltac:(simpl; lia)) as (Types & HTypes & Hmem).
  exists Types. split; [exact HTypes|].
  apply Hmem.
  exists 0%nat, "*.uasset", "*.uasset: lockable: set".
  repeat split; vm_compute; reflexivity.
Defined.

(** ** Status lines of a directory *)

Section DirectoryStatus.

Context (E : Env) (lfs : bool).

Let dir_fold (acc : option (gmap string FGitSourceControlState))
  (Result : string * string) :=
  match acc with
  | Some States => ParseDirectoryStatus_step E lfs States Result
  | None => None
  end.

Lemma ParseDirectoryStatus_fold_None (l : list (string * string)) :
  foldl dir_fold None l = None.
Proof. induction l as [|R l IH]; [reflexivity | exact IH]. Qed.

Lemma ParseDirectoryStatus_fold_unreadable (l : list (string * string))
  (Result : string * string) :
  Result ∈ l -> (String.length Result.2 < 2)%nat ->
  forall OutStates, foldl dir_fold (Some OutStates) l = None.
Proof.
  intros Hin Hlen. induction l as [|R l IH]; intros OutStates.
  - apply elem_of_nil in Hin. contradiction.
  - cbn [foldl].
    apply elem_of_cons in Hin as [<-|Hin].
    + replace (dir_fold (Some OutStates) Result) with
        (@None (gmap string FGitSourceControlState));
        [apply ParseDirectoryStatus_fold_None|].
      unfold dir_fold, ParseDirectoryStatus_step.
      destruct (FGitStatusParser Result.2) as [p|] eqn:Hp; [|reflexivity].
      assert (H2 : (2 <= String.length Result.2)%nat)
        by (apply FGitStatusParser_defined; eauto).
      lia.
    + destruct (dir_fold (Some OutStates) R) as [S1|];
        [apply IH; exact Hin | apply ParseDirectoryStatus_fold_None].
Qed.

Lemma ParseDirectoryStatus_step_at (OutStates : gmap string
  FGitSourceControlState) (Key Line : string) (p : StatusParser.t) :
  FGitStatusParser Line = Some p ->
  exists States,
    ParseDirectoryStatus_step E lfs OutStates (Key, Line) = Some States /\
    (forall File, File <> Key -> States !! File = OutStates !! File) /\
    States !! Key =
      if bool_decide (StatusParser.FileState p = EFileState.Deleted)
         || bool_decide (StatusParser.FileState p = EFileState.Missing)
         || bool_decide (read_TreeState E p = ETreeState.Untracked)
      then
        Some (set_State (set_TreeState (read_TreeState E p))
                (set_State (set_FileState (StatusParser.FileState p))
                   (if negb lfs
                    then set_State (set_LockState ELockState.Unlockable)
                           (NewSourceControlState E Key)
                    else NewSourceControlState E Key)))
      else OutStates !! Key.
Proof.
  intros Hp. unfold ParseDirectoryStatus_step. cbn [fst snd]. rewrite Hp.
  destruct (_ || _); eexists; (split; [reflexivity|]); split.
  - intros File Hne. apply lookup_insert_ne. congruence.
  - apply lookup_insert_eq.
  - reflexivity.
  - reflexivity.
Qed.

Lemma ParseDirectoryStatus_fold_at (l : list (string * string)) :
  NoDup l.*1 ->
  (forall Result, Result ∈ l -> (2 <= String.length Result.2)%nat) ->
  forall OutStates : gmap string FGitSourceControlState,
    exists States : gmap string FGitSourceControlState,
      foldl dir_fold (Some OutStates) l = Some States /\
      (forall Key, Key ∉ l.*1 -> States !! Key = OutStates !! Key) /\
      (forall Key Line, (Key, Line) ∈ l ->
         exists States1,
           ParseDirectoryStatus_step E lfs OutStates (Key, Line)
             = Some States1 /\
           States !! Key = States1 !! Key).
Proof.
  induction l as [|[K L] l IH]; intros Hnd Hl OutStates.
  - exists OutStates. split; [reflexivity|]. split; [reflexivity|].
    intros Key Line Hin. apply elem_of_nil in Hin. contradiction.
  - cbn [fmap list_fmap fst] in Hnd. apply NoDup_cons in Hnd as [HK Hnd].
    assert (Hlen : (2 <= String.length L)%nat) by (apply (Hl (K, L)); left).
    destruct (proj2 (FGitStatusParser_defined L) Hlen) as [p Hp].
    destruct (ParseDirectoryStatus_step_at OutStates K L p Hp)
      as (S1 & HS1 & Hframe1 & Hat1).
    destruct (IH Hnd (fun R HR => Hl R (list_elem_of_further _ _ _ HR)) S1)
      as (States & HStates & Hframe & Hat).
    exists States. cbn [foldl]. unfold dir_fold at 2. rewrite HS1.
    split; [exact HStates|]. split.
    + intros Key Hnot. cbn [fmap list_fmap fst] in Hnot.
      apply not_elem_of_cons in Hnot as [Hne Hnot].
      rewrite Hframe by exact Hnot. apply Hframe1. exact Hne.
    + intros Key Line Hin. apply elem_of_cons in Hin as [Heq|Hin].
      * injection Heq as -> ->. exists S1. split; [exact HS1|].
        apply Hframe. exact HK.
      * assert (Hne : Key <> K).
        { intros ->. apply HK. apply list_elem_of_fmap.
          exists (K, Line). split; [reflexivity | exact Hin]. }
        destruct (Hat Key Line Hin) as (S2 & HS2 & Hat2).
        assert (Hlen2 : (2 <= String.length Line)%nat)
          by (apply (Hl (Key, Line)); right; exact Hin).
        destruct (proj2 (FGitStatusParser_defined Line) Hlen2) as [q Hq].
        destruct (ParseDirectoryStatus_step_at S1 Key Line q Hq)
          as (S2' & HS2' & _ & Hat2').
        destruct (ParseDirectoryStatus_step_at OutStates Key Line q Hq)
          as (S3 & HS3 & _ & Hat3).
        exists S3. split; [exact HS3|].
        rewrite Hat2. rewrite HS2 in HS2'. injection HS2' as ->.
        rewrite Hat2', Hat3. rewrite (Hframe1 Key Hne). reflexivity.
Qed.

End DirectoryStatus.

(** X13: [ParseDirectoryStatusResult] has a result exactly when every
    status line has the two characters the status parser reads.  In the
    result, a path without status line keeps the entry it had (or stays
    absent); a path whose line is parsed as Deleted, as Missing or as
    Untracked gets a fresh entry, which replaces the one it had: the
    parsed file and tree state on the default state of a new entry, with
    LockState=Unlockable when locking is off; a path with any other line
    keeps the entry it had. *)
Theorem ParseDirectoryStatusResult_entries (E : Env)
  (InUsingLfsLocking : bool) (InResults : gmap string string)
  (OutStates : gmap string FGitSourceControlState) :
  ((exists Key Line, InResults !! Key = Some Line
                     /\ (String.length Line < 2)%nat) ->
   ParseDirectoryStatusResult E InUsingLfsLocking InResults OutStates = None)
  /\
  (readable InResults ->
   exists States,
     ParseDirectoryStatusResult E InUsingLfsLocking InResults OutStates
       = Some States /\
     (forall Key, InResults !! Key = None ->
                  States !! Key = OutStates !! Key) /\
     (forall Key Line, InResults !! Key = Some Line ->
        exists p, FGitStatusParser Line = Some p /\
          States !! Key =
            if bool_decide (StatusParser.FileState p = EFileState.Deleted)
               || bool_decide (StatusParser.FileState p = EFileState.Missing)
               || bool_decide (read_TreeState E p = ETreeState.Untracked)
            then
              Some (set_State (set_TreeState (read_TreeState E p))
                      (set_State (set_FileState (StatusParser.FileState p))
                         (if negb InUsingLfsLocking
                          then set_State
                                 (set_LockState ELockState.Unlockable)
                                 (NewSourceControlState E Key)
                          else NewSourceControlState E Key)))
            else OutStates !! Key)).
Proof.
  split.
  - intros (Key & Line & HKey & Hlen). unfold ParseDirectoryStatusResult.
    apply (ParseDirectoryStatus_fold_unreadable E InUsingLfsLocking _
             (Key, Line)); [|exact Hlen].
    apply elem_of_map_to_list. exact HKey.
  - intros Hread.
    destruct (ParseDirectoryStatus_fold_at E InUsingLfsLocking
                (map_to_list InResults) (NoDup_fst_map_to_list InResults))
      with (OutStates := OutStates) as (States & HStates & Hframe & Hat).
    { intros [k v] Hk. apply elem_of_map_to_list in Hk. exact (Hread k v Hk). }
    exists States. split; [exact HStates|]. split.
    + intros Key Habs. apply Hframe. intros Hin.
      apply list_elem_of_fmap in Hin as ([k v] & -> & Hkv).
      apply elem_of_map_to_list in Hkv. simpl in Habs. congruence.
    + intros Key Line HKey.
      destruct (proj2 (FGitStatusParser_defined Line) (Hread _ _ HKey))
        as [p Hp].
      exists p. split; [exact Hp|].
      destruct (Hat Key Line) as (S1 & HS1 & ->);
        [apply elem_of_map_to_list; exact HKey|].
      destruct (ParseDirectoryStatus_step_at E InUsingLfsLocking OutStates
                  Key Line p Hp) as (S1' & HS1' & _ & Hat1).
      rewrite HS1 in HS1'. injection HS1' as ->. exact Hat1.
Qed.

Lemma ParseDirectoryStatusResult_entries_witness :
  exists States,
    ParseDirectoryStatusResult quiet_env false
      {[ "Gone.uasset" := " D Gone.uasset"; "Kept.uasset" := " M Kept.uasset" ]}
      ∅ = Some States /\
    States !! "Kept.uasset" = None /\
    (FileState ∘ State) <$> States !! "Gone.uasset" = Some EFileState.Missing /\
    ParseDirectoryStatusResult quiet_env false {[ "Short" := "M" ]} ∅ = None.
Proof.
  destruct (ParseDirectoryStatusResult_entries quiet_env false
              {[ "Gone.uasset" := " D Gone.uasset";
                 "Kept.uasset" := " M Kept.uasset" ]} ∅) as [_ H].
  destruct H as (States & HStates & _ & Hat).
  { intros Key Line HKey.
    apply lookup_insert_Some in HKey as [[_ <-]|[_ HKey]]; [simpl; lia|].
    apply lookup_singleton_Some in HKey as [_ <-]. simpl; lia. }
  exists States. split; [exact HStates|].
  destruct (Hat "Kept.uasset" " M Kept.uasset" eq_refl) as (p & Hp & Hkept).
  injection Hp as <-.
  destruct (Hat "Gone.uasset" " D Gone.uasset" eq_refl) as (q & Hq & Hgone).
  injection Hq as <-.
  split; [exact Hkept|]. split; [rewrite Hgone; reflexivity|].
  apply (ParseDirectoryStatusResult_entries quiet_env false
           {[ "Short" := "M" ]} ∅).
  exists "Short", "M". split; [reflexivity | simpl; lia].
Defined.

(** ** Listed files with a status line *)

Section ListedFiles.

Context (E : Env) (bin root : string) (lfs : bool).

Lemma RunGetConflictStatus_keeps (File : string)
  (s s' : FGitSourceControlState) (w w' : World) :
  RunGetConflictStatus E bin root File s w = (s', w') ->
  State s' = State s /\ LocalFilename s' = LocalFilename s
  /\ w' = set_Trace
            (Trace w ++ [mkCmdLine "ls-files" bin root ["--unmerged"] [File]])
            w.
Proof.
  unfold RunGetConflictStatus. unfold_M. step_cmd.
  destruct R as [|R0 [|R1 [|R2 [|R3 R]]]];
    try destruct (_ =? _)%Z; intros [= <- <-]; auto.
Qed.

Lemma FileStatus_of_found (File Line : string) (p : StatusParser.t)
  (Results : gmap string string) (s : FGitSourceControlState) (w : World) :
  Results !! File = Some Line ->
  FGitStatusParser Line = Some p ->
  exists (s' : FGitSourceControlState) (w' : World),
    FileStatus_of E bin root File Results s w = (Some s', w') /\
    State s'
    = set_TreeState (read_TreeState E p)
        (set_FileState (StatusParser.FileState p) (State s)) /\
    LocalFilename s' = LocalFilename s.
Proof.
  intros HLine Hp. unfold FileStatus_of. rewrite HLine, Hp.
  destruct (IsConflicted _); unfold_M; [|eauto].
  match goal with
  | |- context [RunGetConflictStatus E bin root File ?s0 w] =>
      destruct (RunGetConflictStatus E bin root File s0 w) as [s1 w1] eqn:Hc
  end.
  apply RunGetConflictStatus_keeps in Hc as (HS & HL & _).
  exists s1, w1. split; [reflexivity|]. rewrite HS, HL. auto.
Qed.

Lemma LockStatus_of_off (File : string) (Locked : gmap string string)
  (bChecked : bool) (s : FGitSourceControlState) (w : World) :
  lfs = false \/ IsFileLFSLockable E File = false ->
  LockStatus_of E bin root File lfs Locked bChecked s w
  = ((set_State (set_LockState ELockState.Unlockable) s, Locked, bChecked),
     w).
Proof.
  unfold LockStatus_of. intros [-> | Hno]; [reflexivity|].
  rewrite Hno. destruct (negb lfs); reflexivity.
Qed.

Lemma LockStatus_of_keeps_name (File : string)
  (Locked Locked' : gmap string string) (bChecked bChecked' : bool)
  (s s' : FGitSourceControlState) (w w' : World) :
  LockStatus_of E bin root File lfs Locked bChecked s w
  = ((s', Locked', bChecked'), w') ->
  LocalFilename s' = LocalFilename s.
Proof.
  unfold LockStatus_of. unfold_M.
  destruct (negb lfs); [intros [= <- <- <- <-]; reflexivity|].
  destruct (IsFileLFSLockable E File);
    [|intros [= <- <- <- <-]; reflexivity].
  destruct (negb bChecked).
  - destruct (GetAllLocks E root bin [] Locked false w)
      as [[[r Errs] Locks] w1].
    destruct (Locks !! File) as [User|];
      [destruct (FString.Equals (ProviderLockUser E) User)|];
      intros [= <- <- <- <-]; reflexivity.
  - destruct (Locked !! File) as [User|];
      [destruct (FString.Equals (ProviderLockUser E) User)|];
      intros [= <- <- <- <-]; reflexivity.
Qed.

(** What the loop has established for [File] once its pass is over. *)
Let listed (File : string) (p : StatusParser.t)
  (s : FGitSourceControlState) : Prop :=
  LocalFilename s = File
  /\ FileState (State s) = StatusParser.FileState p
  /\ TreeState (State s) = read_TreeState E p
  /\ (lfs = false \/ IsFileLFSLockable E File = false ->
      LockState (State s) = ELockState.Unlockable
      /\ LockUser (State s) = LockUser (DefaultGitState E)).

Lemma ParseFileStatus_step_found (File Line : string) (p : StatusParser.t)
  (L L' : FileStatusLoop) (w w' : World) :
  loop_Results L !! File = Some Line ->
  FGitStatusParser Line = Some p ->
  ParseFileStatus_step E bin root lfs File L w = (Some L', w') ->
  exists s, loop_OutStates L' !! File = Some s /\ listed File p s.
Proof.
  intros HLine Hp. unfold ParseFileStatus_step. unfold_M.
  match goal with
  | |- context [FileStatus_of E bin root File (loop_Results L) ?s0 w] =>
      destruct (FileStatus_of_found File Line p (loop_Results L) s0 w
                  HLine Hp) as (s1 & w1 & -> & HS1 & HL1)
  end.
  destruct (LockStatus_of E bin root File lfs (loop_LockedFiles L)
              (loop_bCheckedLockedFiles L) s1 w1)
    as [[[s2 Locked2] bChecked2] w2] eqn:Hlk.
  intros [= <- <-]. cbn [loop_OutStates]. rewrite lookup_insert_eq.
  exists s2. split; [reflexivity|].
  destruct (LockStatus_of_keeps E bin root lfs _ _ _ _ _ _ _ _ _ Hlk)
    as [HF HT].
  pose proof (LockStatus_of_keeps_name _ _ _ _ _ _ _ _ _ Hlk) as HN.
  unfold listed. rewrite HN, HL1, HF, HT, HS1.
  refine (conj eq_refl (conj eq_refl (conj eq_refl _))).
  intros Hoff. rewrite LockStatus_of_off in Hlk by exact Hoff.
  injection Hlk as <- _ _ _. simpl. rewrite HS1. split; reflexivity.
Qed.

Lemma ParseFileStatus_step_other (F File : string) (L L' : FileStatusLoop)
  (w w' : World) :
  F <> File ->
  ParseFileStatus_step E bin root lfs F L w = (Some L', w') ->
  loop_Results L' !! File = loop_Results L !! File
  /\ loop_OutStates L' !! File = loop_OutStates L !! File.
Proof.
  intros Hne. unfold ParseFileStatus_step. unfold_M.
  match goal with
  | |- context [FileStatus_of E bin root F (loop_Results L) ?s0 w] =>
      destruct (FileStatus_of E bin root F (loop_Results L) s0 w)
        as [[s1|] w1]; [|discriminate]
  end.
  destruct (LockStatus_of E bin root F lfs (loop_LockedFiles L)
              (loop_bCheckedLockedFiles L) s1 w1)
    as [[[s2 Locked2] bChecked2] w2].
  intros [= <- <-]. cbn [loop_Results loop_OutStates].
  split; [apply lookup_delete_ne | apply lookup_insert_ne]; exact Hne.
Qed.

Lemma ParseFileStatus_loop_found (File Line : string) (p : StatusParser.t)
  (InFiles : list string) :
  FGitStatusParser Line = Some p ->
  NoDup InFiles ->
  forall (L L' : FileStatusLoop) (w w' : World),
    ParseFileStatus_loop E bin root lfs InFiles L w = (Some L', w') ->
    ((File ∈ InFiles) /\ loop_Results L !! File = Some Line)
    \/ ((File ∉ InFiles) /\ loop_Results L !! File = None
        /\ exists s, loop_OutStates L !! File = Some s /\ listed File p s) ->
    loop_Results L' !! File = None
    /\ exists s, loop_OutStates L' !! File = Some s /\ listed File p s.
Proof.
  intros Hp. induction InFiles as [|F InFiles IH]; intros Hnd L L' w w'.
  - simpl. unfold_M. intros [= <- <-] [[Hin _]|(_ & Hres & Hs)].
    + apply elem_of_nil in Hin. contradiction.
    + auto.
  - apply NoDup_cons in Hnd as [HF Hnd]. simpl. unfold_M.
    destruct (ParseFileStatus_step E bin root lfs F L w) as [[L1|] w1]
      eqn:Hstep; [|discriminate].
    intros Hloop Hcase. apply (IH Hnd _ _ _ _ Hloop).
    destruct (decide (F = File)) as [->|Hne].
    + right. split; [exact HF|].
      destruct Hcase as [[_ HLine]|[Hnot _]];
        [|exfalso; apply Hnot; left].
      split.
      * revert Hstep. unfold ParseFileStatus_step. unfold_M.
        match goal with
        | |- context [FileStatus_of E bin root File (loop_Results L) ?s0 w] =>
            destruct (FileStatus_of E bin root File (loop_Results L) s0 w)
              as [[s1|] w2]; [|discriminate]
        end.
        destruct (LockStatus_of E bin root File lfs (loop_LockedFiles L)
                    (loop_bCheckedLockedFiles L) s1 w2)
          as [[[s2 Locked2] bChecked2] w3].
        intros [= <- <-]. apply lookup_delete_eq.
      * apply (ParseFileStatus_step_found File Line p L L1 w w1 HLine Hp Hstep).
    + destruct (ParseFileStatus_step_other F File L L1 w w1 Hne Hstep)
        as [HR HO].
      rewrite HR, HO.
      destruct Hcase as [[Hin HLine]|(Hnot & Hres & Hs)].
      * left. split; [|exact HLine].
        apply elem_of_cons in Hin as [->|Hin]; [contradiction | exact Hin].
      * right. split; [|split; assumption].
        intros Hin. apply Hnot. right. exact Hin.
Qed.

End ListedFiles.

(** X14: with the module available and status lines the parser can read,
    a file of the listed set that has a status line gets, in the result
    of [ParseFileStatusResult], an entry under its own name whose file
    state and tree state are the ones the status parser reads from that
    line; neither the lock pass nor the pass over the remaining status
    lines changes them.  When locking is off, or the file is of no
    lockable type, the entry is Unlockable and has the lock user of a new
    entry. *)
Theorem ParseFileStatusResult_listed (E : Env) (InPathToGitBinary
  InRepositoryRoot : string) (InUsingLfsLocking : bool)
  (InFiles : list string) (InResults : gmap string string)
  (OutStates : gmap string FGitSourceControlState) (w : World)
  (File Line : string) (p : StatusParser.t) :
  ModuleAvailable E = true ->
  readable InResults ->
  NoDup InFiles ->
  File ∈ InFiles ->
  InResults !! File = Some Line ->
  FGitStatusParser Line = Some p ->
  exists (States : gmap string FGitSourceControlState) (w' : World)
         (s : FGitSourceControlState),
    ParseFileStatusResult E InPathToGitBinary InRepositoryRoot
      InUsingLfsLocking InFiles InResults OutStates w
    = (Some States, w')
    /\ States !! File = Some s
    /\ LocalFilename s = File
    /\ FileState (State s) = StatusParser.FileState p
    /\ TreeState (State s) = read_TreeState E p
    /\ (InUsingLfsLocking = false \/ IsFileLFSLockable E File = false ->
        LockState (State s) = ELockState.Unlockable
        /\ LockUser (State s) = LockUser (DefaultGitState E)).
Proof.
  intros Hmod Hread Hnd Hin HLine Hp.
  unfold ParseFileStatusResult. rewrite Hmod. simpl. unfold_M.
  destruct (ParseFileStatus_loop_defined E InPathToGitBinary InRepositoryRoot
              InUsingLfsLocking InFiles
              (mkFileStatusLoop InResults ∅ false OutStates) w Hread)
    as (L & w1 & Hloop & HreadL).
  rewrite Hloop.
  assert (Hall : forall Result,
             Result ∈ map_to_list (loop_Results L) ->
             (2 <= String.length Result.2)%nat).
  { intros [k v] Hk. apply elem_of_map_to_list in Hk. exact (HreadL k v Hk). }
  destruct (ParseDirectoryStatus_fold E InUsingLfsLocking _ Hall
              (loop_OutStates L)) as (States & HStates & Hsame).
  unfold ParseDirectoryStatusResult. rewrite HStates.
  destruct (ParseFileStatus_loop_found E InPathToGitBinary InRepositoryRoot
              InUsingLfsLocking File Line p InFiles Hp Hnd _ _ _ _ Hloop
              (or_introl (conj Hin HLine)))
    as (HabsL & s & Hs & HN & HF & HT & HLk).
  exists States, w1, s. split; [reflexivity|].
  rewrite Hsame; [auto|].
  intros [k v] Hk. apply elem_of_map_to_list in Hk. simpl. intros ->.
  congruence.
Qed.

Lemma ParseFileStatusResult_listed_witness :
  exists (States : gmap string FGitSourceControlState) (w' : World)
         (s : FGitSourceControlState),
    ParseFileStatusResult disk_env "git" "/repo" false ["A"; "B"]
      {[ "A" := "M  A" ]} ∅ empty_world
    = (Some States, w')
    /\ States !! "A" = Some s
    /\ LocalFilename s = "A"
    /\ FileState (State s) = EFileState.Modified
    /\ TreeState (State s) = ETreeState.Staged
    /\ LockState (State s) = ELockState.Unlockable.
Proof.
  destruct (ParseFileStatusResult_listed disk_env "git" "/repo" false
              ["A"; "B"] {[ "A" := "M  A" ]} ∅ empty_world "A" "M  A"
              (StatusParser.mk EFileState.Modified (Some ETreeState.Staged)))
    as (States & w' & s & Hrun & Hs & HN & HF & HT & HL).
  - reflexivity.
  - intros Key Line HKey.
    apply lookup_singleton_Some in HKey as [_ <-]. simpl. lia.
  - apply NoDup_ListNoDup. repeat constructor; simpl; intuition discriminate.
  - left.
  - reflexivity.
  - reflexivity.
  - exists States, w', s. repeat split; try assumption.
    apply HL. left. reflexivity.
Defined.

(** ** Lock annotation within the cache window *)

Section CachedLocks.

Context (E : Env) (bin root : string).

(** The lock cache of [w'] is that of [w], and the launches since [w]
    are conflict lookups. *)
Let same_cache (w w' : World) : Prop :=
  LastUpdated w' = LastUpdated w
  /\ LockedFiles w' = LockedFiles w
  /\ ReadOnlyLog w' = ReadOnlyLog w
  /\ exists extra,
       Trace w' = Trace w ++ extra
       /\ Forall (fun cl => Command cl = "ls-files") extra.

(** The lock members of an entry follow the lock list [Locks]. *)
Let annotated (Locks : gmap string string) (File : string)
  (s : FGitSourceControlState) : Prop :=
  match Locks !! File with
  | Some User =>
      LockUser (State s) = User
      /\ LockState (State s)
         = (if FString.Equals (ProviderLockUser E) User
            then ELockState.Locked else ELockState.LockedOther)
  | None => LockState (State s) = ELockState.NotLocked
  end.

(** The lock list of the loop is unread, or is the cache. *)
Let in_step (L : FileStatusLoop) (w : World) : Prop :=
  loop_bCheckedLockedFiles L = false \/ loop_LockedFiles L = LockedFiles w.

Lemma same_cache_refl (w : World) : same_cache w w.
Proof.
  repeat split. exists []. split; [symmetry; apply app_nil_r | constructor].
Qed.

Lemma same_cache_trans (w1 w2 w3 : World) :
  same_cache w1 w2 -> same_cache w2 w3 -> same_cache w1 w3.
Proof.
  intros (HU & HL & HR & e1 & HT & He1) (HU' & HL' & HR' & e2 & HT' & He2).
  split; [congruence|]. split; [congruence|]. split; [congruence|].
  exists (e1 ++ e2). split; [rewrite HT', HT, app_assoc; reflexivity|].
  apply Forall_app. auto.
Qed.

Lemma FileStatus_of_same_cache (File : string) (Results : gmap string string)
  (s : FGitSourceControlState) (o : option FGitSourceControlState)
  (w w' : World) :
  FileStatus_of E bin root File Results s w = (o, w') -> same_cache w w'.
Proof.
  unfold FileStatus_of.
  destruct (Results !! File) as [Line|].
  - destruct (FGitStatusParser Line) as [p|];
      [|intros [= <- <-]; apply same_cache_refl].
    destruct (IsConflicted _); unfold_M;
      [|intros [= <- <-]; apply same_cache_refl].
    match goal with
    | |- context [RunGetConflictStatus E bin root File ?s0 w] =>
        destruct (RunGetConflictStatus E bin root File s0 w) as [s1 w1] eqn:Hc
    end.
    apply RunGetConflictStatus_keeps in Hc as (_ & _ & ->).
    intros [= <- <-]. repeat split.
    eexists. split; [reflexivity|]. repeat constructor.
  - destruct (FileExists E File); intros [= <- <-]; apply same_cache_refl.
Qed.

Lemma LockStatus_of_fresh (File : string) (Locked Locked' : gmap string string)
  (bChecked bChecked' : bool) (s s' : FGitSourceControlState)
  (w w' : World) :
  (Now E - LastUpdated w <= CacheLimit)%Z ->
  bChecked = false \/ Locked = LockedFiles w ->
  LockStatus_of E bin root File true Locked bChecked s w
  = ((s', Locked', bChecked'), w') ->
  w' = w
  /\ (bChecked' = false \/ Locked' = LockedFiles w)
  /\ (IsFileLFSLockable E File = true -> annotated (LockedFiles w) File s').
Proof.
  intros Hfresh Hinv. unfold LockStatus_of. unfold_M. cbn [negb].
  destruct (IsFileLFSLockable E File);
    [|intros [= <- <- <- <-]; split; [reflexivity|];
      split; [exact Hinv | discriminate]].
  unfold annotated.
  destruct bChecked; cbn [negb].
  - destruct Hinv as [Hinv| ->]; [discriminate|].
    destruct (LockedFiles w !! File) as [User|];
      [destruct (FString.Equals (ProviderLockUser E) User)|];
      intros [= <- <- <- <-]; split; try reflexivity;
      (split; [right; reflexivity|]); intros _; cbn; auto.
  - rewrite GetAllLocks_fresh by exact Hfresh.
    destruct (LockedFiles w !! File) as [User|];
      [destruct (FString.Equals (ProviderLockUser E) User)|];
      intros [= <- <- <- <-]; split; try reflexivity;
      (split; [right; reflexivity|]); intros _; cbn; auto.
Qed.

Lemma ParseFileStatus_step_fresh (F : string) (L L' : FileStatusLoop)
  (w w' : World) :
  (Now E - LastUpdated w <= CacheLimit)%Z ->
  in_step L w ->
  ParseFileStatus_step E bin root true F L w = (Some L', w') ->
  same_cache w w' /\ in_step L' w'
  /\ loop_Results L' !! F = None
  /\ (IsFileLFSLockable E F = true ->
      exists s, loop_OutStates L' !! F = Some s
                /\ annotated (LockedFiles w) F s).
Proof.
  intros Hfresh Hinv. unfold ParseFileStatus_step. unfold_M.
  match goal with
  | |- context [FileStatus_of E bin root F (loop_Results L) ?s0 w] =>
      destruct (FileStatus_of E bin root F (loop_Results L) s0 w)
        as [[s1|] w1] eqn:Hfs; [|discriminate]
  end.
  apply FileStatus_of_same_cache in Hfs.
  pose proof Hfs as (HU & HLk & _).
  destruct (LockStatus_of E bin root F true (loop_LockedFiles L)
              (loop_bCheckedLockedFiles L) s1 w1)
    as [[[s2 Locked2] bChecked2] w2] eqn:Hlock.
  apply LockStatus_of_fresh in Hlock as (-> & Hinv2 & Hann);
    [| rewrite HU; exact Hfresh
     | unfold in_step in Hinv; rewrite HLk; exact Hinv].
  intros [= <- <-].
  cbn [loop_Results loop_OutStates loop_LockedFiles loop_bCheckedLockedFiles].
  split; [exact Hfs|]. split; [exact Hinv2|].
  split; [apply lookup_delete_eq|].
  intros Hlockable. rewrite lookup_insert_eq. eexists. split; [reflexivity|].
  rewrite <- HLk. apply Hann, Hlockable.
Qed.

Lemma ParseFileStatus_loop_fresh (InFiles : list string) :
  forall (L L' : FileStatusLoop) (w w' : World),
    (Now E - LastUpdated w <= CacheLimit)%Z ->
    in_step L w ->
    ParseFileStatus_loop E bin root true InFiles L w = (Some L', w') ->
    same_cache w w'
    /\ forall File : string,
         IsFileLFSLockable E File = true ->
         File ∈ InFiles
         \/ (loop_Results L !! File = None
             /\ exists s, loop_OutStates L !! File = Some s
                          /\ annotated (LockedFiles w) File s) ->
         loop_Results L' !! File = None
         /\ exists s, loop_OutStates L' !! File = Some s
                      /\ annotated (LockedFiles w) File s.
Proof.
  induction InFiles as [|F InFiles IH]; intros L L' w w' Hfresh Hinv.
  - simpl. unfold_M. intros [= <- <-]. split; [apply same_cache_refl|].
    intros File _ [Hin|Hs];
      [apply elem_of_nil in Hin; contradiction | exact Hs].
  - simpl. unfold_M.
    destruct (ParseFileStatus_step E bin root true F L w) as [[L1|] w1]
      eqn:Hstep; [|discriminate].
    intros Hloop.
    destruct (ParseFileStatus_step_fresh F L L1 w w1 Hfresh Hinv Hstep)
      as (Hsame1 & Hinv1 & Hgone & Hann).
    pose proof Hsame1 as (HU & HLk & _).
    destruct (IH L1 L' w1 w') as [Hsame2 Hpost];
      [rewrite HU; exact Hfresh | exact Hinv1 | exact Hloop |].
    split; [exact (same_cache_trans _ _ _ Hsame1 Hsame2)|].
    intros File Hlockable Hcase. rewrite HLk in Hpost.
    apply (Hpost File Hlockable).
    destruct (decide (F = File)) as [->|Hne].
    + right. split; [exact Hgone | apply Hann, Hlockable].
    + destruct (ParseFileStatus_step_other E bin root true F File L L1 w w1
                  Hne Hstep) as [HR HO].
      destruct Hcase as [Hin|[Hres Hs]].
      * left. apply elem_of_cons in Hin as [->|Hin];
          [contradiction | exact Hin].
      * right. rewrite HR, HO. split; assumption.
Qed.

End CachedLocks.

(** X15: with locking on and a lock cache refreshed at most 30 seconds
    ago, [ParseFileStatusResult] reads the locks from the cache: the lock
    list is not queried (the only launches are the conflict lookups
    "ls-files"), the cache, its time stamp and the log of read-only flags
    stay as they are, and every listed file of a lockable type gets an
    entry that is NotLocked when the cache has no lock for it, Locked when
    the cached owner is the user of the provider (ignoring case), and
    LockedOther with that owner as lock user otherwise. *)
Theorem ParseFileStatusResult_cached_locks (E : Env) (InPathToGitBinary
  InRepositoryRoot : string) (InFiles : list string)
  (InResults : gmap string string)
  (OutStates : gmap string FGitSourceControlState) (w : World) :
  ModuleAvailable E = true ->
  readable InResults ->
  (Now E - LastUpdated w <= CacheLimit)%Z ->
  exists (States : gmap string FGitSourceControlState) (w' : World),
    ParseFileStatusResult E InPathToGitBinary InRepositoryRoot true InFiles
      InResults OutStates w
    = (Some States, w')
    /\ LastUpdated w' = LastUpdated w
    /\ LockedFiles w' = LockedFiles w
    /\ ReadOnlyLog w' = ReadOnlyLog w
    /\ (exists extra,
          Trace w' = Trace w ++ extra
          /\ Forall (fun cl => Command cl = "ls-files") extra)
    /\ forall File : string,
         File ∈ InFiles -> IsFileLFSLockable E File = true ->
         exists s : FGitSourceControlState,
           States !! File = Some s
           /\ match LockedFiles w !! File with
              | Some User =>
                  LockUser (State s) = User
                  /\ LockState (State s)
                     = (if FString.Equals (ProviderLockUser E) User
                        then ELockState.Locked else ELockState.LockedOther)
              | None => LockState (State s) = ELockState.NotLocked
              end.
Proof.
  intros Hmod Hread Hfresh.
  unfold ParseFileStatusResult. rewrite Hmod. simpl. unfold_M.
  destruct (ParseFileStatus_loop_defined E InPathToGitBinary InRepositoryRoot
              true InFiles (mkFileStatusLoop InResults ∅ false OutStates) w
              Hread) as (L & w1 & Hloop & HreadL).
  rewrite Hloop.
  assert (Hall : forall Result,
             Result ∈ map_to_list (loop_Results L) ->
             (2 <= String.length Result.2)%nat).
  { intros [k v] Hk. apply elem_of_map_to_list in Hk. exact (HreadL k v Hk). }
  destruct (ParseDirectoryStatus_fold E true _ Hall (loop_OutStates L))
    as (States & HStates & Hsame).
  unfold ParseDirectoryStatusResult. rewrite HStates.
  exists States, w1. split; [reflexivity|].
  destruct (ParseFileStatus_loop_fresh E InPathToGitBinary InRepositoryRoot
              InFiles (mkFileStatusLoop InResults ∅ false OutStates) L w w1
              Hfresh (or_introl eq_refl) Hloop)
    as [(HU & HL & HR & HT) Hcache].
  repeat (split; [assumption|]).
  intros File Hin Hlockable.
  destruct (Hcache File Hlockable (or_introl Hin))
    as (Hgone & s & Hs & Hann).
  exists s. split; [|exact Hann].
  rewrite Hsame; [exact Hs|].
  intros [k v] Hk. apply elem_of_map_to_list in Hk. simpl. intros ->.
  congruence.
Qed.

Lemma ParseFileStatusResult_cached_locks_witness :
  exists (States : gmap string FGitSourceControlState) (w' : World),
    ParseFileStatusResult quiet_env "git" "/repo" true
      ["/repo/Content/b.uasset"; "/repo/Content/c.uasset"] ∅ ∅ cached_world
    = (Some States, w')
    /\ LockedFiles w' = LockedFiles cached_world
    /\ (exists s, States !! "/repo/Content/b.uasset" = Some s
                  /\ LockUser (State s) = "alice"
                  /\ LockState (State s) = ELockState.LockedOther)
    /\ (exists s, States !! "/repo/Content/c.uasset" = Some s
                  /\ LockState (State s) = ELockState.NotLocked).
Proof.
  destruct (ParseFileStatusResult_cached_locks quiet_env "git" "/repo"
              ["/repo/Content/b.uasset"; "/repo/Content/c.uasset"] ∅ ∅
              cached_world)
    as (States & w' & Hrun & _ & HL & _ & _ & Hlocks).
  - reflexivity.
  - intros Key Line HKey. rewrite lookup_empty in HKey. discriminate.
  - vm_compute. discriminate.
  - exists States, w'. split; [exact Hrun|]. split; [exact HL|]. split.
    + destruct (Hlocks "/repo/Content/b.uasset") as (s & Hs & HU & HS);
        [apply list_elem_of_In; simpl; auto | reflexivity |].
      exists s. auto.
    + destruct (Hlocks "/repo/Content/c.uasset") as (s & Hs & HS);
        [apply list_elem_of_In; simpl; auto | reflexivity |].
      exists s. auto.
Defined.

(** ** Collecting the states of a map *)

Lemma CollectNewStates_of_states_foldl
  (l : list (string * FGitSourceControlState)) :
  NoDup l.*1 ->
  forall (OutResults : gmap string FGitState) (Key : string),
    foldl
      (fun (Results : gmap string FGitState)
           (InState : string * FGitSourceControlState) =>
         <[InState.1 := State InState.2]> Results)
      OutResults l !! Key
    = match (list_to_map l : gmap string FGitSourceControlState) !! Key with
      | Some s => Some (State s)
      | None => OutResults !! Key
      end.
Proof.
  induction l as [|[k v] l IH]; intros Hnd OutResults Key.
  - reflexivity.
  - cbn [fmap list_fmap fst] in Hnd. apply NoDup_cons in Hnd as [Hk Hnd].
    cbn [foldl list_to_map foldr fst snd uncurry]. rewrite (IH Hnd).
    destruct (decide (k = Key)) as [->|Hne].
    + rewrite !lookup_insert_eq.
      rewrite (not_elem_of_list_to_map_1 l Key Hk). reflexivity.
    + rewrite !lookup_insert_ne by exact Hne. reflexivity.
Qed.

(** X16: [CollectNewStates] from a map of states answers whether the map
    has an entry, and leaves in [OutResults] the composite state of every
    entry of the map under its key, over what [OutResults] held for the
    other keys. *)
Theorem CollectNewStates_of_states_union
  (InStates : gmap string FGitSourceControlState)
  (OutResults : gmap string FGitState) :
  CollectNewStates_of_states InStates OutResults
  = (negb (bool_decide (InStates = ∅)), (State <$> InStates) ∪ OutResults).
Proof.
  unfold CollectNewStates_of_states.
  destruct (decide (InStates = ∅)) as [->|Hne].
  - rewrite fmap_empty, (left_id_L ∅ (∪)). reflexivity.
  - rewrite (bool_decide_eq_false_2 (InStates = ∅)) by exact Hne.
    rewrite bool_decide_eq_false_2
      by (intros Hsize; apply Hne, map_size_empty_inv, Hsize).
    cbn [negb]. f_equal. apply map_eq. intros Key.
    rewrite CollectNewStates_of_states_foldl
      by apply NoDup_fst_map_to_list.
    rewrite list_to_map_to_list, lookup_union, lookup_fmap.
    destruct (InStates !! Key) as [s|]; cbn.
    + destruct (OutResults !! Key); reflexivity.
    + destruct (OutResults !! Key); reflexivity.
Qed.

(** ** Queries of the repository *)

Lemma split_cull_nonempty (delim : ascii) (s : string) :
  forall (cur : list ascii) (x : string),
    x ∈ FString.split_cull delim cur s -> x <> "".
Proof.
  assert (Hflush : forall (cur : list ascii) (k : list string) (x : string),
             (forall y, y ∈ k -> y <> "") ->
             x ∈ match cur with
                 | [] => k
                 | _ => string_of_list_ascii (rev cur) :: k
                 end -> x <> "").
  { intros cur k x Hk Hx. destruct cur as [|c cur]; [apply Hk, Hx|].
    apply elem_of_cons in Hx as [->|Hx]; [|apply Hk, Hx].
    destruct (rev (c :: cur)) as [|a l] eqn:Hrev; [|discriminate].
    apply (f_equal (@length ascii)) in Hrev.
    rewrite length_rev in Hrev. discriminate. }
  induction s as [|c s IH]; intros cur x Hx.
  - apply (Hflush cur [] x); [|exact Hx].
    intros y Hy. apply elem_of_nil in Hy. contradiction.
  - simpl in Hx. destruct (Ascii.eqb c delim).
    + apply (Hflush cur (FString.split_cull delim [] s) x); [|exact Hx].
      intros y Hy. apply (IH [] y Hy).
    + apply (IH _ _ Hx).
Qed.

Lemma first_message_nonempty (delim : ascii) (s : string) :
  (0 <? length (FString.ParseIntoArray delim s))%nat = true ->
  first_message (FString.ParseIntoArray delim s) <> "".
Proof.
  unfold first_message, FString.ParseIntoArray.
  destruct (FString.split_cull delim [] s) as [|x l] eqn:Hs;
    [discriminate|].
  intros _. apply (split_cull_nonempty delim s [] x). rewrite Hs. left.
Qed.

Lemma RunCommandInternal_lines (E : Env) (c b r : string)
  (p f : list string) (w : World) :
  exists out err : string,
    RunCommandInternal E c b r p f w
    = (((ReturnCode (ExecProcess E (Trace w) (mkCmdLine c b r p f)) =? 0)%Z,
        FString.ParseIntoArray FString.newline out,
        FString.ParseIntoArray FString.newline err),
       set_Trace (Trace w ++ [mkCmdLine c b r p f]) w).
Proof.
  unfold RunCommandInternal, RunCommandInternalRaw. unfold_M.
  destruct (_ && _); simpl; eauto.
Qed.

Ltac step_lines :=
  match goal with
  | |- context [RunCommandInternal ?E ?c ?b ?r ?p ?f ?w] =>
      let out := fresh "out" in
      let err := fresh "err" in
      destruct (RunCommandInternal_lines E c b r p f w) as (out & err & ->)
  end.

(** X17: [GetUserConfig] always launches the two queries, "config
    user.name" then "config user.email".  A failed name query empties
    both answers, whatever the e-mail query prints; a failed e-mail query
    empties the e-mail; and an answer that is not empty comes from
    queries that exited with 0. *)
Theorem GetUserConfig_sticky (E : Env) (InPathToGitBinary InRepositoryRoot
  : string) (w : World) :
  let name_query :=
    mkCmdLine "config" InPathToGitBinary InRepositoryRoot ["user.name"] [] in
  let email_query :=
    mkCmdLine "config" InPathToGitBinary InRepositoryRoot ["user.email"] [] in
  let name_code := ReturnCode (ExecProcess E (Trace w) name_query) in
  let email_code :=
    ReturnCode (ExecProcess E (Trace w ++ [name_query]) email_query) in
  exists (OutUserName OutUserEmail : string) (w' : World),
    GetUserConfig E InPathToGitBinary InRepositoryRoot w
    = ((OutUserName, OutUserEmail), w')
    /\ Trace w' = Trace w ++ [name_query; email_query]
    /\ (name_code <> 0%Z -> OutUserName = "" /\ OutUserEmail = "")
    /\ (email_code <> 0%Z -> OutUserEmail = "")
    /\ (OutUserName <> "" -> name_code = 0%Z)
    /\ (OutUserEmail <> "" -> name_code = 0%Z /\ email_code = 0%Z).
Proof.
  intros name_query email_query name_code email_code.
  unfold GetUserConfig. unfold_M. step_lines. step_lines.
  cbn [Trace set_Trace]. fold name_query email_query.
  fold name_code email_code.
  eexists _, _, _. split; [reflexivity|].
  split; [cbn [Trace set_Trace]; rewrite <- app_assoc; reflexivity|].
  destruct (Z.eqb_spec name_code 0) as [Hn|Hn];
    destruct (Z.eqb_spec email_code 0) as [He|He];
    cbn [andb];
    repeat split; intros; try congruence; try contradiction;
    try reflexivity.
Qed.

Lemma GetUserConfig_sticky_witness :
  GetUserConfig no_name_env "git" "/repo" empty_world
  = (("", ""),
     set_Trace [mkCmdLine "config" "git" "/repo" ["user.name"] [];
                mkCmdLine "config" "git" "/repo" ["user.email"] []]
       empty_world).
Proof.
  destruct (GetUserConfig_sticky no_name_env "git" "/repo" empty_world)
    as (name & email & w' & Hrun & _ & Hfail & _).
  destruct Hfail as [-> ->]; [vm_compute; discriminate|].
  vm_compute. reflexivity.
Defined.

(** X18: [GetBranchName] answers false only with [OutBranchName] left as
    it was, and true only with a name that is not empty.  With a branch
    name in the provider it launches nothing; otherwise it launches
    "symbolic-ref" alone, or "symbolic-ref" then "log", and a name found
    after "log" starts with "HEAD detached at ". *)
Theorem GetBranchName_outcome (E : Env) (H : Host) (InPathToGitBinary
  InRepositoryRoot OutBranchName : string) (w : World) :
  let symbolic_ref :=
    mkCmdLine "symbolic-ref" InPathToGitBinary InRepositoryRoot
      ["--short"; "--quiet"; "HEAD"] [] in
  let log :=
    mkCmdLine "log" InPathToGitBinary InRepositoryRoot
      ["-1"; format_short_hash] [] in
  exists (bResults : bool) (Name : string) (w' : World),
    GetBranchName E H InPathToGitBinary InRepositoryRoot OutBranchName w
    = ((bResults, Name), w')
    /\ (bResults = false -> Name = OutBranchName)
    /\ (bResults = true -> Name <> "")
    /\ (ModuleAvailable E = false -> bResults = false /\ w' = w)
    /\ (ModuleAvailable E = true -> ProviderBranchName H <> "" ->
        bResults = true /\ Name = ProviderBranchName H /\ w' = w)
    /\ (ModuleAvailable E = true -> ProviderBranchName H = "" ->
        Trace w' = Trace w ++ [symbolic_ref]
        \/ (Trace w' = Trace w ++ [symbolic_ref; log]
            /\ (bResults = true ->
                FString.StartsWithCS "HEAD detached at " Name = true))).
Proof.
  intros symbolic_ref log. unfold GetBranchName.
  destruct (ModuleAvailable E); cbn [negb].
  2: { eexists _, _, _. split; [reflexivity|].
       repeat split; intros; congruence. }
  destruct (ProviderBranchName H) as [|c Branch] eqn:HBranch;
    cbn [FString.IsEmpty negb].
  2: { eexists _, _, _. split; [reflexivity|].
       repeat split; intros; congruence. }
  unfold_M.
  change (RunCommand E "symbolic-ref" InPathToGitBinary InRepositoryRoot
            ["--short"; "--quiet"; "HEAD"] [] [] [] w)
    with (RunCommandInternal E "symbolic-ref" InPathToGitBinary
            InRepositoryRoot ["--short"; "--quiet"; "HEAD"] [] w).
  step_lines. fold symbolic_ref.
  destruct ((ReturnCode (ExecProcess E (Trace w) symbolic_ref) =? 0)%Z
            && (0 <? length (FString.ParseIntoArray FString.newline out))%nat)
    eqn:Hfirst.
  - apply andb_true_iff in Hfirst as [Hcode Hlines]. rewrite Hcode.
    eexists _, _, _. split; [reflexivity|].
    split; [discriminate|].
    split; [intros _; apply first_message_nonempty, Hlines|].
    split; [discriminate|]. split; [congruence|].
    intros _ _. left. reflexivity.
  - match goal with
    | |- context [RunCommand E "log" ?b ?r ?p [] ?o ?e ?w1] =>
        change (RunCommand E "log" b r p [] o e w1)
          with (RunCommandInternal E "log" b r p [] w1)
    end.
    step_lines. cbn [Trace set_Trace]. fold log.
    match goal with
    | |- context [(?code =? 0)%Z && (0 <? length ?lines)%nat] =>
        destruct ((code =? 0)%Z && (0 <? length lines)%nat) eqn:Hsecond
    end.
    + apply andb_true_iff in Hsecond as [Hcode Hlines]. rewrite Hcode.
      eexists _, _, _. split; [reflexivity|].
      split; [discriminate|].
      split; [intros _; discriminate|].
      split; [discriminate|]. split; [congruence|].
      intros _ _. right. cbn [Trace set_Trace].
      split; [rewrite <- app_assoc; reflexivity|]. intros _. reflexivity.
    + eexists _, _, _. split; [reflexivity|].
      split; [reflexivity|]. split; [discriminate|].
      split; [discriminate|]. split; [congruence|].
      intros _ _. right. cbn [Trace set_Trace].
      split; [rewrite <- app_assoc; reflexivity|]. discriminate.
Qed.

Lemma GetBranchName_outcome_witness :
  GetBranchName detached_env repo_host "git" "/repo" "old" empty_world
  = ((true, "HEAD detached at 1a2b3c4"),
     set_Trace
       [mkCmdLine "symbolic-ref" "git" "/repo"
          ["--short"; "--quiet"; "HEAD"] [];
        mkCmdLine "log" "git" "/repo" ["-1"; format_short_hash] []]
       empty_world).
Proof.
  destruct (GetBranchName_outcome detached_env repo_host "git" "/repo" "old"
              empty_world)
    as (b & Name & w' & Hrun & _ & _ & _ & _ & Hlaunch).
  destruct (Hlaunch eq_refl eq_refl) as [Hone|[Htwo _]];
    vm_compute; reflexivity.
Defined.

Lemma take_chars_app (a b : string) :
  FString.take_chars (String.length a) (a +:+ b) = a.
Proof.
  induction a as [|c a IH]; [destruct b; reflexivity|].
  change (String c a +:+ b) with (String c (a +:+ b)).
  simpl. rewrite IH. reflexivity.
Qed.

(** X19: when "git log -1" succeeds and its first line is a 40-character
    identifier, one character and a subject, [GetCommitInfo] answers the
    identifier and the subject; when the line has at most 40 characters
    it answers the whole line and an empty subject; when the command
    fails or prints nothing the two outputs stay as they were. *)
Theorem GetCommitInfo_split (E : Env) (InPathToGitBinary InRepositoryRoot
  OutCommitId OutCommitSummary : string) (w w' : World)
  (bResults : bool) (InfoMessages ErrorMessages : list string) :
  RunCommandInternal E "log" InPathToGitBinary InRepositoryRoot
    ["-1"; format_hash_subject] [] w
  = ((bResults, InfoMessages, ErrorMessages), w') ->
  (bResults = false \/ InfoMessages = [] ->
   GetCommitInfo E InPathToGitBinary InRepositoryRoot OutCommitId
     OutCommitSummary w
   = ((bResults, OutCommitId, OutCommitSummary), w'))
  /\ (forall (Id Summary : string) (Separator : ascii) (Rest : list string),
        bResults = true ->
        InfoMessages = (Id +:+ String Separator Summary) :: Rest ->
        String.length Id = 40%nat ->
        GetCommitInfo E InPathToGitBinary InRepositoryRoot OutCommitId
          OutCommitSummary w
        = ((true, Id, Summary), w'))
  /\ (forall (Line : string) (Rest : list string),
        bResults = true ->
        InfoMessages = Line :: Rest ->
        (String.length Line <= 40)%nat ->
        GetCommitInfo E InPathToGitBinary InRepositoryRoot OutCommitId
          OutCommitSummary w
        = ((true, Line, ""), w')).
Proof.
  intros Hrun. unfold GetCommitInfo. unfold_M. rewrite Hrun.
  split; [|split].
  - intros [-> | ->]; [reflexivity|].
    rewrite andb_false_r. reflexivity.
  - intros Id Summary Separator Rest -> -> HId. cbn.
    unfold FString.Left, FString.RightChop.
    change (Z.to_nat 40) with 40%nat. change (Z.to_nat 41) with 41%nat.
    rewrite <- HId at 1. rewrite take_chars_app.
    change 41%nat with (40 + 1)%nat. rewrite <- HId.
    rewrite drop_chars_app. reflexivity.
  - intros Line Rest -> -> HLine. cbn.
    unfold FString.Left, FString.RightChop.
    change (Z.to_nat 40) with 40%nat. change (Z.to_nat 41) with 41%nat.
    assert (Htake : forall n s, (String.length s <= n)%nat ->
                                FString.take_chars n s = s).
    { clear. intros n s. revert n.
      induction s as [|c s IH]; intros [|n] Hn; simpl in *;
        try reflexivity; try lia.
      f_equal. apply IH. lia. }
    assert (Hdrop : forall n s, (String.length s <= n)%nat ->
                                FString.drop_chars n s = "").
    { clear. intros n s. revert n.
      induction s as [|c s IH]; intros [|n] Hn; simpl in *;
        try reflexivity; try lia.
      apply IH. lia. }
    rewrite Htake by exact HLine. rewrite Hdrop by lia. reflexivity.
Qed.

Lemma GetCommitInfo_split_witness :
  GetCommitInfo commit_env "git" "/repo" "" "" empty_world
  = ((true, commit_id, "Fix the map"),
     set_Trace [mkCmdLine "log" "git" "/repo" ["-1"; format_hash_subject] []]
       empty_world).
Proof.
  destruct (GetCommitInfo_split commit_env "git" "/repo" "" "" empty_world
              (set_Trace
                 [mkCmdLine "log" "git" "/repo" ["-1"; format_hash_subject] []]
                 empty_world)
              true [commit_id +:+ " Fix the map"] [])
    as (_ & Hsplit & _); [vm_compute; reflexivity|].
  apply (Hsplit commit_id "Fix the map" " "%char []); reflexivity.
Defined.

(** ** Remote status *)

Section RemoteFrame.

Context (E : Env) (H : Host) (bin root Current : string) (bDiff : bool).
Context (FilesToDiff : list string).

(** What the last loop of [CheckRemote] may do to an entry. *)
Let marked (s s' : FGitSourceControlState) : Prop :=
  s' = s
  \/ exists (Branch : string) (r : ERemoteState.t),
       (r = ERemoteState.NotAtHead \/ r = ERemoteState.NotLatest)
       /\ s' = set_State (set_HeadBranch Branch)
                 (set_State (set_RemoteState r) s).

Let framed (Old New : gmap string FGitSourceControlState) : Prop :=
  forall Key : string,
    match Old !! Key with
    | None => New !! Key = None
    | Some s => exists s', New !! Key = Some s' /\ marked s s'
    end.

Lemma CheckRemote_apply_framed (Old States : gmap string
  FGitSourceControlState) (NewFile : string * string) :
  framed Old States -> framed Old (CheckRemote_apply Current States NewFile).
Proof.
  intros Hf Key. specialize (Hf Key). unfold CheckRemote_apply.
  destruct (States !! NewFile.1) as [t|] eqn:Ht; [|exact Hf].
  destruct (decide (NewFile.1 = Key)) as [<-|Hne].
  - rewrite lookup_insert_eq. rewrite Ht in Hf.
    destruct (Old !! NewFile.1) as [s|]; [|discriminate].
    destruct Hf as (s' & [= <-] & Hm).
    eexists. split; [reflexivity|]. right.
    exists NewFile.2,
      (if String.eqb NewFile.2 Current
       then ERemoteState.NotAtHead else ERemoteState.NotLatest).
    split; [destruct (String.eqb _ _); auto|].
    destruct Hm as [->|(B & r & _ & ->)]; [reflexivity|].
    destruct s as [n [f t l u r0 h] p ts]. reflexivity.
  - rewrite lookup_insert_ne by exact Hne. exact Hf.
Qed.

Lemma CheckRemote_apply_fold (Old : gmap string FGitSourceControlState)
  (l : list (string * string)) :
  forall States, framed Old States ->
                 framed Old (foldl (CheckRemote_apply Current) States l).
Proof.
  induction l as [|NewFile l IH]; intros States Hf; [exact Hf|].
  apply IH, CheckRemote_apply_framed, Hf.
Qed.

Lemma framed_refl (Old : gmap string FGitSourceControlState) :
  framed Old Old.
Proof.
  intros Key. destruct (Old !! Key) as [s|]; [|reflexivity].
  exists s. split; [reflexivity | left; reflexivity].
Qed.

Lemma CheckRemote_file_pending (Branch : string) (bCurrent : bool)
  (l : list string) :
  forall acc : gmap string string * bool,
    acc.2 = true ->
    (foldl (CheckRemote_file E root Branch bCurrent) acc l).2 = true.
Proof.
  induction l as [|F l IH]; intros [NewerFiles b] Hb; [exact Hb|].
  simpl in Hb. subst b. cbn [foldl]. apply IH.
  unfold CheckRemote_file.
  destruct (negb _); [destruct (_ && _); reflexivity|].
  destruct (_ || _); reflexivity.
Qed.

Lemma CheckRemote_branch_pending (Branch : string) (L L' : RemoteLoop)
  (w w' : World) :
  CheckRemote_branch E H bin root Current bDiff FilesToDiff Branch L w
  = (L', w') ->
  loop_bPendingRestart L = true -> loop_bPendingRestart L' = true.
Proof.
  unfold CheckRemote_branch. unfold_M.
  destruct (RunCommand E "log" bin root _ FilesToDiff [] (loop_ErrorMessages L)
              w) as [[[bLog LogResults] Errs] w1].
  destruct bLog; [|intros [= <- <-]; auto].
  destruct (0 <? length (StatusBranchNames H))%nat.
  - destruct (RunCommand E "diff" bin root _ FilesToDiff [] Errs w1)
      as [[[bD DiffResults] Errs2] w2].
    match goal with
    | |- context [foldl ?f ?a ?l] =>
        pose proof (CheckRemote_file_pending Branch
                      (bDiff && String.eqb Branch Current) l a) as Hp;
        destruct (foldl f a l) as [NewerFiles b]
    end.
    intros [= <- <-] Hb. apply Hp, Hb.
  - match goal with
    | |- context [foldl ?f ?a ?l] =>
        pose proof (CheckRemote_file_pending Branch
                      (bDiff && String.eqb Branch Current) l a) as Hp;
        destruct (foldl f a l) as [NewerFiles b]
    end.
    intros [= <- <-] Hb. apply Hp, Hb.
Qed.

Lemma CheckRemote_loop_pending (Branches : list string) :
  forall (L L' : RemoteLoop) (w w' : World),
    CheckRemote_loop E H bin root Current bDiff FilesToDiff Branches L w
    = (L', w') ->
    loop_bPendingRestart L = true -> loop_bPendingRestart L' = true.
Proof.
  induction Branches as [|Branch Branches IH]; intros L L' w w'; simpl.
  - unfold_M. intros [= <- <-]. auto.
  - unfold_M.
    destruct (CheckRemote_branch E H bin root Current bDiff FilesToDiff
                Branch L w) as [L1 w1] eqn:Hb.
    intros Hloop HL. apply (IH _ _ _ _ Hloop).
    apply (CheckRemote_branch_pending _ _ _ _ _ Hb HL).
Qed.

End RemoteFrame.

(** X20: [CheckRemote] never adds an entry to [OutStates] and never
    removes one; of an entry it leaves everything but the remote state
    and the head branch as it was, and a remote state it writes is
    NotAtHead or NotLatest, never UpToDate.  The error messages it had
    are kept in front of the new ones, and a pending restart stays
    pending.  Without the module it changes nothing and launches
    nothing. *)
Theorem CheckRemote_frame (E : Env) (H : Host) (InPathToGitBinary
  InRepositoryRoot : string) (Files OutErrorMessages : list string)
  (OutStates : gmap string FGitSourceControlState) (bPendingRestart : bool)
  (w : World) :
  exists (Errors : list string) (States : gmap string FGitSourceControlState)
         (bPending : bool) (w' : World),
    CheckRemote E H InPathToGitBinary InRepositoryRoot Files OutErrorMessages
      OutStates bPendingRestart w
    = ((Errors, States, bPending), w')
    /\ (forall Key : string,
          match OutStates !! Key with
          | None => States !! Key = None
          | Some s =>
              exists s', States !! Key = Some s'
                /\ (s' = s
                    \/ exists (Branch : string) (r : ERemoteState.t),
                         (r = ERemoteState.NotAtHead
                          \/ r = ERemoteState.NotLatest)
                         /\ s' = set_State (set_HeadBranch Branch)
                                   (set_State (set_RemoteState r) s))
          end)
    /\ (exists More, Errors = OutErrorMessages ++ More)
    /\ (bPendingRestart = true -> bPending = true)
    /\ (ModuleAvailable E = false ->
        Errors = OutErrorMessages /\ States = OutStates
        /\ bPending = bPendingRestart /\ w' = w).
Proof.
  unfold CheckRemote.
  destruct (ModuleAvailable E) eqn:Hmod; cbn [negb].
  2: { eexists _, _, _, _. split; [reflexivity|].
       split; [apply framed_refl|].
       split; [exists []; symmetry; apply app_nil_r|]. auto. }
  unfold_M.
  destruct (GetRemoteBranchName E H InPathToGitBinary InRepositoryRoot "" w)
    as [[bDiff Current] w1].
  match goal with
  | |- context [(length ?B =? 0)%nat] => destruct (length B =? 0)%nat
  end.
  { eexists _, _, _, _. split; [reflexivity|].
    split; [apply framed_refl|].
    split; [exists []; symmetry; apply app_nil_r|].
    split; [auto | discriminate]. }
  match goal with
  | |- context [CheckRemote_loop E H ?b ?r ?c ?d ?f ?B ?L ?w1] =>
      destruct (CheckRemote_loop E H b r c d f B L w1) as [L1 w2] eqn:Hloop
  end.
  eexists _, _, _, _. split; [reflexivity|].
  split; [apply CheckRemote_apply_fold, framed_refl|].
  split; [eexists; reflexivity|].
  split; [|discriminate].
  intros ->. apply (CheckRemote_loop_pending _ _ _ _ _ _ _ _ _ _ _ _ Hloop).
  reflexivity.
Qed.

Lemma CheckRemote_frame_witness :
  exists (States : gmap string FGitSourceControlState) (w' : World),
    CheckRemote remote_env repo_host "git" "/repo" [] []
      (StateCache modified_world) false empty_world
    = (([], States, true), w')
    /\ States !! "/repo/Content/a.uasset"
       = Some (set_State (set_HeadBranch "origin/main")
                 (set_State (set_RemoteState ERemoteState.NotAtHead)
                    modified_entry))
    /\ States !! "/repo/Binaries/Editor.dll" = None.
Proof.
  destruct (CheckRemote_frame remote_env repo_host "git" "/repo" [] []
              (StateCache modified_world) false empty_world)
    as (Errors & States & bPending & w' & Hrun & Hframe & _).
  exists States, w'.
  assert (Hval : (Errors, States, bPending, w')
                 = CheckRemote remote_env repo_host "git" "/repo" [] []
                     (StateCache modified_world) false empty_world)
    by (symmetry; exact Hrun).
  split; [|split].
  - rewrite Hrun. f_equal.
    apply (f_equal (fun r => (r.1.1.1, r.1.2))) in Hval.
    vm_compute in Hval. injection Hval as -> ->. reflexivity.
  - apply (f_equal (fun r => r.1.1.2 !! "/repo/Content/a.uasset")) in Hval.
    cbn [fst snd] in Hval. rewrite Hval. vm_compute. reflexivity.
  - exact (Hframe "/repo/Binaries/Editor.dll").
Defined.

(** ** Files and directories of a status update *)

Lemma TSet_Add_elem (x y : string) (s : list string) :
  x ∈ TSet_Add y s <-> x = y \/ x ∈ s.
Proof.
  unfold TSet_Add. destruct (bool_decide (y ∈ s)) eqn:Hy.
  - apply bool_decide_eq_true in Hy. split; [auto|].
    intros [->|Hx]; assumption.
  - rewrite elem_of_app, list_elem_of_singleton. tauto.
Qed.

Lemma TSet_Add_NoDup (y : string) (s : list string) :
  NoDup s -> NoDup (TSet_Add y s).
Proof.
  intros Hs. unfold TSet_Add. destruct (bool_decide (y ∈ s)) eqn:Hy;
    [exact Hs|].
  apply bool_decide_eq_false in Hy.
  apply NoDup_app. split; [exact Hs|]. split.
  - intros x Hx Hx'. apply list_elem_of_singleton in Hx'. subst x.
    contradiction.
  - apply NoDup_singleton.
Qed.

Lemma TSet_Add_fold (l : list string) :
  forall s : list string,
    NoDup s ->
    NoDup (foldl (fun s x => TSet_Add x s) s l)
    /\ forall x, x ∈ foldl (fun s x => TSet_Add x s) s l <-> x ∈ s \/ x ∈ l.
Proof.
  induction l as [|y l IH]; intros s Hs; cbn [foldl].
  - split; [exact Hs|]. intros x. rewrite elem_of_nil. tauto.
  - destruct (IH (TSet_Add y s) (TSet_Add_NoDup y s Hs)) as [Hnd Hmem].
    split; [exact Hnd|]. intros x.
    rewrite Hmem, TSet_Add_elem, elem_of_cons. tauto.
Qed.

Lemma RunCommandInternal_trace (E : Env) (c b r : string)
  (p f : list string) (w w0 : World) :
  Trace w = Trace w0 ->
  (RunCommandInternal E c b r p f w).1 = (RunCommandInternal E c b r p f w0).1.
Proof.
  intros Ht. unfold RunCommandInternal, RunCommandInternalRaw. unfold_M.
  rewrite Ht. destruct (_ && _); reflexivity.
Qed.

Section DirectoryFiles.

Context (E : Env) (H : Host) (bin root : string).

Local Notation lsf := (fun Dir => mkCmdLine "ls-files" bin root [] [Dir]).

(** The world in which the "ls-files" of the directory that follows
    [pre] in the list is launched. *)
Local Notation at_launch pre w :=
  (set_Trace (Trace w ++ map lsf (List.filter (DirectoryExists H) pre)) w).

(** [F] is the full path of a line that the "ls-files" of a directory of
    [InFiles] printed, that command having succeeded. *)
Local Notation from_directory InFiles w F :=
  (exists (pre : list string) (Dir : string) (post Lines Errors : list string)
          (Line : string),
     InFiles = pre ++ Dir :: post
     /\ DirectoryExists H Dir = true
     /\ (RunCommandInternal E "ls-files" bin root [] [Dir] (at_launch pre w)).1
        = (true, Lines, Errors)
     /\ Line ∈ Lines
     /\ F = ConvertRelativePathToFull E root Line).

Lemma from_directory_nil (w : World) (F : string) :
  ~ from_directory (@nil string) w F.
Proof.
  intros (pre & Dir & post & Lines & Errors & Line & Heq & _).
  destruct pre; discriminate.
Qed.

Lemma from_directory_plain (File : string) (InFiles : list string)
  (w : World) (F : string) :
  DirectoryExists H File = false ->
  from_directory (File :: InFiles) w F <-> from_directory InFiles w F.
Proof.
  intros Hdir. split.
  - intros (pre & Dir & post & Lines & Errors & Line & Heq & HDir & Hrun
            & HLine & HF).
    destruct pre as [|p0 pre].
    + injection Heq as <- _. congruence.
    + injection Heq as <- ->.
      cbn [List.filter] in Hrun. rewrite Hdir in Hrun.
      exists pre, Dir, post, Lines, Errors, Line. auto.
  - intros (pre & Dir & post & Lines & Errors & Line & -> & HDir & Hrun
            & HLine & HF).
    exists (File :: pre), Dir, post, Lines, Errors, Line.
    cbn [List.filter]. rewrite Hdir. auto.
Qed.

Lemma from_directory_dir (File : string) (InFiles : list string)
  (w w1 : World) (b : bool) (Lines Errs : list string) (F : string) :
  DirectoryExists H File = true ->
  RunCommandInternal E "ls-files" bin root [] [File] w
  = ((b, Lines, Errs), w1) ->
  from_directory (File :: InFiles) w F
  <-> (b = true /\ F ∈ map (ConvertRelativePathToFull E root) Lines)
      \/ from_directory InFiles w1 F.
Proof.
  intros Hdir Hrun.
  assert (Hw1 : w1 = set_Trace (Trace w ++ [lsf File]) w).
  { pose proof (RunCommandInternal_world E "ls-files" bin root [] [File] w)
      as Hw. rewrite Hrun in Hw. exact Hw. }
  assert (Hhere : forall w0, Trace w0 = Trace w ++ [] ->
            (RunCommandInternal E "ls-files" bin root [] [File] w0).1
            = (b, Lines, Errs)).
  { intros w0 Ht.
    rewrite (RunCommandInternal_trace E "ls-files" bin root [] [File] w0 w)
      by (rewrite Ht; apply app_nil_r).
    rewrite Hrun. reflexivity. }
  assert (Hlater : forall pre Dir,
            (RunCommandInternal E "ls-files" bin root [] [Dir]
               (at_launch (File :: pre) w)).1
            = (RunCommandInternal E "ls-files" bin root [] [Dir]
                 (at_launch pre w1)).1).
  { intros pre Dir. apply RunCommandInternal_trace.
    cbn [List.filter]. rewrite Hdir, Hw1. cbn [Trace set_Trace map].
    rewrite <- app_assoc. reflexivity. }
  split.
  - intros (pre & Dir & post & Ls & Es & Line & Heq & HDir & HrunD
            & HLine & HF).
    destruct pre as [|p0 pre].
    + injection Heq as <- <-. left.
      rewrite Hhere in HrunD by reflexivity. injection HrunD as -> -> _.
      split; [reflexivity|]. subst F.
      apply list_elem_of_fmap. exists Line. auto.
    + injection Heq as <- ->. right.
      rewrite Hlater in HrunD.
      exists pre, Dir, post, Ls, Es, Line. auto.
  - intros [[-> HF]|(pre & Dir & post & Ls & Es & Line & -> & HDir & HrunD
                     & HLine & HF)].
    + apply list_elem_of_fmap in HF as (Line & -> & HLine).
      exists [], File, InFiles, Lines, Errs, Line.
      split; [reflexivity|]. split; [exact Hdir|].
      split; [apply Hhere; reflexivity|]. auto.
    + exists (File :: pre), Dir, post, Ls, Es, Line.
      split; [reflexivity|]. split; [exact HDir|].
      rewrite Hlater. auto.
Qed.

Lemma ParseStatusResults_files_spec (InFiles : list string) :
  forall (Files0 : list string) (w : World),
    NoDup Files0 ->
    exists (Files : list string) (w' : World),
      ParseStatusResults_files E H bin root InFiles Files0 w = (Files, w')
      /\ NoDup Files
      /\ (forall F, F ∈ Files <->
            F ∈ Files0
            \/ (F ∈ InFiles /\ DirectoryExists H F = false)
            \/ from_directory InFiles w F)
      /\ Trace w'
         = Trace w ++ map lsf (List.filter (DirectoryExists H) InFiles).
Proof.
  induction InFiles as [|File InFiles IH]; intros Files0 w Hnd.
  - exists Files0, w. split; [reflexivity|]. split; [exact Hnd|]. split.
    + intros F. split; [auto|]. intros [HF|[[HF _]|HF]]; [exact HF| |].
      * apply elem_of_nil in HF. contradiction.
      * apply from_directory_nil in HF. contradiction.
    + simpl. symmetry. apply app_nil_r.
  - cbn [ParseStatusResults_files List.filter].
    destruct (DirectoryExists H File) eqn:Hdir.
    + unfold ListFilesInDirectoryRecurse. unfold_M.
      destruct (RunCommandInternal E "ls-files" bin root [] [File] w)
        as [[[b Lines] Errs] w1] eqn:Hrun.
      pose proof (RunCommandInternal_world E "ls-files" bin root [] [File] w)
        as Hw1. rewrite Hrun in Hw1. cbn [snd] in Hw1.
      set (DirectoryFiles := map (ConvertRelativePathToFull E root) Lines).
      set (Files1 :=
             if b
             then foldl (fun s InnerFile => TSet_Add InnerFile s) Files0
                    DirectoryFiles
             else Files0).
      destruct (TSet_Add_fold DirectoryFiles Files0 Hnd) as [Hnd1 Hmem1].
      assert (HFiles1 : NoDup Files1
                        /\ forall F, F ∈ Files1 <->
                             F ∈ Files0 \/ (b = true /\ F ∈ DirectoryFiles)).
      { unfold Files1. destruct b.
        - split; [exact Hnd1|]. intros F. rewrite Hmem1. tauto.
        - split; [exact Hnd|]. intros F. split; [auto|].
          intros [HF|[Hb _]]; [exact HF | discriminate]. }
      destruct HFiles1 as (HndF & HmemF).
      destruct (IH Files1 w1 HndF)
        as (Files & w' & HrunR & HndR & Hiff & Htrace).
      exists Files, w'. split; [exact HrunR|]. split; [exact HndR|]. split.
      * intros F. rewrite Hiff, HmemF.
        rewrite (from_directory_dir File InFiles w w1 b Lines Errs F Hdir
                   Hrun).
        fold DirectoryFiles. rewrite elem_of_cons.
        split.
        -- intros [[H0|Hd]|[[Hin Hp]|Hfd]]; auto.
        -- intros [H0|[[[->|Hin] Hp]|[Hd|Hfd]]]; auto. congruence.
      * rewrite Htrace, Hw1. cbn [Trace set_Trace map].
        rewrite <- app_assoc. reflexivity.
    + destruct (IH (TSet_Add File Files0) w (TSet_Add_NoDup File Files0 Hnd))
        as (Files & w' & HrunR & HndR & Hiff & Htrace).
      exists Files, w'. split; [exact HrunR|]. split; [exact HndR|].
      split; [|exact Htrace].
      intros F. rewrite Hiff, TSet_Add_elem.
      rewrite (from_directory_plain File InFiles w F Hdir).
      rewrite elem_of_cons. split.
      * intros [[->|H0]|[[Hin Hp]|Hfd]]; auto.
      * intros [H0|[[[->|Hin] Hp]|Hfd]]; auto.
Qed.

End DirectoryFiles.

(** X21: [ParseStatusResults] hands to [ParseFileStatusResult] a set of
    files without duplicate, which holds exactly the listed paths that
    are no directory and, for every listed directory whose "ls-files"
    succeeds, the full paths of the lines that this very launch prints
    (nothing for a directory whose "ls-files" fails).  It launches one
    "ls-files" per listed directory, in the order of the list, before any
    other command. *)
Theorem ParseStatusResults_file_set (E : Env) (H : Host) (InPathToGitBinary
  InRepositoryRoot : string) (InFiles : list string) (w : World) :
  let ls_files :=
    fun Dir =>
      mkCmdLine "ls-files" InPathToGitBinary InRepositoryRoot [] [Dir] in
  exists (Files : list string) (w' : World),
    (forall (InUsingLfsLocking : bool) (InResults : gmap string string)
            (OutStates : gmap string FGitSourceControlState),
       ParseStatusResults E H InPathToGitBinary InRepositoryRoot
         InUsingLfsLocking InFiles InResults OutStates w
       = ParseFileStatusResult E InPathToGitBinary InRepositoryRoot
           InUsingLfsLocking Files InResults OutStates w')
    /\ NoDup Files
    /\ (forall F, F ∈ InFiles -> DirectoryExists H F = false -> F ∈ Files)
    /\ (forall F, F ∈ Files <->
          (F ∈ InFiles /\ DirectoryExists H F = false)
          \/ exists (pre : list string) (Dir : string)
                    (post Lines Errors : list string) (Line : string),
               InFiles = pre ++ Dir :: post
               /\ DirectoryExists H Dir = true
               /\ (RunCommandInternal E "ls-files" InPathToGitBinary
                     InRepositoryRoot [] [Dir]
                     (set_Trace
                        (Trace w
                         ++ map ls_files
                              (List.filter (DirectoryExists H) pre))
                        w)).1
                  = (true, Lines, Errors)
               /\ Line ∈ Lines
               /\ F = ConvertRelativePathToFull E InRepositoryRoot Line)
    /\ Trace w'
       = Trace w ++ map ls_files (List.filter (DirectoryExists H) InFiles).
Proof.
  intros ls_files. subst ls_files.
  destruct (ParseStatusResults_files_spec E H InPathToGitBinary
              InRepositoryRoot InFiles [] w (NoDup_nil_2))
    as (Files & w' & Hrun & Hnd & Hiff & Htrace).
  exists Files, w'. split.
  - intros lfs InResults OutStates. unfold ParseStatusResults. unfold_M.
    rewrite Hrun. reflexivity.
  - split; [exact Hnd|]. split.
    + intros F HF Hplain. apply Hiff. right. left. auto.
    + split; [|exact Htrace].
      intros F. rewrite Hiff. split.
      * intros [H0|[H1|H2]]; [|auto|auto].
        apply elem_of_nil in H0. contradiction.
      * intros [H1|H2]; auto.
Qed.

Lemma ParseStatusResults_file_set_witness :
  exists (Files : list string) (w' : World),
    ParseStatusResults ls_files_env content_host "git" "/repo" false
      ["/repo/Content"; "/repo/Content/a.uasset"; "/repo/x.ini"] ∅ ∅
      empty_world
    = ParseFileStatusResult ls_files_env "git" "/repo" false Files ∅ ∅ w'
    /\ NoDup Files
    /\ "/repo/x.ini" ∈ Files
    /\ "/repo/Content/b.uasset" ∈ Files
    /\ ("/repo/Content/c.uasset" ∉ Files)
    /\ Trace w' = [mkCmdLine "ls-files" "git" "/repo" [] ["/repo/Content"]].
Proof.
  destruct (ParseStatusResults_file_set ls_files_env content_host "git"
              "/repo"
              ["/repo/Content"; "/repo/Content/a.uasset"; "/repo/x.ini"]
              empty_world)
    as (Files & w' & Hrun & Hnd & Hplain & Hiff & Htrace).
  exists Files, w'. split; [apply Hrun|]. split; [exact Hnd|].
  split; [|split; [|split; [|exact Htrace]]].
  - apply Hplain; [|reflexivity].
    apply list_elem_of_In. simpl. auto.
  - apply Hiff. right.
    exists [], "/repo/Content", ["/repo/Content/a.uasset"; "/repo/x.ini"],
      ["Content/a.uasset"; "Content/b.uasset"], [], "Content/b.uasset".
    split; [reflexivity|]. split; [reflexivity|].
    split; [vm_compute; reflexivity|].
    split; [apply list_elem_of_In; simpl; auto | reflexivity].
  - intros Hin. apply Hiff in Hin
      as [[Hlisted _]
         |(pre & Dir & post & Lines & Errors & Line & Heq & HDir & Hls
           & HLine & HF)].
    + apply list_elem_of_In in Hlisted. simpl in Hlisted.
      destruct Hlisted as [Hl|[Hl|[Hl|[]]]]; discriminate.
    + assert (HLines : Lines = ["Content/a.uasset"; "Content/b.uasset"]).
      { revert Hls.
        generalize (List.filter (DirectoryExists content_host) pre).
        intros l Hls. vm_compute in Hls. injection Hls as HL _.
        symmetry. exact HL. }
      subst Lines. apply list_elem_of_In in HLine. simpl in HLine.
      destruct HLine as [<-|[<-|[]]]; vm_compute in HF; discriminate.
Defined.

(** ** Fixed columns of the plumbing output *)

Lemma append_assoc (a b c : string) : (a +:+ b) +:+ c = a +:+ (b +:+ c).
Proof.
  induction a as [|ch a IH]; [reflexivity|].
  change ((String ch a +:+ b) +:+ c) with (String ch ((a +:+ b) +:+ c)).
  change (String ch a +:+ (b +:+ c)) with (String ch (a +:+ (b +:+ c))).
  f_equal. exact IH.
Qed.

Lemma length_append (a b : string) :
  String.length (a +:+ b) = (String.length a + String.length b)%nat.
Proof.
  induction a as [|ch a IH]; [reflexivity|].
  change (String ch a +:+ b) with (String ch (a +:+ b)).
  simpl. f_equal. exact IH.
Qed.

Lemma Mid_app (a b c : string) :
  FString.Mid (Z.of_nat (String.length a)) (Z.of_nat (String.length b))
    (a +:+ b +:+ c)
  = b.
Proof.
  unfold FString.Mid, FString.Len.
  replace (Z.of_nat (String.length b) <? 0)%Z with false
    by (symmetry; apply Z.ltb_ge; lia).
  rewrite !length_append.
  replace (Z.to_nat
             (Z.max 0
                (Z.min (Z.of_nat (String.length a))
                   (Z.of_nat
                      (String.length a
                       + (String.length b + String.length c))))))
    with (String.length a + 0)%nat by lia.
  rewrite drop_chars_app. cbn [FString.drop_chars].
  match goal with
  | |- FString.take_chars ?n _ = _ =>
      replace n with (String.length b) by lia
  end.
  apply take_chars_app.
Qed.

Lemma take_drop_chars (n : nat) (s : string) :
  s = FString.take_chars n s +:+ FString.drop_chars n s.
Proof.
  revert s. induction n as [|n IH]; intros [|c s]; try reflexivity.
  cbn [FString.take_chars FString.drop_chars].
  change (String c (FString.take_chars n s) +:+ FString.drop_chars n s)
    with (String c (FString.take_chars n s +:+ FString.drop_chars n s)).
  f_equal. apply IH.
Qed.

Lemma drop_chars_length (n : nat) (s : string) :
  String.length (FString.drop_chars n s) = (String.length s - n)%nat.
Proof.
  revert s. induction n as [|n IH]; intros [|c s]; simpl; try lia.
  apply IH.
Qed.

Lemma Right_suffix (n : Z) (s : string) :
  (0 <= n)%Z ->
  (exists pre, s = pre +:+ FString.Right n s)
  /\ String.length (FString.Right n s)
     = Nat.min (Z.to_nat n) (String.length s).
Proof.
  intros Hn. unfold FString.Right. split.
  - eexists. apply take_drop_chars.
  - rewrite drop_chars_length. lia.
Qed.

Lemma FindChar_app (c : ascii) (a b : string) :
  FString.FindChar c a = None ->
  FString.FindChar c (a +:+ b)
  = (fun i => (String.length a + i)%nat) <$> FString.FindChar c b.
Proof.
  induction a as [|d a IH]; intros Ha.
  - change ("" +:+ b) with b.
    destruct (FString.FindChar c b); reflexivity.
  - change (String d a +:+ b) with (String d (a +:+ b)).
    cbn [FString.FindChar] in Ha |- *.
    destruct (Ascii.eqb d c); [discriminate|].
    destruct (FString.FindChar c a) eqn:Hfa; [discriminate|].
    rewrite IH by reflexivity.
    destruct (FString.FindChar c b); reflexivity.
Qed.

Lemma to_int32_range (z : Z) :
  (- 2 ^ 31 <= FString.to_int32 z < 2 ^ 31)%Z.
Proof.
  unfold FString.to_int32.
  pose proof (Z.mod_pos_bound z (2 ^ 32) ltac:(lia)) as Hm.
  destruct (Z.ltb_spec (z mod 2 ^ 32) (2 ^ 31)); lia.
Qed.

Lemma to_int32_small (z : Z) :
  (- 2 ^ 31 <= z < 2 ^ 31)%Z -> FString.to_int32 z = z.
Proof.
  intros Hz. unfold FString.to_int32.
  destruct (Z_lt_le_dec z 0) as [Hneg|Hpos].
  - replace (z mod 2 ^ 32)%Z with (z + 2 ^ 32)%Z.
    + destruct (Z.ltb_spec (z + 2 ^ 32) (2 ^ 31)); lia.
    + apply Z.mod_unique with (q := (-1)%Z); lia.
  - rewrite Z.mod_small by lia.
    destruct (Z.ltb_spec z (2 ^ 31)); lia.
Qed.

(** X22: [FGitLsTreeParser] has no result without a first line.  On a
    first line made of 12 characters, a 40-character hash, one more
    character, a size field and a tab, with no tab before that one, it
    reads the hash and the size field as a 32-bit integer: the size
    always lies between -2^31 and 2^31 - 1, it is the number of the size
    field when that number lies in this range, and beyond it is that
    number (saturated at 64 bits) truncated to 32 bits.  The other lines
    play no part.  On a first line without tab the size is not
    assigned. *)
Theorem FGitLsTreeParser_columns :
  FGitLsTreeParser [] = None
  /\ (forall (Prefix Hash SizeField Path : string) (Separator : ascii)
             (Rest : list string),
        String.length Prefix = 12%nat ->
        String.length Hash = 40%nat ->
        FString.FindChar FString.tab
          (Prefix +:+ Hash +:+ String Separator SizeField) = None ->
        exists FileSize : Z,
          FGitLsTreeParser
            ((Prefix +:+ Hash +:+ String Separator SizeField
              +:+ String FString.tab Path) :: Rest)
          = Some (LsTreeParser.mk Hash (Some FileSize))
          /\ (- 2 ^ 31 <= FileSize < 2 ^ 31)%Z
          /\ FileSize
             = FString.to_int32
                 (Z.max (- 2 ^ 63)
                    (Z.min (2 ^ 63 - 1) (FString.number_prefix SizeField)))
          /\ ((- 2 ^ 31 <= FString.number_prefix SizeField < 2 ^ 31)%Z ->
              FileSize = FString.number_prefix SizeField))
  /\ (forall (Line : string) (Rest : list string),
        FString.FindChar FString.tab Line = None ->
        exists Hash,
          FGitLsTreeParser (Line :: Rest)
          = Some (LsTreeParser.mk Hash None)).
Proof.
  split; [reflexivity|]. split.
  - intros Prefix Hash SizeField Path Separator Rest HP HH Htab.
    unfold FGitLsTreeParser. cbn [lookup list_lookup].
    set (Line := Prefix +:+ Hash +:+ String Separator SizeField
                 +:+ String FString.tab Path).
    assert (HMid : FString.Mid 12 40 Line = Hash).
    { change 12%Z with (Z.of_nat 12). change 40%Z with (Z.of_nat 40).
      rewrite <- HH, <- HP. apply Mid_app. }
    assert (HLine : Line
                    = (Prefix +:+ Hash +:+ String Separator SizeField)
                      +:+ String FString.tab Path).
    { unfold Line. rewrite !append_assoc. reflexivity. }
    assert (HFind : FString.FindChar FString.tab Line
                    = Some (53 + String.length SizeField)%nat).
    { rewrite HLine, FindChar_app by exact Htab.
      cbn. rewrite !length_append, HP, HH. cbn.
      f_equal. lia. }
    rewrite HMid, HFind.
    assert (HLine2 : Line
                     = (Prefix +:+ Hash +:+ String Separator "")
                       +:+ SizeField +:+ String FString.tab Path).
    { unfold Line. rewrite !append_assoc. reflexivity. }
    rewrite HLine2.
    replace 53%Z
      with (Z.of_nat (String.length (Prefix +:+ Hash +:+ String Separator "")))
      by (rewrite !length_append, HP, HH; reflexivity).
    replace (Z.of_nat (53 + String.length SizeField)
             - Z.of_nat
                 (String.length (Prefix +:+ Hash +:+ String Separator "")))%Z
      with (Z.of_nat (String.length SizeField))
      by (rewrite !length_append, HP, HH; cbn; lia).
    rewrite Mid_app.
    exists (FString.Atoi SizeField). split; [reflexivity|].
    split; [apply to_int32_range|].
    split; [reflexivity|].
    intros Hrange. unfold FString.Atoi, FString.Strtol.
    rewrite Z.min_r, Z.max_r by lia. apply to_int32_small, Hrange.
  - intros Line Rest Htab. unfold FGitLsTreeParser. cbn [lookup list_lookup].
    rewrite Htab. eexists. reflexivity.
Qed.

Lemma FGitLsTreeParser_columns_witness :
  FGitLsTreeParser [ls_tree_line]
  = Some (LsTreeParser.mk "a14347dc3b589b78fb19ba62a7e3982f343718bc"
            (Some 70731%Z))
  /\ FGitLsTreeParser
       ["100644 blob a14347dc3b589b78fb19ba62a7e3982f343718bc 4294967296"
        +:+ String FString.tab "Content/Big.uasset"]
     = Some (LsTreeParser.mk "a14347dc3b589b78fb19ba62a7e3982f343718bc"
               (Some 0%Z)).
Proof.
  destruct FGitLsTreeParser_columns as (_ & Hline & _).
  split.
  - destruct (Hline "100644 blob "
                "a14347dc3b589b78fb19ba62a7e3982f343718bc" "  70731"
                "Content/Blueprints/BP_Test.uasset" " "%char []
                eq_refl eq_refl eq_refl)
      as (FileSize & Hparse & _ & _ & Hsmall).
    assert (Hrange : (- 2 ^ 31 <= FString.number_prefix "  70731" < 2 ^ 31)%Z)
      by (vm_compute; split; [intros Hgt; discriminate Hgt | reflexivity]).
    rewrite (Hsmall Hrange) in Hparse. exact Hparse.
  - destruct (Hline "100644 blob "
                "a14347dc3b589b78fb19ba62a7e3982f343718bc" "4294967296"
                "Content/Big.uasset" " "%char [] eq_refl eq_refl eq_refl)
      as (FileSize & Hparse & _ & Hvalue & _).
    rewrite Hvalue in Hparse. exact Hparse.
Defined.

(** X23: [RunGetConflictStatus] launches "ls-files --unmerged" on the
    file and never touches the composite state.  When the command fails
    or does not print three lines, the entry stays as it was.  On three
    lines, the base and remote revisions are the 40 characters that
    follow the first 7 of the first and of the third line, and the base
    and remote files are the last 50 characters of those lines (the whole
    line when it is shorter); the second line plays no part. *)
Theorem RunGetConflictStatus_info (E : Env) (InPathToGitBinary
  InRepositoryRoot InFile : string) (s : FGitSourceControlState)
  (w w' : World) (bResult : bool) (Results ErrorMessages : list string) :
  RunCommandInternal E "ls-files" InPathToGitBinary InRepositoryRoot
    ["--unmerged"] [InFile] w
  = ((bResult, Results, ErrorMessages), w') ->
  exists s',
    RunGetConflictStatus E InPathToGitBinary InRepositoryRoot InFile s w
    = (s', w')
    /\ State s' = State s
    /\ LocalFilename s' = LocalFilename s
    /\ (bResult = false \/ length Results <> 3%nat -> s' = s)
    /\ (forall Mode0 Hash0 Rest0 Line1 Mode2 Hash2 Rest2 : string,
          bResult = true ->
          Results = [Mode0 +:+ Hash0 +:+ Rest0; Line1;
                     Mode2 +:+ Hash2 +:+ Rest2] ->
          String.length Mode0 = 7%nat -> String.length Hash0 = 40%nat ->
          String.length Mode2 = 7%nat -> String.length Hash2 = 40%nat ->
          let Info := PendingResolveInfo s' in
          BaseRevision Info = Hash0
          /\ RemoteRevision Info = Hash2
          /\ (exists pre, Mode0 +:+ Hash0 +:+ Rest0 = pre +:+ BaseFile Info)
          /\ String.length (BaseFile Info)
             = Nat.min 50 (String.length (Mode0 +:+ Hash0 +:+ Rest0))
          /\ (exists pre, Mode2 +:+ Hash2 +:+ Rest2 = pre +:+ RemoteFile Info)
          /\ String.length (RemoteFile Info)
             = Nat.min 50 (String.length (Mode2 +:+ Hash2 +:+ Rest2))).
Proof.
  intros Hrun. unfold RunGetConflictStatus. unfold_M. rewrite Hrun.
  destruct Results as [|R0 [|R1 [|R2 [|R3 Results]]]];
    try (exists s; split; [reflexivity|]; split; [reflexivity|];
         split; [reflexivity|]; split; [intros; reflexivity|];
         intros; congruence).
  destruct bResult.
  2: { exists s. split; [reflexivity|]. split; [reflexivity|].
       split; [reflexivity|]. split; [intros; reflexivity|].
       intros; congruence. }
  eexists. split; [reflexivity|]. split; [reflexivity|].
  split; [reflexivity|]. split.
  - intros [Hb|Hlen]; [discriminate | simpl in Hlen; lia].
  - intros Mode0 Hash0 Rest0 Line1 Mode2 Hash2 Rest2 _ [= -> -> ->]
      HM0 HH0 HM2 HH2.
    cbn [PendingResolveInfo set_PendingResolveInfo FGitConflictStatusParser
           BaseRevision RemoteRevision BaseFile RemoteFile].
    change 7%Z with (Z.of_nat 7). change 40%Z with (Z.of_nat 40).
    split; [rewrite <- HH0, <- HM0; apply Mid_app|].
    split; [rewrite <- HH2, <- HM2; apply Mid_app|].
    destruct (Right_suffix 50 (Mode0 +:+ Hash0 +:+ Rest0)) as [Hs0 Hl0];
      [lia|].
    destruct (Right_suffix 50 (Mode2 +:+ Hash2 +:+ Rest2)) as [Hs2 Hl2];
      [lia|].
    auto.
Qed.

Lemma RunGetConflictStatus_info_witness :
  exists s',
    RunGetConflictStatus unmerged_env "git" "/repo"
      "Content/Blueprints/BP_Test.uasset" modified_entry empty_world
    = (s',
       set_Trace
         [mkCmdLine "ls-files" "git" "/repo" ["--unmerged"]
            ["Content/Blueprints/BP_Test.uasset"]]
         empty_world)
    /\ BaseRevision (PendingResolveInfo s')
       = "d9b33098273547b57c0af314136f35b494e16dcb"
    /\ RemoteRevision (PendingResolveInfo s')
       = "f3137a7167c840847cd7bd2bf07eefbfb2d9bcd2"
    /\ String.length (BaseFile (PendingResolveInfo s')) = 50%nat.
Proof.
  destruct (RunGetConflictStatus_info unmerged_env "git" "/repo"
              "Content/Blueprints/BP_Test.uasset" modified_entry empty_world
              (set_Trace
                 [mkCmdLine "ls-files" "git" "/repo" ["--unmerged"]
                    ["Content/Blueprints/BP_Test.uasset"]]
                 empty_world)
              true unmerged_lines [])
    as (s' & Hrun & _ & _ & _ & Hinfo); [vm_compute; reflexivity|].
  exists s'. split; [exact Hrun|].
  destruct (Hinfo "100644 " "d9b33098273547b57c0af314136f35b494e16dcb"
              (" 1" +:+ String FString.tab "Content/Blueprints/BP_Test.uasset")
              ("100644 a14347dc3b589b78fb19ba62a7e3982f343718bc 2"
               +:+ String FString.tab "Content/Blueprints/BP_Test.uasset")
              "100644 " "f3137a7167c840847cd7bd2bf07eefbfb2d9bcd2"
              (" 3" +:+ String FString.tab "Content/Blueprints/BP_Test.uasset")
              eq_refl eq_refl eq_refl eq_refl eq_refl eq_refl)
    as (HB & HR & _ & HL & _).
  split; [exact HB|]. split; [exact HR|]. exact HL.
Defined.

(** ** The lock list without the remote *)

Lemma add_locks_origin (E : Env) (root : string)
  (keep : LocksParser.t -> bool) (Results : list string) :
  forall (OutLocks : gmap string string) (File User : string),
    add_locks E root keep Results OutLocks !! File = Some User ->
    OutLocks !! File = Some User
    \/ exists Line,
         Line ∈ Results
         /\ keep (FGitLfsLocksParser E root Line true) = true
         /\ FGitLfsLocksParser E root Line true = LocksParser.mk File User.
Proof.
  unfold add_locks.
  induction Results as [|Result Results IH]; intros OutLocks File User;
    cbn [foldl]; [auto|].
  intros Hout. apply IH in Hout as [Hout|(Line & Hin & Hkeep & Hparse)].
  - destruct (keep (FGitLfsLocksParser E root Result true)) eqn:Hkeep;
      [|left; exact Hout].
    destruct (decide
                (LocksParser.LocalFilename
                   (FGitLfsLocksParser E root Result true) = File))
      as [Heq|Hne].
    + rewrite Heq, lookup_insert_eq in Hout. injection Hout as HUser.
      right. exists Result. split; [left|]. split; [exact Hkeep|].
      destruct (FGitLfsLocksParser E root Result true) as [f u].
      simpl in *. congruence.
    + rewrite lookup_insert_ne in Hout by exact Hne. left. exact Hout.
  - right. exists Line. split; [right; exact Hin|]. auto.
Qed.

(** X24: when the cache has expired, the remote lock query fails, the
    module is there and the two local queries succeed, [GetAllLocks]
    answers from them without touching the cache or its time stamp: the
    world changes by the three launches only.  Every lock of the answer was in the caller's map, or is a line of
    the "--cached" list owned by another user, or a line of the "--local"
    list owned by the user of the provider. *)
Theorem GetAllLocks_offline (E : Env) (InRepositoryRoot GitBinaryFallback
  : string) (OutErrorMessages : list string) (OutLocks : gmap string string)
  (bInvalidateCache : bool) (w : World) :
  let q0 := locks_query E InRepositoryRoot [] in
  let q1 := locks_query E InRepositoryRoot ["--cached"] in
  let q2 := locks_query E InRepositoryRoot ["--local"] in
  let w1 := set_Trace (Trace w ++ [q0]) w in
  let w2 := set_Trace (Trace w ++ [q0; q1]) w in
  let Cached :=
    (RunCommandInternal E "locks" (LFSLockBinary E) InRepositoryRoot
       ["--cached"] [] w1).1.1.2 in
  let Local :=
    (RunCommandInternal E "locks" (LFSLockBinary E) InRepositoryRoot
       ["--local"] [] w2).1.1.2 in
  cache_expired E w bInvalidateCache = true ->
  ModuleAvailable E = true ->
  ReturnCode (ExecProcess E (Trace w) q0) <> 0%Z ->
  ReturnCode (ExecProcess E (Trace w ++ [q0]) q1) = 0%Z ->
  ReturnCode (ExecProcess E (Trace w ++ [q0; q1]) q2) = 0%Z ->
  exists (Errors : list string) (Locks : gmap string string),
    GetAllLocks E InRepositoryRoot GitBinaryFallback OutErrorMessages
      OutLocks bInvalidateCache w
    = ((true, Errors, Locks), set_Trace (Trace w ++ [q0; q1; q2]) w)
    /\ forall File User : string,
         Locks !! File = Some User ->
         OutLocks !! File = Some User
         \/ (FString.Equals User (ProviderLockUser E) = false
             /\ exists Line,
                  Line ∈ Cached
                  /\ FGitLfsLocksParser E InRepositoryRoot Line true
                     = LocksParser.mk File User)
         \/ (FString.Equals User (ProviderLockUser E) = true
             /\ exists Line,
                  Line ∈ Local
                  /\ FGitLfsLocksParser E InRepositoryRoot Line true
                     = LocksParser.mk File User).
Proof.
  intros q0 q1 q2 w1 w2 Cached Local Hexp Hmod Hq0 Hq1 Hq2.
  subst q0 q1 q2. unfold locks_query in *.
  unfold GetAllLocks. unfold_M.
  unfold cache_expired in Hexp. rewrite Hexp.
  rewrite RunLFSCommand_no_file. step_cmd.
  apply Z.eqb_neq in Hq0. rewrite Hq0. rewrite Hmod. cbn [negb].
  rewrite !RunLFSCommand_no_file.
  fold w1.
  destruct (RunCommandInternal_result E "locks" (LFSLockBinary E)
              InRepositoryRoot ["--cached"] [] w1) as (R1 & E1 & HR1).
  assert (HCached : Cached = R1) by (unfold Cached; rewrite HR1; reflexivity).
  rewrite HR1. cbn [Trace set_Trace w1] in *.
  rewrite !RunLFSCommand_no_file.
  match goal with
  | |- context [RunCommandInternal E "locks" _ _ ["--local"] [] ?W] =>
      replace W with w2
        by (unfold w2, w1, set_Trace; simpl; rewrite <- app_assoc;
            reflexivity)
  end.
  destruct (RunCommandInternal_result E "locks" (LFSLockBinary E)
              InRepositoryRoot ["--local"] [] w2) as (R2 & E2 & HR2).
  assert (HLocal : Local = R2) by (unfold Local; rewrite HR2; reflexivity).
  rewrite HR2. cbn [Trace set_Trace w2] in *.
  apply Z.eqb_eq in Hq1, Hq2. rewrite Hq1, Hq2. cbn [andb].
  eexists _, _. split.
  - f_equal. unfold set_Trace. simpl. rewrite <- !app_assoc. reflexivity.
  - intros File User Hout.
    apply add_locks_origin in Hout as [Hout|(Line & Hin & Hkeep & Hparse)].
    + apply add_locks_origin in Hout as [Hout|(Line & Hin & Hkeep & Hparse)];
        [left; exact Hout|].
      right. left. rewrite Hparse in Hkeep. cbn in Hkeep.
      apply negb_true_iff in Hkeep. split; [exact Hkeep|].
      exists Line. rewrite HCached. auto.
    + right. right. rewrite Hparse in Hkeep. cbn in Hkeep.
      split; [exact Hkeep|]. exists Line. rewrite HLocal. auto.
Qed.

Lemma GetAllLocks_offline_witness :
  exists (Errors : list string) (Locks : gmap string string),
    GetAllLocks offline_env "/repo" "git" [] ∅ true empty_world
    = ((true, Errors, Locks),
       set_Trace
         [locks_query offline_env "/repo" [];
          locks_query offline_env "/repo" ["--cached"];
          locks_query offline_env "/repo" ["--local"]]
         empty_world)
    /\ forall File User : string,
         Locks !! File = Some User ->
         (File = "/repo/Content/a.uasset" /\ User = "bob")
         \/ (File = "/repo/Content/b.uasset" /\ User = "me").
Proof.
  destruct (GetAllLocks_offline offline_env "/repo" "git" [] ∅ true
              empty_world)
    as (Errors & Locks & Hrun & Horigin);
    [reflexivity | reflexivity | vm_compute; discriminate
    | reflexivity | reflexivity |].
  exists Errors, Locks. split; [exact Hrun|].
  intros File User HLock.
  destruct (Horigin File User HLock)
    as [Hcaller|[[Hother (Line & Hin & Hparse)]
                |[Hown (Line & Hin & Hparse)]]].
  - rewrite lookup_empty in Hcaller. discriminate.
  - vm_compute in Hin. apply list_elem_of_In in Hin.
    destruct Hin as [<-|[<-|[]]]; vm_compute in Hparse.
    + injection Hparse as <- <-. left. split; reflexivity.
    + injection Hparse as <- <-. vm_compute in Hother. discriminate.
  - vm_compute in Hin. apply list_elem_of_In in Hin.
    destruct Hin as [<-|[]]; vm_compute in Hparse.
    injection Hparse as <- <-. right. split; reflexivity.
Defined.
